(** * The libopdis data model (opdis/model.h, model.c)

    A shallow embedding of the instruction/operand object model of
    libopdis.  The C code works on heap objects through pointers, so the
    embedding is a state-and-error monad over an explicit heap:

    - a heap cell holds one allocated object (a char buffer, an operand
      struct, an array of operand pointers or an instruction struct), and
      a pointer is NULL or the index of a cell, so that two pointers to
      one object are equal and a write through one shows through the
      other;
    - [malloc]-family calls may fail; an oracle carried by the heap decides
      which of them do;
    - a C operation with undefined behaviour (NULL or dangling dereference,
      a write or read past the end of a buffer) is the outcome [Fault].

    Integers are in [Z].  A value stored into a field or variable of an
    unsigned C type is reduced modulo the width of that type; arguments of
    type [size_t] are taken as the caller passes them.  A [for] loop over
    the operands is a recursion on the number of rounds left, with the
    index of the C code carried along. *)

From Stdlib Require Import ZArith Lia Ascii String.
From stdpp Require Import base tactics option list.

Local Open Scope Z_scope.

(** ** Machine integers *)

(** [unsigned char]: the fixed-size metadata fields. *)
Definition uchar (z : Z) : Z := z mod 256.
(** [unsigned int]. *)
Definition uint (z : Z) : Z := z mod 2 ^ 32.
(** [size_t] / [opdis_off_t]. *)
Definition size_t (z : Z) : Z := z mod 2 ^ 64.

(** ** Pointers *)

Abbreviation loc := nat.

Inductive ptr : Type :=
  | NULL
  | Ptr (l : loc).

#[global] Instance ptr_eq_dec : EqDecision ptr.
Proof. solve_decision. Defined.

Definition is_null (p : ptr) : bool :=
  match p with NULL => true | Ptr _ => false end.

(** ** Characters and C strings *)

Definition NUL : ascii := Ascii.zero.

Definition is_nul (c : ascii) : bool := Ascii.eqb c NUL.

(** The characters of a C string: everything before the first NUL. *)
Fixpoint c_string (s : list ascii) : list ascii :=
  match s with
  | [] => []
  | c :: s' => if is_nul c then [] else c :: c_string s'
  end.

(** Does the buffer hold a terminator at all? *)
Fixpoint terminated (buf : list ascii) : bool :=
  match buf with
  | [] => false
  | c :: buf' => if is_nul c then true else terminated buf'
  end.

(** Overwrite [bs] into [buf] at offset [off]; [None] when the write would
    run past the end of the buffer. *)
Definition write_bytes (off : nat) (bs buf : list ascii)
  : option (list ascii) :=
  if decide (off + length bs <= length buf)%nat
  then Some (take off buf ++ bs ++ drop (off + length bs) buf)
  else None.

(** ** Data model (opdis/model.h) *)

Definition opdis_decode_invalid : Z := 0.
Definition opdis_decode_basic : Z := 1.
Definition opdis_decode_mnem : Z := 2.
Definition opdis_decode_ops : Z := 4.
Definition opdis_decode_mnem_flags : Z := 8.
Definition opdis_decode_op_flags : Z := 16.

Record opdis_reg_t : Type := {
  reg_ascii : list ascii;
  reg_flags : Z;
  reg_id : Z;
  reg_size : Z
}.

Record opdis_abs_addr_t : Type := {
  abs_segment : opdis_reg_t;
  abs_offset : Z
}.

Inductive opdis_displacement_t : Type :=
  | disp_u (u : Z)
  | disp_s (s : Z)
  | disp_a (a : opdis_abs_addr_t).

Record opdis_addr_expr_t : Type := {
  expr_elements : Z;
  expr_shift : Z;
  expr_scale : Z;
  expr_index : opdis_reg_t;
  expr_base : opdis_reg_t;
  expr_displacement : opdis_displacement_t
}.

(** The [value] union of an operand. *)
Inductive opdis_op_value_t : Type :=
  | value_reg (r : opdis_reg_t)
  | value_expr (e : opdis_addr_expr_t)
  | value_abs (a : opdis_abs_addr_t)
  | value_immediate (u : Z).

Record opdis_op_t : Type := {
  op_ascii : ptr;
  op_category : Z;
  op_flags : Z;
  op_value : opdis_op_value_t;
  op_data_size : Z;
  op_fixed_size : Z;
  op_ascii_sz : Z
}.

Record opdis_insn_t : Type := {
  insn_status : Z;
  insn_ascii : ptr;
  insn_offset : Z;
  insn_vma : Z;
  insn_size : Z;
  insn_bytes : ptr;
  insn_num_prefixes : Z;
  insn_prefixes : ptr;
  insn_mnemonic : ptr;
  insn_category : Z;
  insn_isa : Z;
  insn_flags : Z;
  insn_comment : ptr;
  insn_num_operands : Z;
  insn_alloc_operands : Z;
  insn_operands : ptr;
  insn_target : ptr;
  insn_dest : ptr;
  insn_src : ptr;
  insn_fixed_size : Z;
  insn_ascii_sz : Z;
  insn_mnemonic_sz : Z
}.

(** What [calloc] hands out: all bytes zero. *)
Definition zero_op : opdis_op_t :=
  {| op_ascii := NULL; op_category := 0; op_flags := 0;
     op_value := value_immediate 0; op_data_size := 0;
     op_fixed_size := 0; op_ascii_sz := 0 |}.

Definition zero_insn : opdis_insn_t :=
  {| insn_status := 0; insn_ascii := NULL; insn_offset := 0; insn_vma := 0;
     insn_size := 0; insn_bytes := NULL; insn_num_prefixes := 0;
     insn_prefixes := NULL; insn_mnemonic := NULL; insn_category := 0;
     insn_isa := 0; insn_flags := 0; insn_comment := NULL;
     insn_num_operands := 0; insn_alloc_operands := 0;
     insn_operands := NULL; insn_target := NULL; insn_dest := NULL;
     insn_src := NULL; insn_fixed_size := 0; insn_ascii_sz := 0;
     insn_mnemonic_sz := 0 |}.

(** Field assignments. *)
Definition set_op_ascii (v : ptr) (o : opdis_op_t) : opdis_op_t :=
  let '(Build_opdis_op_t _ c f va d fs sz) := o in
  Build_opdis_op_t v c f va d fs sz.
Definition set_op_fixed_size (v : Z) (o : opdis_op_t) : opdis_op_t :=
  let '(Build_opdis_op_t a c f va d _ sz) := o in
  Build_opdis_op_t a c f va d v sz.
Definition set_op_ascii_sz (v : Z) (o : opdis_op_t) : opdis_op_t :=
  let '(Build_opdis_op_t a c f va d fs _) := o in
  Build_opdis_op_t a c f va d fs v.

Definition set_insn_status (v : Z) (i : opdis_insn_t) : opdis_insn_t :=
  let '(Build_opdis_insn_t _ a ofs vm sz byt np pf mn ca isa fl cm no ao
          ops tg ds sr fs asz msz) := i in
  Build_opdis_insn_t v a ofs vm sz byt np pf mn ca isa fl cm no ao
    ops tg ds sr fs asz msz.
Definition set_insn_ascii (v : ptr) (i : opdis_insn_t) : opdis_insn_t :=
  let '(Build_opdis_insn_t st _ ofs vm sz byt np pf mn ca isa fl cm no ao
          ops tg ds sr fs asz msz) := i in
  Build_opdis_insn_t st v ofs vm sz byt np pf mn ca isa fl cm no ao
    ops tg ds sr fs asz msz.
Definition set_insn_num_prefixes (v : Z) (i : opdis_insn_t) : opdis_insn_t :=
  let '(Build_opdis_insn_t st a ofs vm sz byt _ pf mn ca isa fl cm no ao
          ops tg ds sr fs asz msz) := i in
  Build_opdis_insn_t st a ofs vm sz byt v pf mn ca isa fl cm no ao
    ops tg ds sr fs asz msz.
Definition set_insn_prefixes (v : ptr) (i : opdis_insn_t) : opdis_insn_t :=
  let '(Build_opdis_insn_t st a ofs vm sz byt np _ mn ca isa fl cm no ao
          ops tg ds sr fs asz msz) := i in
  Build_opdis_insn_t st a ofs vm sz byt np v mn ca isa fl cm no ao
    ops tg ds sr fs asz msz.
Definition set_insn_mnemonic (v : ptr) (i : opdis_insn_t) : opdis_insn_t :=
  let '(Build_opdis_insn_t st a ofs vm sz byt np pf _ ca isa fl cm no ao
          ops tg ds sr fs asz msz) := i in
  Build_opdis_insn_t st a ofs vm sz byt np pf v ca isa fl cm no ao
    ops tg ds sr fs asz msz.
Definition set_insn_comment (v : ptr) (i : opdis_insn_t) : opdis_insn_t :=
  let '(Build_opdis_insn_t st a ofs vm sz byt np pf mn ca isa fl _ no ao
          ops tg ds sr fs asz msz) := i in
  Build_opdis_insn_t st a ofs vm sz byt np pf mn ca isa fl v no ao
    ops tg ds sr fs asz msz.
Definition set_insn_num_operands (v : Z) (i : opdis_insn_t) : opdis_insn_t :=
  let '(Build_opdis_insn_t st a ofs vm sz byt np pf mn ca isa fl cm _ ao
          ops tg ds sr fs asz msz) := i in
  Build_opdis_insn_t st a ofs vm sz byt np pf mn ca isa fl cm v ao
    ops tg ds sr fs asz msz.
Definition set_insn_alloc_operands (v : Z) (i : opdis_insn_t)
  : opdis_insn_t :=
  let '(Build_opdis_insn_t st a ofs vm sz byt np pf mn ca isa fl cm no _
          ops tg ds sr fs asz msz) := i in
  Build_opdis_insn_t st a ofs vm sz byt np pf mn ca isa fl cm no v
    ops tg ds sr fs asz msz.
Definition set_insn_operands (v : ptr) (i : opdis_insn_t) : opdis_insn_t :=
  let '(Build_opdis_insn_t st a ofs vm sz byt np pf mn ca isa fl cm no ao
          _ tg ds sr fs asz msz) := i in
  Build_opdis_insn_t st a ofs vm sz byt np pf mn ca isa fl cm no ao
    v tg ds sr fs asz msz.
Definition set_insn_target (v : ptr) (i : opdis_insn_t) : opdis_insn_t :=
  let '(Build_opdis_insn_t st a ofs vm sz byt np pf mn ca isa fl cm no ao
          ops _ ds sr fs asz msz) := i in
  Build_opdis_insn_t st a ofs vm sz byt np pf mn ca isa fl cm no ao
    ops v ds sr fs asz msz.
Definition set_insn_dest (v : ptr) (i : opdis_insn_t) : opdis_insn_t :=
  let '(Build_opdis_insn_t st a ofs vm sz byt np pf mn ca isa fl cm no ao
          ops tg _ sr fs asz msz) := i in
  Build_opdis_insn_t st a ofs vm sz byt np pf mn ca isa fl cm no ao
    ops tg v sr fs asz msz.
Definition set_insn_src (v : ptr) (i : opdis_insn_t) : opdis_insn_t :=
  let '(Build_opdis_insn_t st a ofs vm sz byt np pf mn ca isa fl cm no ao
          ops tg ds _ fs asz msz) := i in
  Build_opdis_insn_t st a ofs vm sz byt np pf mn ca isa fl cm no ao
    ops tg ds v fs asz msz.
Definition set_insn_fixed_size (v : Z) (i : opdis_insn_t) : opdis_insn_t :=
  let '(Build_opdis_insn_t st a ofs vm sz byt np pf mn ca isa fl cm no ao
          ops tg ds sr _ asz msz) := i in
  Build_opdis_insn_t st a ofs vm sz byt np pf mn ca isa fl cm no ao
    ops tg ds sr v asz msz.
Definition set_insn_ascii_sz (v : Z) (i : opdis_insn_t) : opdis_insn_t :=
  let '(Build_opdis_insn_t st a ofs vm sz byt np pf mn ca isa fl cm no ao
          ops tg ds sr fs _ msz) := i in
  Build_opdis_insn_t st a ofs vm sz byt np pf mn ca isa fl cm no ao
    ops tg ds sr fs v msz.
Definition set_insn_mnemonic_sz (v : Z) (i : opdis_insn_t) : opdis_insn_t :=
  let '(Build_opdis_insn_t st a ofs vm sz byt np pf mn ca isa fl cm no ao
          ops tg ds sr fs asz _) := i in
  Build_opdis_insn_t st a ofs vm sz byt np pf mn ca isa fl cm no ao
    ops tg ds sr fs asz v.

(** ** The heap *)

Inductive block : Type :=
  | BChars (cs : list ascii)
  | BOp (o : opdis_op_t)
  | BOps (ps : list ptr)
  | BInsn (i : opdis_insn_t).

(** [cells]: one entry per allocation ever made, [None] once freed.
    [oracle]: the outcome of the coming allocation requests ([false] is
    exhaustion); requests beyond the list succeed. *)
Record heap : Type := {
  cells : list (option block);
  oracle : list bool
}.

Definition empty_heap : heap := {| cells := []; oracle := [] |}.

Inductive result (A : Type) : Type :=
  | Ok (a : A) (h : heap)
  | Fault.
Arguments Ok {A} a h.
Arguments Fault {A}.

Definition M (A : Type) : Type := heap -> result A.

#[global] Instance M_ret : MRet M := fun A a h => Ok a h.
#[global] Instance M_bind : MBind M := fun A B f m h =>
  match m h with
  | Ok a h' => f a h'
  | Fault => Fault
  end.

Definition fault {A : Type} : M A := fun _ => Fault.

(** The heap with cell [l] replaced. *)
Definition set_cell (h : heap) (l : loc) (ob : option block) : heap :=
  {| cells := <[l := ob]> (cells h); oracle := oracle h |}.

Definition get_cell (l : loc) : M block := fun h =>
  match cells h !! l with
  | Some (Some b) => Ok b h
  | _ => Fault
  end.

Definition put_cell (l : loc) (b : block) : M unit := fun h =>
  match cells h !! l with
  | Some (Some _) => Ok tt (set_cell h l (Some b))
  | _ => Fault
  end.

(** Does the coming allocation request succeed? *)
Definition next_request (h : heap) : bool :=
  match oracle h with
  | false :: _ => false
  | _ => true
  end.

(** The heap after a granted request for an object with contents [b], and
    after a refused request. *)
Definition push_cell (h : heap) (b : block) : heap :=
  {| cells := cells h ++ [Some b]; oracle := tail (oracle h) |}.

Definition refuse (h : heap) : heap :=
  {| cells := cells h; oracle := tail (oracle h) |}.

(** One allocation request for an object with initial contents [b]. *)
Definition malloc (b : block) : M ptr := fun h =>
  if next_request h
  then Ok (Ptr (length (cells h))) (push_cell h b)
  else Ok NULL (refuse h).

(** [free(p)]: nothing for NULL, undefined for a pointer not live. *)
Definition free (p : ptr) : M unit :=
  match p with
  | NULL => mret tt
  | Ptr l => fun h =>
      match cells h !! l with
      | Some (Some _) => Ok tt (set_cell h l None)
      | _ => Fault
      end
  end.

Definition load_insn (p : ptr) : M opdis_insn_t :=
  match p with
  | NULL => fault
  | Ptr l => b ← get_cell l;
             match b with BInsn i => mret i | _ => fault end
  end.

Definition store_insn (p : ptr) (i : opdis_insn_t) : M unit :=
  match p with
  | NULL => fault
  | Ptr l => b ← get_cell l;
             match b with BInsn _ => put_cell l (BInsn i) | _ => fault end
  end.

Definition modify_insn (p : ptr) (f : opdis_insn_t -> opdis_insn_t)
  : M unit :=
  i ← load_insn p; store_insn p (f i).

Definition load_op (p : ptr) : M opdis_op_t :=
  match p with
  | NULL => fault
  | Ptr l => b ← get_cell l;
             match b with BOp o => mret o | _ => fault end
  end.

Definition store_op (p : ptr) (o : opdis_op_t) : M unit :=
  match p with
  | NULL => fault
  | Ptr l => b ← get_cell l;
             match b with BOp _ => put_cell l (BOp o) | _ => fault end
  end.

Definition modify_op (p : ptr) (f : opdis_op_t -> opdis_op_t) : M unit :=
  o ← load_op p; store_op p (f o).

Definition load_chars (p : ptr) : M (list ascii) :=
  match p with
  | NULL => fault
  | Ptr l => b ← get_cell l;
             match b with BChars cs => mret cs | _ => fault end
  end.

Definition store_chars (p : ptr) (cs : list ascii) : M unit :=
  match p with
  | NULL => fault
  | Ptr l => b ← get_cell l;
             match b with BChars _ => put_cell l (BChars cs) | _ => fault end
  end.

Definition load_ops (p : ptr) : M (list ptr) :=
  match p with
  | NULL => fault
  | Ptr l => b ← get_cell l;
             match b with BOps ps => mret ps | _ => fault end
  end.

Definition store_ops (p : ptr) (ps : list ptr) : M unit :=
  match p with
  | NULL => fault
  | Ptr l => b ← get_cell l;
             match b with BOps _ => put_cell l (BOps ps) | _ => fault end
  end.

(** [p[i]] on an operand-pointer array, as an rvalue and as an lvalue. *)
Definition read_slot (p : ptr) (i : Z) : M ptr :=
  ps ← load_ops p;
  if decide (0 <= i) then
    match ps !! Z.to_nat i with
    | Some q => mret q
    | None => fault
    end
  else fault.

Definition write_slot (p : ptr) (i : Z) (q : ptr) : M unit :=
  ps ← load_ops p;
  if decide (0 <= i < Z.of_nat (length ps))
  then store_ops p (<[Z.to_nat i := q]> ps)
  else fault.

(** ** The C library calls the model uses *)

(** [calloc(1, n)] for a char buffer, [calloc(n, sizeof(opdis_op_t * ))].
    A granted request for 0 bytes yields an empty object. *)
Definition calloc_chars (n : Z) : M ptr :=
  malloc (BChars (replicate (Z.to_nat n) NUL)).

Definition calloc_ops (n : Z) : M ptr :=
  malloc (BOps (replicate (Z.to_nat n) NULL)).

(** The string stored in a heap buffer; reading a buffer that holds no
    terminator runs off its end. *)
Definition load_string (p : ptr) : M (list ascii) :=
  buf ← load_chars p;
  if terminated buf then mret (c_string buf) else fault.

Definition strlen (p : ptr) : M Z :=
  s ← load_string p; mret (Z.of_nat (length s)).

Definition strdup (s : list ascii) : M ptr :=
  malloc (BChars (c_string s ++ [NUL])).

(** [strncpy] writes exactly [n] bytes: the characters of [src], then NUL
    padding; no terminator when [src] has [n] characters or more. *)
Definition strncpy (dst : ptr) (src : list ascii) (n : Z) : M unit :=
  buf ← load_chars dst;
  if decide (n <= Z.of_nat (length buf)) then
    let k := Z.to_nat n in
    let s := c_string src in
    store_chars dst (take k s ++ replicate (k - length s) NUL ++ drop k buf)
  else fault.

(** [strncat] appends at most [n] characters of [src] and a terminator. *)
Definition strncat (dst : ptr) (src : list ascii) (n : Z) : M unit :=
  buf ← load_chars dst;
  if terminated buf then
    let s := c_string src in
    let app := take (Z.to_nat (Z.min n (Z.of_nat (length s)))) s in
    match write_bytes (length (c_string buf)) (app ++ [NUL]) buf with
    | Some buf' => store_chars dst buf'
    | None => fault
    end
  else fault.

Definition strcat (dst : ptr) (src : list ascii) : M unit :=
  buf ← load_chars dst;
  if terminated buf then
    match write_bytes (length (c_string buf)) (c_string src ++ [NUL]) buf with
    | Some buf' => store_chars dst buf'
    | None => fault
    end
  else fault.

(** [realloc]: a new object holding the old contents cut or extended to the
    new size; the old object is released only on success.  The bytes of an
    extension are indeterminate in C; the model shows them as zero. *)
Definition realloc_chars (p : ptr) (n : Z) : M ptr :=
  old ← (if is_null p then mret [] else load_chars p);
  q ← malloc (BChars (resize (Z.to_nat n) NUL old));
  if is_null q then mret NULL else free p;; mret q.

Definition realloc_ops (p : ptr) (n : Z) : M ptr :=
  old ← (if is_null p then mret [] else load_ops p);
  q ← malloc (BOps (resize (Z.to_nat n) NULL old));
  if is_null q then mret NULL else free p;; mret q.

(** A [const char *] argument: [None] is the NULL pointer, [Some s] a
    string whose characters are [c_string s]. *)
Definition text : Type := option (list ascii).

(** ** Operands (model.c) *)

Definition opdis_op_alloc : M ptr := malloc (BOp zero_op).

Definition opdis_op_alloc_fixed (ascii_sz : Z) : M ptr :=
  op ← opdis_op_alloc;
  if is_null op then mret op else
    modify_op op (set_op_fixed_size 1);;
    modify_op op (set_op_ascii_sz (uchar ascii_sz));;
    a ← calloc_chars ascii_sz;
    modify_op op (set_op_ascii a);;
    if is_null a then free op;; mret NULL else mret op.

Definition opdis_op_dupe (op : ptr) : M ptr :=
  new_op ← opdis_op_alloc;
  if is_null new_op then mret NULL else
    o ← load_op op;
    store_op new_op o;;
    modify_op new_op (set_op_ascii NULL);;
    if is_null (op_ascii o) then mret new_op else
      s ← load_string (op_ascii o);
      a ← strdup s;
      modify_op new_op (set_op_ascii a);;
      if is_null a then free new_op;; mret NULL else mret new_op.

Definition opdis_op_free (op : ptr) : M unit :=
  if is_null op then mret tt else
    o ← load_op op;
    if is_null (op_ascii o) then mret tt else free (op_ascii o).

Definition opdis_op_set_ascii (op : ptr) (ascii : text) : M unit :=
  match ascii with
  | None => mret tt
  | Some s =>
      if is_null op then mret tt else
        o ← load_op op;
        if decide (op_fixed_size o ≠ 0) then
          strncpy (op_ascii o) s (size_t (op_ascii_sz o - 1))
        else
          (if is_null (op_ascii o) then mret tt else free (op_ascii o));;
          a ← strdup s;
          modify_op op (set_op_ascii a)
  end.

(** ** Instructions (model.c) *)

Definition opdis_insn_alloc (num_operands : Z) : M ptr :=
  i ← malloc (BInsn zero_insn);
  if is_null i then mret NULL else
  if decide (num_operands = 0) then mret i else
    ops ← calloc_ops num_operands;
    modify_insn i (set_insn_operands ops);;
    if is_null ops then free i;; mret NULL else
      modify_insn i (set_insn_alloc_operands num_operands);;
      mret i.

(** The operand loop of [opdis_insn_free], index [i] with [k] rounds to
    go. *)
Fixpoint free_operands (k : nat) (i : Z) (insn : ptr) : M unit :=
  match k with
  | O => mret tt
  | S k' =>
      I ← load_insn insn;
      op ← read_slot (insn_operands I) i;
      (if is_null op then mret tt else opdis_op_free op);;
      free_operands k' (i + 1) insn
  end.

Definition opdis_insn_free (insn : ptr) : M unit :=
  if is_null insn then mret tt else
    I ← load_insn insn;
    (if is_null (insn_ascii I) then mret tt else free (insn_ascii I));;
    (if is_null (insn_mnemonic I) then mret tt else free (insn_mnemonic I));;
    free_operands (Z.to_nat (insn_num_operands I)) 0 insn;;
    free insn.

Definition PREFIX_SIZE (mnem_size : Z) : Z := 4 * mnem_size.

(** The operand loop of [opdis_insn_alloc_fixed]; [false] when the function
    has returned NULL from inside the loop. *)
Fixpoint alloc_fixed_operands (k : nat) (i : Z) (insn : ptr)
    (op_ascii_sz : Z) : M bool :=
  match k with
  | O => mret true
  | S k' =>
      op ← opdis_op_alloc_fixed op_ascii_sz;
      if is_null op then opdis_insn_free insn;; mret false else
        I ← load_insn insn;
        write_slot (insn_operands I) i op;;
        modify_insn insn (fun I =>
          set_insn_alloc_operands (size_t (insn_alloc_operands I + 1)) I);;
        alloc_fixed_operands k' (i + 1) insn op_ascii_sz
  end.

Definition opdis_insn_alloc_fixed (ascii_sz mnemonic_sz num_operands
    op_ascii_sz : Z) : M ptr :=
  insn ← opdis_insn_alloc num_operands;
  if is_null insn then mret NULL else
    a ← calloc_chars ascii_sz;
    modify_insn insn (set_insn_ascii a);;
    p ← calloc_chars (size_t (PREFIX_SIZE mnemonic_sz));
    modify_insn insn (set_insn_prefixes p);;
    m ← calloc_chars mnemonic_sz;
    modify_insn insn (set_insn_mnemonic m);;
    c ← calloc_chars ascii_sz;
    modify_insn insn (set_insn_comment c);;
    if is_null a || is_null p || is_null m
    then opdis_insn_free insn;; mret NULL
    else
      ok ← alloc_fixed_operands (Z.to_nat num_operands) 0 insn op_ascii_sz;
      if ok : bool then
        modify_insn insn (set_insn_fixed_size 1);;
        modify_insn insn (set_insn_ascii_sz (uchar ascii_sz));;
        modify_insn insn (set_insn_mnemonic_sz (uchar mnemonic_sz));;
        mret insn
      else mret NULL.

(** The operand loop of [opdis_insn_dupe]: at most [k] rounds, each guarded
    by the loop condition; [false] when the function has returned NULL. *)
Fixpoint dupe_operands (k : nat) (i : Z) (insn new_insn : ptr) : M bool :=
  match k with
  | O => mret true
  | S k' =>
      I ← load_insn insn;
      N ← load_insn new_insn;
      if decide (i < insn_num_operands I ∧ i < insn_alloc_operands N) then
        src_op ← read_slot (insn_operands I) i;
        op ← opdis_op_dupe src_op;
        if is_null op then opdis_insn_free new_insn;; mret false else
          write_slot (insn_operands N) i op;;
          modify_insn new_insn (fun N =>
            set_insn_num_operands (size_t (insn_num_operands N + 1)) N);;
          dupe_operands k' (i + 1) insn new_insn
      else mret true
  end.

Definition opdis_insn_dupe (insn : ptr) : M ptr :=
  I ← load_insn insn;
  new_insn ← opdis_insn_alloc (insn_num_operands I);
  if is_null new_insn then mret NULL else
    N0 ← load_insn new_insn;
    let new_operands := insn_operands N0 in
    store_insn new_insn I;;
    modify_insn new_insn (set_insn_ascii NULL);;
    modify_insn new_insn (set_insn_mnemonic NULL);;
    modify_insn new_insn (set_insn_prefixes NULL);;
    modify_insn new_insn (set_insn_operands new_operands);;
    ok1 ← (if is_null (insn_ascii I) then mret true else
             s ← load_string (insn_ascii I);
             a ← strdup s;
             modify_insn new_insn (set_insn_ascii a);;
             if is_null a then opdis_insn_free new_insn;; mret false
             else mret true);
    if negb ok1 then mret NULL else
    ok2 ← (if is_null (insn_prefixes I) then mret true else
             s ← load_string (insn_prefixes I);
             a ← strdup s;
             modify_insn new_insn (set_insn_prefixes a);;
             if is_null a then opdis_insn_free new_insn;; mret false
             else
               modify_insn new_insn
                 (set_insn_num_prefixes (insn_num_prefixes I));;
               mret true);
    if negb ok2 then mret NULL else
    ok3 ← (if is_null (insn_mnemonic I) then mret true else
             s ← load_string (insn_mnemonic I);
             a ← strdup s;
             modify_insn new_insn (set_insn_mnemonic a);;
             if is_null a then opdis_insn_free new_insn;; mret false
             else mret true);
    if negb ok3 then mret NULL else
    modify_insn new_insn (set_insn_num_operands 0);;
    ok4 ← dupe_operands (Z.to_nat (insn_num_operands I)) 0 insn new_insn;
    if negb ok4 then mret NULL else mret new_insn.

(** [if (p) p[0] = '\0';] *)
Definition clear_string (p : ptr) : M unit :=
  if is_null p then mret tt else
    buf ← load_chars p;
    match buf with
    | [] => fault
    | _ :: rest => store_chars p (NUL :: rest)
    end.

Definition opdis_insn_clear (i : ptr) : M unit :=
  if is_null i then mret tt else
    modify_insn i (set_insn_status opdis_decode_invalid);;
    I ← load_insn i;
    clear_string (insn_ascii I);;
    modify_insn i (set_insn_num_prefixes 0);;
    clear_string (insn_prefixes I);;
    clear_string (insn_mnemonic I);;
    modify_insn i (set_insn_num_operands 0);;
    modify_insn i (set_insn_src NULL);;
    modify_insn i (set_insn_dest NULL);;
    modify_insn i (set_insn_target NULL).

Definition opdis_insn_set_ascii (i : ptr) (ascii : text) : M unit :=
  match ascii with
  | None => mret tt
  | Some s =>
      if is_null i then mret tt else
        I ← load_insn i;
        if decide (insn_fixed_size I ≠ 0) then
          strncpy (insn_ascii I) s (size_t (insn_ascii_sz I - 1))
        else
          (if is_null (insn_ascii I) then mret tt else free (insn_ascii I));;
          a ← strdup s;
          modify_insn i (set_insn_ascii a)
  end.

Definition opdis_insn_set_mnemonic (i : ptr) (mnemonic : text) : M unit :=
  match mnemonic with
  | None => mret tt
  | Some s =>
      if is_null i then mret tt else
        I ← load_insn i;
        if decide (insn_fixed_size I ≠ 0) then
          strncpy (insn_mnemonic I) s (size_t (insn_mnemonic_sz I - 1))
        else
          (if is_null (insn_mnemonic I) then mret tt
           else free (insn_mnemonic I));;
          a ← strdup s;
          modify_insn i (set_insn_mnemonic a)
  end.

Definition space : list ascii := [" "%char].
Definition semicolon : list ascii := [";"%char].

Definition opdis_insn_add_prefix (i : ptr) (prefix : text) : M unit :=
  match prefix with
  | None => mret tt
  | Some s =>
      if is_null i then mret tt else
        I ← load_insn i;
        if decide (insn_fixed_size I ≠ 0) then
          len ← strlen (insn_prefixes I);
          let size :=
            uint (size_t (PREFIX_SIZE (insn_mnemonic_sz I) - len)) in
          strncat (insn_prefixes I) space (uint (size - 1));;
          strncat (insn_prefixes I) s (uint (size - 2))
        else if is_null (insn_prefixes I) then
          p ← calloc_chars (size_t (Z.of_nat (length (c_string s)) + 1));
          modify_insn i (set_insn_prefixes p);;
          if is_null p then mret tt else strcat p s
        else
          len ← strlen (insn_prefixes I);
          p ← realloc_chars (insn_prefixes I)
                (size_t (len + Z.of_nat (length (c_string s)) + 2));
          if is_null p then mret tt else
            modify_insn i (set_insn_prefixes p);;
            strcat p space;;
            strcat p s
  end.

Definition opdis_insn_add_comment (i : ptr) (cmt : text) : M unit :=
  match cmt with
  | None => mret tt
  | Some s =>
      if is_null i then mret tt else
        I ← load_insn i;
        if decide (insn_fixed_size I ≠ 0) then
          len ← strlen (insn_comment I);
          let size := uint (size_t (insn_ascii_sz I - len)) in
          strncat (insn_comment I) space (uint (size - 1));;
          strncat (insn_comment I) s (uint (size - 2))
        else if is_null (insn_comment I) then
          p ← calloc_chars (size_t (Z.of_nat (length (c_string s)) + 1));
          modify_insn i (set_insn_comment p);;
          if is_null p then mret tt else strcat p s
        else
          len ← strlen (insn_comment I);
          p ← realloc_chars (insn_comment I)
                (size_t (len + Z.of_nat (length (c_string s)) + 2));
          if is_null p then mret tt else
            modify_insn i (set_insn_comment p);;
            strcat p semicolon;;
            strcat p s
  end.

Definition opdis_insn_add_operand (i op : ptr) : M Z :=
  if is_null i || is_null op then mret 0 else
    I ← load_insn i;
    if decide (insn_num_operands I < insn_alloc_operands I) then
      write_slot (insn_operands I) (insn_num_operands I) op;;
      modify_insn i (set_insn_num_operands
                       (size_t (insn_num_operands I + 1)));;
      mret 1
    else
      modify_insn i (set_insn_alloc_operands
                       (size_t (insn_alloc_operands I + 1)));;
      I1 ← load_insn i;
      p ← realloc_ops (insn_operands I1) (insn_alloc_operands I1);
      if is_null p then
        modify_insn i (set_insn_alloc_operands
                         (size_t (insn_alloc_operands I1 - 1)));;
        mret 0
      else
        modify_insn i (set_insn_operands p);;
        write_slot p (insn_num_operands I1) op;;
        modify_insn i (set_insn_num_operands
                         (size_t (insn_num_operands I1 + 1)));;
        mret 1.

(** The enumerators of opdis/metadata.h that model.c names.  The header is
    not part of the sources at hand, so the code below takes them as
    parameters. *)
Class opdis_metadata : Type := {
  opdis_insn_cat_cflow : Z;
  opdis_cflow_flag_call : Z;
  opdis_cflow_flag_callcc : Z;
  opdis_cflow_flag_jmp : Z;
  opdis_cflow_flag_jmpcc : Z;
  opdis_cflow_flag_ret : Z
}.

Section Classification.
Context {md : opdis_metadata}.

Definition opdis_insn_is_branch (i : ptr) : M Z :=
  if is_null i then mret 0 else
    I ← load_insn i;
    if decide (insn_category I = opdis_insn_cat_cflow) then
      if decide (insn_flags I = opdis_cflow_flag_call
                 ∨ insn_flags I = opdis_cflow_flag_callcc
                 ∨ insn_flags I = opdis_cflow_flag_jmp
                 ∨ insn_flags I = opdis_cflow_flag_jmpcc)
      then mret 1 else mret 0
    else mret 0.

Definition opdis_insn_fallthrough (i : ptr) : M Z :=
  if is_null i then mret 1 else
    I ← load_insn i;
    if decide (insn_category I = opdis_insn_cat_cflow) then
      if decide (insn_flags I = opdis_cflow_flag_ret
                 ∨ insn_flags I = opdis_cflow_flag_jmp)
      then mret 0 else mret 1
    else mret 1.

(** The flags [opdis_insn_is_branch] accepts. *)
Definition cflow_branch_flag (f : Z) : Prop :=
  f = opdis_cflow_flag_call \/ f = opdis_cflow_flag_callcc \/
  f = opdis_cflow_flag_jmp \/ f = opdis_cflow_flag_jmpcc.
End Classification.

(** Modelled from the spec: the values of the enumerators of
    opdis/metadata.h, which is missing here.  The spec names the control-flow
    category and the flags call, conditional-call, jump, conditional-jump
    and return, and renders flags in bit-value order; the category follows
    the unknown category 0 and the flags take one bit each. *)
Definition metadata_h : opdis_metadata :=
  {| opdis_insn_cat_cflow := 1;
     opdis_cflow_flag_call := 1;
     opdis_cflow_flag_callcc := 2;
     opdis_cflow_flag_jmp := 4;
     opdis_cflow_flag_jmpcc := 8;
     opdis_cflow_flag_ret := 16 |}.

(** ** Observing a heap *)

Definition heap_block (h : heap) (p : ptr) : option block :=
  match p with
  | NULL => None
  | Ptr l => mjoin (cells h !! l)
  end.

Definition heap_insn (h : heap) (p : ptr) : option opdis_insn_t :=
  match heap_block h p with Some (BInsn i) => Some i | _ => None end.

Definition heap_op (h : heap) (p : ptr) : option opdis_op_t :=
  match heap_block h p with Some (BOp o) => Some o | _ => None end.

Definition heap_chars (h : heap) (p : ptr) : option (list ascii) :=
  match heap_block h p with Some (BChars cs) => Some cs | _ => None end.

Definition heap_ops (h : heap) (p : ptr) : option (list ptr) :=
  match heap_block h p with Some (BOps ps) => Some ps | _ => None end.

(** The NUL-terminated string a pointer designates, if any. *)
Definition heap_string (h : heap) (p : ptr) : option (list ascii) :=
  match heap_chars h p with
  | Some buf => if terminated buf then Some (c_string buf) else None
  | None => None
  end.

Definition str (s : string) : list ascii := list_ascii_of_string s.

(** The operand array an instruction designates: the empty array for the
    NULL pointer of an instruction without operand slots. *)
Definition operand_array (h : heap) (I : opdis_insn_t)
  : option (list ptr) :=
  if is_null (insn_operands I) then Some [] else heap_ops h (insn_operands I).

(** ** Predicates of the statements *)

(** A string without a NUL character. *)
Definition nul_free (s : list ascii) : Prop :=
  Forall (fun c => is_nul c = false) s.

(** The operand struct [opdis_op_alloc_fixed] builds for a requested
    capacity [c] once its buffer sits at [a]. *)
Definition fixed_op (c : Z) (a : ptr) : opdis_op_t :=
  set_op_ascii a (set_op_ascii_sz (uchar c) (set_op_fixed_size 1 zero_op)).

(** A fixed-size operand in working order: its recorded size is at least
    1, lies within the buffer [buf] its [ascii] field designates, and the
    byte of [buf] at [ascii_sz - 1] is NUL. *)
Definition fixed_op_buffer (h : heap) (o : opdis_op_t) (buf : list ascii)
  : Prop :=
  op_fixed_size o <> 0 /\
  heap_chars h (op_ascii o) = Some buf /\
  1 <= op_ascii_sz o < 256 /\
  buf !! Z.to_nat (op_ascii_sz o - 1) = Some NUL.

(** [opdis_insn_clear] can empty the string at [p]: there is none, or
    its buffer has a first byte. *)
Definition clearable (h : heap) (p : ptr) : Prop :=
  p = NULL \/ exists c rest, heap_chars h p = Some (c :: rest).

(** A cell after [p[0] = 0] when it is a char buffer. *)
Definition clear_cell (ob : option block) : option block :=
  match ob with
  | Some (BChars (_ :: rest)) => Some (BChars (NUL :: rest))
  | _ => ob
  end.

(** The struct fields [opdis_insn_clear] assigns. *)
Definition cleared (I : opdis_insn_t) : opdis_insn_t :=
  set_insn_target NULL (set_insn_dest NULL (set_insn_src NULL
    (set_insn_num_operands 0 (set_insn_num_prefixes 0
      (set_insn_status opdis_decode_invalid I))))).

(** The comment buffer is not also the ascii, prefix or mnemonic buffer. *)
Definition comment_apart (I : opdis_insn_t) : Prop :=
  insn_comment I = NULL \/
  (insn_comment I <> insn_ascii I /\
   insn_comment I <> insn_prefixes I /\
   insn_comment I <> insn_mnemonic I).

(** The heap [h'] part-way through [opdis_insn_clear] on the instruction at
    [li] of heap [h]: the struct reads [J], the buffers listed in [D] have
    been emptied, nothing else differs. *)
Definition clear_progress (h : heap) (li : loc) (D : list ptr)
    (J : opdis_insn_t) (h' : heap) : Prop :=
  oracle h' = oracle h /\
  length (cells h') = length (cells h) /\
  cells h' !! li = Some (Some (BInsn J)) /\
  forall l : loc, l <> li ->
    cells h' !! l = if decide (Ptr l ∈ D)
                    then clear_cell <$> cells h !! l
                    else cells h !! l.

(** Slot [j] of the operand array [ps] holds a fixed-size operand as
    [opdis_op_alloc_fixed osz] builds it, over a zeroed buffer of [osz]
    bytes. *)
Definition fixed_slot (h : heap) (ps : list ptr) (j : nat) (osz : Z)
  : Prop :=
  exists lo lb : loc,
    ps !! j = Some (Ptr lo) /\
    cells h !! lo = Some (Some (BOp (fixed_op osz (Ptr lb)))) /\
    cells h !! lb = Some (Some (BChars (replicate (Z.to_nat osz) NUL))).

(** ** Sample runs *)

Definition value_of {A : Type} (r : result A) : option A :=
  match r with Ok a _ => Some a | Fault => None end.

Definition heap_of {A : Type} (r : result A) : heap :=
  match r with Ok _ h => h | Fault => empty_heap end.

(** An instruction struct with the fields a decoder assigns for
    classification, all else zero. *)
Definition decoded_insn (status category flags : Z) : opdis_insn_t :=
  {| insn_status := status; insn_ascii := NULL; insn_offset := 0;
     insn_vma := 0; insn_size := 0; insn_bytes := NULL;
     insn_num_prefixes := 0; insn_prefixes := NULL; insn_mnemonic := NULL;
     insn_category := category; insn_isa := 0; insn_flags := flags;
     insn_comment := NULL; insn_num_operands := 0;
     insn_alloc_operands := 0; insn_operands := NULL; insn_target := NULL;
     insn_dest := NULL; insn_src := NULL; insn_fixed_size := 0;
     insn_ascii_sz := 0; insn_mnemonic_sz := 0 |}.

Definition heap_with (I : opdis_insn_t) : heap :=
  {| cells := [Some (BInsn I)]; oracle := [] |}.

(** A jump whose status mask is still [opdis_decode_invalid]. *)
Definition undecoded_jmp : opdis_insn_t :=
  decoded_insn opdis_decode_invalid
    (opdis_insn_cat_cflow (opdis_metadata := metadata_h))
    (opdis_cflow_flag_jmp (opdis_metadata := metadata_h)).

(** A return, flags decoded. *)
Definition decoded_ret : opdis_insn_t :=
  decoded_insn opdis_decode_mnem_flags
    (opdis_insn_cat_cflow (opdis_metadata := metadata_h))
    (opdis_cflow_flag_ret (opdis_metadata := metadata_h)).

(** A conditional call, flags decoded. *)
Definition decoded_callcc : opdis_insn_t :=
  decoded_insn opdis_decode_mnem_flags
    (opdis_insn_cat_cflow (opdis_metadata := metadata_h))
    (opdis_cflow_flag_callcc (opdis_metadata := metadata_h)).

(** An instruction with two operand slots and a loose operand. *)
Definition two_slots : heap :=
  Eval vm_compute in
    heap_of ((i ← opdis_insn_alloc 2; opdis_op_alloc) empty_heap).

(** A fixed-size instruction with two operands. *)
Definition fixed_two : heap :=
  Eval vm_compute in heap_of (opdis_insn_alloc_fixed 8 8 2 8 empty_heap).

(** A fixed-size instruction of ascii capacity 16 whose comment buffer
    holds a first comment. *)
Definition commented : heap :=
  Eval vm_compute in
    heap_of ((i ← opdis_insn_alloc_fixed 16 8 0 8;
              opdis_insn_set_ascii i (Some (str "ret"));;
              opdis_insn_add_comment i (Some (str "a"))) empty_heap).

(** A fixed-size operand of capacity 4, and one of capacity 260. *)
Definition fixed_operand_4 : heap :=
  Eval vm_compute in heap_of (opdis_op_alloc_fixed 4 empty_heap).

Definition fixed_operand_260 : heap :=
  Eval vm_compute in heap_of (opdis_op_alloc_fixed 260 empty_heap).

(** An operand that is not fixed-size and holds the string "eax". *)
Definition dynamic_operand : heap :=
  Eval vm_compute in
    heap_of ((op ← opdis_op_alloc;
              opdis_op_set_ascii op (Some (str "eax"))) empty_heap).

(** A fixed-size instruction with ascii capacity 260 and mnemonic capacity
    258. *)
Definition fixed_wide : heap :=
  Eval vm_compute in heap_of (opdis_insn_alloc_fixed 260 258 0 8 empty_heap).

(** A fixed-size instruction is filled and duplicated; the duplicate's
    [fixed_size] and [ascii_sz] and the byte size of its ascii buffer. *)
Definition dupe_of_fixed : M (Z * Z * nat) :=
  i ← opdis_insn_alloc_fixed 8 8 1 8;
  opdis_insn_set_ascii i (Some (str "nop"));;
  d ← opdis_insn_dupe i;
  D ← load_insn d;
  buf ← load_chars (insn_ascii D);
  mret (insn_fixed_size D, insn_ascii_sz D, length buf).

(** The same, followed by a [set_ascii] on the duplicate. *)
Definition dupe_of_fixed_reused : M unit :=
  i ← opdis_insn_alloc_fixed 8 8 1 8;
  opdis_insn_set_ascii i (Some (str "nop"));;
  d ← opdis_insn_dupe i;
  opdis_insn_set_ascii d (Some (str "x")).

(** An instruction gets one operand, which the decoder marks as its branch
    target, and is duplicated; the source operand, the duplicate's [target]
    and the duplicate's operand array. *)
Definition dupe_with_target : M (ptr * ptr * list ptr) :=
  i ← opdis_insn_alloc 1;
  op ← opdis_op_alloc;
  opdis_op_set_ascii op (Some (str "eax"));;
  opdis_insn_add_operand i op;;
  modify_insn i (set_insn_target op);;
  d ← opdis_insn_dupe i;
  D ← load_insn d;
  ps ← load_ops (insn_operands D);
  mret (op, insn_target D, ps).

(** Two comments on an instruction [i]; the comment string at the end. *)
Definition two_comments (i : ptr) : M (list ascii) :=
  opdis_insn_add_comment i (Some (str "a"));;
  opdis_insn_add_comment i (Some (str "b"));;
  I ← load_insn i;
  load_string (insn_comment I).

(** [target], [dest] and [src] are unset or among the [num_operands]
    entries of the instruction's own operand array. *)
Definition accessors_own (h : heap) (I : opdis_insn_t) : Prop :=
  forall p : ptr,
    p ∈ [insn_target I; insn_dest I; insn_src I] ->
    p = NULL \/
    exists ps, operand_array h I = Some ps /\
               p ∈ take (Z.to_nat (insn_num_operands I)) ps.

(** The instruction struct, operand struct or char buffer at [p]; the
    zero object when [p] designates none. *)
Definition the_insn (h : heap) (p : ptr) : opdis_insn_t :=
  default zero_insn (heap_insn h p).

Definition the_op (h : heap) (p : ptr) : opdis_op_t :=
  default zero_op (heap_op h p).

Definition the_chars (h : heap) (p : ptr) : list ascii :=
  default [] (heap_chars h p).

(** [dst] is an owned string in a cell that heap [h0] did not have, equal
    to the string [src] designates in [h0] when it designates one there;
    or both are NULL. *)
Definition string_copy (h0 h' : heap) (src dst : ptr) : Prop :=
  (src = NULL /\ dst = NULL) \/
  (exists (s : list ascii) (l : loc),
     src <> NULL /\
     dst = Ptr l /\ (length (cells h0) <= l)%nat /\
     heap_string h' dst = Some s /\
     forall s0, heap_string h0 src = Some s0 -> s0 = s).

(** Slot [j] of the duplicate's operand array [psD] holds an operand struct
    in a cell that heap [h0] did not have; when slot [j] of the source
    array [psS] designates an operand of [h0], the new struct has that
    operand's fields but for [ascii], which is a copy of its string. *)
Definition dupe_slot (h0 h' : heap) (psS psD : list ptr) (j : nat) : Prop :=
  exists (qs : ptr) (lo : loc) (o' : opdis_op_t),
    psS !! j = Some qs /\
    psD !! j = Some (Ptr lo) /\
    (length (cells h0) <= lo)%nat /\
    heap_op h' (Ptr lo) = Some o' /\
    forall o : opdis_op_t,
      heap_op h0 qs = Some o ->
      o' = set_op_ascii (op_ascii o') o /\
      string_copy h0 h' (op_ascii o) (op_ascii o').

(** One string copy of [opdis_insn_dupe] on the base heap [B]: nothing for
    the NULL pointer; else the string at [q] goes into a new cell [a] of
    the base heap [B']. *)
Definition copied_in (B B' : heap) (ld : loc) (q a : ptr) : Prop :=
  (q = NULL /\ a = NULL /\ B' = B) \/
  (exists (lq : loc) (buf : list ascii),
     q = Ptr lq /\ lq <> ld /\
     cells B !! lq = Some (Some (BChars buf)) /\
     terminated buf = true /\
     a = Ptr (length (cells B)) /\
     B' = push_cell B (BChars (c_string buf ++ [NUL]))).

(** ** Predicates on the life cycle of an object *)

(** A fixed-size instruction whose ascii and mnemonic buffers are in
    working order: two buffers, each recorded size at least 1 and within
    its buffer, the byte at [size - 1] NUL. *)
Definition fixed_strings (h : heap) (I : opdis_insn_t) : Prop :=
  insn_fixed_size I <> 0 /\
  exists (la lm : loc) (ba bm : list ascii),
    insn_ascii I = Ptr la /\ insn_mnemonic I = Ptr lm /\ la <> lm /\
    heap_chars h (Ptr la) = Some ba /\
    heap_chars h (Ptr lm) = Some bm /\
    1 <= insn_ascii_sz I < 256 /\
    ba !! Z.to_nat (insn_ascii_sz I - 1) = Some NUL /\
    1 <= insn_mnemonic_sz I < 256 /\
    bm !! Z.to_nat (insn_mnemonic_sz I - 1) = Some NUL.

(** Heap [h'] is heap [h] with the cells [G] released: no request made,
    no cell added, every other cell as it is. *)
Definition released (h : heap) (G : list loc) (h' : heap) : Prop :=
  oracle h' = oracle h /\
  length (cells h') = length (cells h) /\
  forall l : loc,
    cells h' !! l = if decide (l ∈ G) then Some None else cells h !! l.



(** A caller that appends the operands [qs] to instruction [i], one call
    of [opdis_insn_add_operand] each; the number of calls that answered
    1. *)
Fixpoint add_operands (i : ptr) (qs : list ptr) : M Z :=
  match qs with
  | [] => mret 0
  | q :: qs' =>
      r ← opdis_insn_add_operand i q;
      n ← add_operands i qs';
      mret (r + n)
  end.

(** ** More sample heaps *)

(** An instruction that is not fixed-size, with an ascii string and a
    mnemonic. *)
Definition dynamic_insn : heap :=
  Eval vm_compute in
    heap_of ((i ← opdis_insn_alloc 0;
              opdis_insn_set_ascii i (Some (str "ret 4"));;
              opdis_insn_set_mnemonic i (Some (str "ret"))) empty_heap).

(** An instruction that is not fixed-size, with a first prefix and a first
    comment. *)
Definition annotated : heap :=
  Eval vm_compute in
    heap_of ((i ← opdis_insn_alloc 0;
              opdis_insn_add_prefix i (Some (str "lock"));;
              opdis_insn_add_comment i (Some (str "a"))) empty_heap).

(** A fixed-size instruction with ascii capacity 4 and mnemonic capacity 1
    whose prefix and comment buffers are full. *)
Definition fixed_full : heap :=
  Eval vm_compute in
    heap_of ((i ← opdis_insn_alloc_fixed 4 1 0 4;
              opdis_insn_add_prefix i (Some (str "ab"));;
              opdis_insn_add_comment i (Some (str "ab"))) empty_heap).

(** An instruction with two operands, each with a string, an ascii string,
    a mnemonic and a comment. *)
Definition decoded_mov : heap :=
  Eval vm_compute in
    heap_of ((i ← opdis_insn_alloc 2;
              a ← opdis_op_alloc;
              opdis_op_set_ascii a (Some (str "eax"));;
              opdis_insn_add_operand i a;;
              b ← opdis_op_alloc;
              opdis_op_set_ascii b (Some (str "1"));;
              opdis_insn_add_operand i b;;
              opdis_insn_set_ascii i (Some (str "mov eax, 1"));;
              opdis_insn_set_mnemonic i (Some (str "mov"));;
              opdis_insn_add_comment i (Some (str "x"))) empty_heap).

(** Empty heaps whose fourth, and whose fifth, allocation request is
    refused. *)
Definition fourth_refused : heap :=
  {| cells := []; oracle := [true; true; true; false; true] |}.

Definition fifth_refused : heap :=
  {| cells := []; oracle := [true; true; true; true; false] |}.

(** * Facts *)

(** ** Reading the heap *)

Lemma heap_insn_cell (h : heap) (l : loc) (I : opdis_insn_t) :
  heap_insn h (Ptr l) = Some I <-> cells h !! l = Some (Some (BInsn I)).
Proof.
  unfold heap_insn, heap_block.
  destruct (cells h !! l) as [[[]|]|]; simpl; split; congruence.
Qed.

Lemma heap_op_cell (h : heap) (l : loc) (o : opdis_op_t) :
  heap_op h (Ptr l) = Some o <-> cells h !! l = Some (Some (BOp o)).
Proof.
  unfold heap_op, heap_block.
  destruct (cells h !! l) as [[[]|]|]; simpl; split; congruence.
Qed.

Lemma heap_chars_cell (h : heap) (l : loc) (cs : list ascii) :
  heap_chars h (Ptr l) = Some cs <-> cells h !! l = Some (Some (BChars cs)).
Proof.
  unfold heap_chars, heap_block.
  destruct (cells h !! l) as [[[]|]|]; simpl; split; congruence.
Qed.

Lemma heap_ops_cell (h : heap) (l : loc) (ps : list ptr) :
  heap_ops h (Ptr l) = Some ps <-> cells h !! l = Some (Some (BOps ps)).
Proof.
  unfold heap_ops, heap_block.
  destruct (cells h !! l) as [[[]|]|]; simpl; split; congruence.
Qed.

Lemma load_insn_cell (h : heap) (l : loc) (I : opdis_insn_t) :
  cells h !! l = Some (Some (BInsn I)) -> load_insn (Ptr l) h = Ok I h.
Proof.
  intros H. unfold load_insn, get_cell, mbind, M_bind. now rewrite H.
Qed.

(** ** Classification predicates *)

Section ClassificationFacts.
Context {md : opdis_metadata}.

(** C3 (as the code has it): [opdis_insn_is_branch] answers 1 exactly
    when the instruction is present, its category is control-flow and its
    control-flow flag is call, conditional call, jump or conditional
    jump; it answers 0 otherwise, leaves the heap alone and never looks
    at the status mask. *)
Theorem opdis_insn_is_branch_spec (h : heap) :
  opdis_insn_is_branch NULL h = Ok 0 h /\
  forall (l : loc) (I : opdis_insn_t),
    heap_insn h (Ptr l) = Some I ->
    exists r : Z,
      opdis_insn_is_branch (Ptr l) h = Ok r h /\
      (r = 0 \/ r = 1) /\
      (r = 1 <->
         insn_category I = opdis_insn_cat_cflow /\
         cflow_branch_flag (insn_flags I)) /\
      forall st : Z,
        opdis_insn_is_branch (Ptr l)
          (set_cell h l (Some (BInsn (set_insn_status st I))))
        = Ok r (set_cell h l (Some (BInsn (set_insn_status st I)))).
Proof.
  split; [reflexivity|].
  intros l I HI. apply heap_insn_cell in HI.
  assert (Hl : (l < length (cells h))%nat)
    by (eapply lookup_lt_Some; eauto).
  assert (Hst : forall st,
    load_insn (Ptr l) (set_cell h l (Some (BInsn (set_insn_status st I))))
    = Ok (set_insn_status st I)
         (set_cell h l (Some (BInsn (set_insn_status st I))))).
  { intros st. apply load_insn_cell. simpl.
    now apply list_lookup_insert_eq. }
  unfold opdis_insn_is_branch; cbn [is_null].
  unfold mbind, M_bind. rewrite (load_insn_cell _ _ _ HI).
  unfold cflow_branch_flag.
  destruct (decide (insn_category I = opdis_insn_cat_cflow)) as [Hc|Hc];
    [destruct (decide _) as [Hf|Hf]|].
  - exists 1. repeat split; auto.
    intros st. rewrite Hst. destruct I; simpl in *.
    rewrite decide_True by assumption. now rewrite decide_True.
  - exists 0. repeat split; auto; try (intros; exfalso; intuition lia).
    intros st. rewrite Hst. destruct I; simpl in *.
    rewrite decide_True by assumption. now rewrite decide_False.
  - exists 0. repeat split; auto; try (intros; exfalso; intuition lia).
    intros st. rewrite Hst. destruct I; simpl in *.
    now rewrite decide_False by assumption.
Qed.

(** C7: [opdis_insn_fallthrough] answers 0 exactly when the category is
    control-flow and the flag is return or jump, and 1 in every other
    case: any other category or flag value, any status mask, and an
    absent instruction. *)
Theorem opdis_insn_fallthrough_spec (h : heap) :
  opdis_insn_fallthrough NULL h = Ok 1 h /\
  forall (l : loc) (I : opdis_insn_t),
    heap_insn h (Ptr l) = Some I ->
    exists r : Z,
      opdis_insn_fallthrough (Ptr l) h = Ok r h /\
      (r = 0 \/ r = 1) /\
      (r = 0 <->
         insn_category I = opdis_insn_cat_cflow /\
         (insn_flags I = opdis_cflow_flag_ret \/
          insn_flags I = opdis_cflow_flag_jmp)) /\
      forall st : Z,
        opdis_insn_fallthrough (Ptr l)
          (set_cell h l (Some (BInsn (set_insn_status st I))))
        = Ok r (set_cell h l (Some (BInsn (set_insn_status st I)))).
Proof.
  split; [reflexivity|].
  intros l I HI. apply heap_insn_cell in HI.
  assert (Hl : (l < length (cells h))%nat)
    by (eapply lookup_lt_Some; eauto).
  assert (Hst : forall st,
    load_insn (Ptr l) (set_cell h l (Some (BInsn (set_insn_status st I))))
    = Ok (set_insn_status st I)
         (set_cell h l (Some (BInsn (set_insn_status st I))))).
  { intros st. apply load_insn_cell. simpl.
    now apply list_lookup_insert_eq. }
  unfold opdis_insn_fallthrough; cbn [is_null].
  unfold mbind, M_bind. rewrite (load_insn_cell _ _ _ HI).
  destruct (decide (insn_category I = opdis_insn_cat_cflow)) as [Hc|Hc];
    [destruct (decide _) as [Hf|Hf]|].
  - exists 0. repeat split; auto.
    intros st. rewrite Hst. destruct I; simpl in *.
    rewrite decide_True by assumption. now rewrite decide_True.
  - exists 1. repeat split; auto; try (intros; exfalso; intuition lia).
    intros st. rewrite Hst. destruct I; simpl in *.
    rewrite decide_True by assumption. now rewrite decide_False.
  - exists 1. repeat split; auto; try (intros; exfalso; intuition lia).
    intros st. rewrite Hst. destruct I; simpl in *.
    now rewrite decide_False by assumption.
Qed.
End ClassificationFacts.

(** ** Stepping the heap monad *)

Lemma bind_Ok {A B : Type} (m : M A) (f : A -> M B) (h h' : heap) (a : A) :
  m h = Ok a h' -> (m ≫= f) h = f a h'.
Proof. intros H. unfold mbind, M_bind. now rewrite H. Qed.

Lemma cells_set_cell_eq (h : heap) (l : loc) (ob : option block) :
  (l < length (cells h))%nat -> cells (set_cell h l ob) !! l = Some ob.
Proof. intros Hl. simpl. now apply list_lookup_insert_eq. Qed.

Lemma cells_set_cell_ne (h : heap) (l l' : loc) (ob : option block) :
  l <> l' -> cells (set_cell h l ob) !! l' = cells h !! l'.
Proof. intros Hl. simpl. now apply list_lookup_insert_ne. Qed.

Lemma cells_push_cell_old (h : heap) (b : block) (l : loc) :
  (l < length (cells h))%nat -> cells (push_cell h b) !! l = cells h !! l.
Proof. intros Hl. simpl. now apply lookup_app_l. Qed.

Lemma cells_push_cell_new (h : heap) (b : block) :
  cells (push_cell h b) !! length (cells h) = Some (Some b).
Proof. simpl. now rewrite list_lookup_middle. Qed.

Lemma cell_lt (h : heap) (l : loc) (ob : option block) :
  cells h !! l = Some ob -> (l < length (cells h))%nat.
Proof. apply lookup_lt_Some. Qed.

Lemma store_insn_cell (h : heap) (l : loc) (I J : opdis_insn_t) :
  cells h !! l = Some (Some (BInsn I)) ->
  store_insn (Ptr l) J h = Ok tt (set_cell h l (Some (BInsn J))).
Proof.
  intros H. unfold store_insn, get_cell, put_cell, mbind, M_bind.
  now rewrite H, H.
Qed.

Lemma modify_insn_cell (h : heap) (l : loc) (I : opdis_insn_t)
    (f : opdis_insn_t -> opdis_insn_t) :
  cells h !! l = Some (Some (BInsn I)) ->
  modify_insn (Ptr l) f h = Ok tt (set_cell h l (Some (BInsn (f I)))).
Proof.
  intros H. unfold modify_insn.
  rewrite (bind_Ok _ _ _ _ _ (load_insn_cell _ _ _ H)).
  now apply store_insn_cell with I.
Qed.

Lemma load_op_cell (h : heap) (l : loc) (o : opdis_op_t) :
  cells h !! l = Some (Some (BOp o)) -> load_op (Ptr l) h = Ok o h.
Proof.
  intros H. unfold load_op, get_cell, mbind, M_bind. now rewrite H.
Qed.

Lemma store_op_cell (h : heap) (l : loc) (o o' : opdis_op_t) :
  cells h !! l = Some (Some (BOp o)) ->
  store_op (Ptr l) o' h = Ok tt (set_cell h l (Some (BOp o'))).
Proof.
  intros H. unfold store_op, get_cell, put_cell, mbind, M_bind.
  now rewrite H, H.
Qed.

Lemma modify_op_cell (h : heap) (l : loc) (o : opdis_op_t)
    (f : opdis_op_t -> opdis_op_t) :
  cells h !! l = Some (Some (BOp o)) ->
  modify_op (Ptr l) f h = Ok tt (set_cell h l (Some (BOp (f o)))).
Proof.
  intros H. unfold modify_op.
  rewrite (bind_Ok _ _ _ _ _ (load_op_cell _ _ _ H)).
  now apply store_op_cell with o.
Qed.

Lemma load_chars_cell (h : heap) (l : loc) (cs : list ascii) :
  cells h !! l = Some (Some (BChars cs)) -> load_chars (Ptr l) h = Ok cs h.
Proof.
  intros H. unfold load_chars, get_cell, mbind, M_bind. now rewrite H.
Qed.

Lemma store_chars_cell (h : heap) (l : loc) (cs cs' : list ascii) :
  cells h !! l = Some (Some (BChars cs)) ->
  store_chars (Ptr l) cs' h = Ok tt (set_cell h l (Some (BChars cs'))).
Proof.
  intros H. unfold store_chars, get_cell, put_cell, mbind, M_bind.
  now rewrite H, H.
Qed.

Lemma load_ops_cell (h : heap) (l : loc) (ps : list ptr) :
  cells h !! l = Some (Some (BOps ps)) -> load_ops (Ptr l) h = Ok ps h.
Proof.
  intros H. unfold load_ops, get_cell, mbind, M_bind. now rewrite H.
Qed.

Lemma store_ops_cell (h : heap) (l : loc) (ps ps' : list ptr) :
  cells h !! l = Some (Some (BOps ps)) ->
  store_ops (Ptr l) ps' h = Ok tt (set_cell h l (Some (BOps ps'))).
Proof.
  intros H. unfold store_ops, get_cell, put_cell, mbind, M_bind.
  now rewrite H, H.
Qed.

Lemma write_slot_cell (h : heap) (l : loc) (ps : list ptr) (i : Z)
    (q : ptr) :
  cells h !! l = Some (Some (BOps ps)) ->
  0 <= i < Z.of_nat (length ps) ->
  write_slot (Ptr l) i q h
  = Ok tt (set_cell h l (Some (BOps (<[Z.to_nat i := q]> ps)))).
Proof.
  intros H Hi. unfold write_slot.
  rewrite (bind_Ok _ _ _ _ _ (load_ops_cell _ _ _ H)).
  rewrite decide_True by assumption.
  now apply store_ops_cell with ps.
Qed.

Lemma free_cell (h : heap) (l : loc) (b : block) :
  cells h !! l = Some (Some b) ->
  free (Ptr l) h = Ok tt (set_cell h l None).
Proof. intros H. unfold free. now rewrite H. Qed.

Lemma malloc_granted (h : heap) (b : block) :
  next_request h = true ->
  malloc b h = Ok (Ptr (length (cells h))) (push_cell h b).
Proof. intros H. unfold malloc. now rewrite H. Qed.

Lemma malloc_refused (h : heap) (b : block) :
  next_request h = false -> malloc b h = Ok NULL (refuse h).
Proof. intros H. unfold malloc. now rewrite H. Qed.

Lemma set_cell_same (h : heap) (l : loc) (ob : option block) :
  cells h !! l = Some ob -> set_cell h l ob = h.
Proof.
  intros H. destruct h as [cs o]. unfold set_cell; simpl in *.
  f_equal. now apply list_insert_id.
Qed.

Lemma set_cell_twice (h : heap) (l : loc) (ob ob' : option block) :
  set_cell (set_cell h l ob) l ob' = set_cell h l ob'.
Proof.
  unfold set_cell; simpl. f_equal. apply list_insert_insert_eq.
Qed.

(** ** Machine integers in range *)

Lemma size_t_small (z : Z) : 0 <= z < 2 ^ 64 -> size_t z = z.
Proof. intros H. unfold size_t. now apply Z.mod_small. Qed.

Lemma bind_assoc {A B C : Type} (m : M A) (f : A -> M B) (g : B -> M C)
    (h : heap) :
  ((m ≫= f) ≫= g) h = (m ≫= (fun a => f a ≫= g)) h.
Proof. unfold mbind, M_bind. now destruct (m h). Qed.

Lemma bind_ret {A B : Type} (a : A) (f : A -> M B) (h : heap) :
  (mret a ≫= f) h = f a h.
Proof. reflexivity. Qed.

(** One step of symbolic execution: the head command of the program in
    the goal is replaced by its outcome [H]. *)
Tactic Notation "step" open_constr(H) :=
  rewrite ?bind_assoc; rewrite (bind_Ok _ _ _ _ _ H);
  cbn [is_null orb negb].
Ltac step_ret :=
  rewrite ?bind_assoc; rewrite bind_ret; cbn [is_null orb negb].

(** ** Appending operands *)

(** C5: [opdis_insn_add_operand] stores the operand pointer itself.  With a
    free slot it writes that slot in place: no allocation request is made
    and no cell is added.  Without one it raises [alloc_operands] by one,
    moves the array to a block one slot longer and stores the pointer in
    the new slot.  When that request is refused it answers 0 and every
    heap cell is as before.  In all cases [num_operands] goes up by the
    value returned. *)
Theorem opdis_insn_add_operand_spec (h : heap) (li : loc) (op : loc)
    (I : opdis_insn_t) (ps : list ptr) :
  heap_insn h (Ptr li) = Some I ->
  operand_array h I = Some ps ->
  Z.of_nat (length ps) = insn_alloc_operands I ->
  0 <= insn_num_operands I <= insn_alloc_operands I ->
  insn_alloc_operands I < 2 ^ 64 - 1 ->
  exists (r : Z) (h' : heap) (I' : opdis_insn_t) (ps' : list ptr),
    opdis_insn_add_operand (Ptr li) (Ptr op) h = Ok r h' /\
    heap_insn h' (Ptr li) = Some I' /\
    operand_array h' I' = Some ps' /\
    insn_num_operands I' = insn_num_operands I + r /\
    (insn_num_operands I < insn_alloc_operands I ->
       r = 1 /\
       I' = set_insn_num_operands (insn_num_operands I + 1) I /\
       ps' = <[Z.to_nat (insn_num_operands I) := Ptr op]> ps /\
       ps' !! Z.to_nat (insn_num_operands I) = Some (Ptr op) /\
       oracle h' = oracle h /\
       length (cells h') = length (cells h)) /\
    (insn_num_operands I = insn_alloc_operands I ->
     next_request h = true ->
       r = 1 /\
       insn_alloc_operands I' = insn_alloc_operands I + 1 /\
       ps' = ps ++ [Ptr op] /\
       insn_operands I' = Ptr (length (cells h))) /\
    (insn_num_operands I = insn_alloc_operands I ->
     next_request h = false ->
       r = 0 /\ I' = I /\ ps' = ps /\ cells h' = cells h).
Proof.
  intros HI Hps Hlen Hnum Hmax.
  apply heap_insn_cell in HI.
  pose proof (cell_lt _ _ _ HI) as Hli.
  unfold opdis_insn_add_operand. cbn [is_null orb].
  step (load_insn_cell _ _ _ HI).
  destruct (decide (insn_num_operands I < insn_alloc_operands I))
    as [Hlt|Hge].
  - (* a free slot *)
    unfold operand_array in Hps.
    destruct (insn_operands I) as [|la] eqn:Hops; simpl in Hps.
    { injection Hps as <-. simpl in Hlen. lia. }
    apply heap_ops_cell in Hps.
    assert (Hne : la <> li) by (intros ->; congruence).
    assert (Hslot : 0 <= insn_num_operands I < Z.of_nat (length ps))
      by lia.
    step (write_slot_cell _ _ _ _ (Ptr op) Hps Hslot).
    set (ps1 := <[Z.to_nat (insn_num_operands I) := Ptr op]> ps).
    set (h1 := set_cell h la (Some (BOps ps1))).
    assert (HI1 : cells h1 !! li = Some (Some (BInsn I)))
      by (subst h1; rewrite cells_set_cell_ne; auto).
    step (modify_insn_cell _ _ _ _ HI1).
    rewrite size_t_small by lia.
    eexists 1, _, _, ps1. split; [reflexivity|].
    split.
    { apply heap_insn_cell. apply cells_set_cell_eq.
      subst h1; simpl. now rewrite length_insert. }
    split.
    { unfold operand_array. destruct I; simpl in *. subst.
      simpl. apply heap_ops_cell. rewrite cells_set_cell_ne by auto.
      subst h1. apply cells_set_cell_eq. eapply cell_lt; eauto. }
    split; [destruct I; reflexivity|].
    split; [|split; intros; lia].
    intros _. repeat split; auto.
    + subst ps1. apply list_lookup_insert_eq. lia.
    + subst h1; simpl. now rewrite !length_insert.
  - (* no free slot *)
    assert (Heq : insn_num_operands I = insn_alloc_operands I) by lia.
    step (modify_insn_cell _ _ _ _ HI).
    rewrite size_t_small by lia.
    set (I1 := set_insn_alloc_operands (insn_alloc_operands I + 1) I).
    set (h1 := set_cell h li (Some (BInsn I1))).
    assert (HI1 : cells h1 !! li = Some (Some (BInsn I1)))
      by (subst h1; now apply cells_set_cell_eq).
    step (load_insn_cell _ _ _ HI1).
    assert (Hops1 : insn_operands I1 = insn_operands I)
      by (destruct I; reflexivity).
    assert (Hao1 : insn_alloc_operands I1 = insn_alloc_operands I + 1)
      by (destruct I; reflexivity).
    assert (Hno1 : insn_num_operands I1 = insn_num_operands I)
      by (destruct I; reflexivity).
    assert (Hold : (if is_null (insn_operands I1) then mret []
                    else load_ops (insn_operands I1)) h1 = Ok ps h1).
    { rewrite Hops1. unfold operand_array in Hps.
      destruct (insn_operands I) as [|la]; simpl in *.
      - now injection Hps as <-.
      - apply heap_ops_cell in Hps. apply load_ops_cell.
        subst h1. rewrite cells_set_cell_ne; auto.
        intros ->; congruence. }
    unfold realloc_ops. step Hold.
    assert (Hres : resize (Z.to_nat (insn_alloc_operands I1)) NULL ps
                   = ps ++ [NULL]).
    { rewrite Hao1. replace (Z.to_nat (insn_alloc_operands I + 1))
        with (length ps + 1)%nat by lia.
      rewrite resize_ge by lia.
      now replace (length ps + 1 - length ps)%nat with 1%nat by lia. }
    rewrite Hres.
    destruct (next_request h) eqn:Hreq.
    + (* the array is moved *)
      assert (Hreq1 : next_request h1 = true) by exact Hreq.
      step (malloc_granted _ _ Hreq1).
      cbn [is_null].
      set (h2 := push_cell h1 (BOps (ps ++ [NULL]))).
      set (ln := length (cells h1)).
      assert (Hln : ln = length (cells h))
        by (subst ln h1; simpl; now rewrite length_insert).
      assert (Hfree : free (insn_operands I1) h2
                = Ok tt (match insn_operands I with
                         | NULL => h2
                         | Ptr la => set_cell h2 la None
                         end)).
      { rewrite Hops1. unfold operand_array in Hps.
        destruct (insn_operands I) as [|la]; [reflexivity|].
        simpl in Hps. apply heap_ops_cell in Hps.
        assert (la <> li) by (intros ->; congruence).
        pose proof (cell_lt _ _ _ Hps).
        unfold free. subst h2.
        rewrite cells_push_cell_old
          by (subst h1; simpl; rewrite length_insert; lia).
        subst h1. rewrite cells_set_cell_ne by auto. now rewrite Hps. }
      step Hfree.
      set (h3 := match insn_operands I with
                 | NULL => h2 | Ptr la => set_cell h2 la None end).
      assert (Hlen3 : length (cells h3) = S ln).
      { subst h3 h2. destruct (insn_operands I); simpl;
          rewrite ?length_insert, ?length_app; simpl;
          rewrite ?length_insert; lia. }
      assert (Hla : forall l, (l = li \/ l = ln) ->
                cells h3 !! l = cells h2 !! l).
      { intros l Hl. subst h3. unfold operand_array in Hps.
        destruct (insn_operands I) as [|la]; simpl in Hps; [reflexivity|].
        apply heap_ops_cell in Hps. pose proof (cell_lt _ _ _ Hps).
        apply cells_set_cell_ne.
        destruct Hl as [->| ->]; [intros ->; congruence|lia]. }
      assert (HI3 : cells h3 !! li = Some (Some (BInsn I1))).
      { rewrite Hla by auto. subst h2.
        rewrite cells_push_cell_old by lia. exact HI1. }
      step_ret.
      step (modify_insn_cell _ _ _ _ HI3).
      set (I2 := set_insn_operands (Ptr ln) I1).
      set (h4 := set_cell h3 li (Some (BInsn I2))).
      assert (Harr4 : cells h4 !! ln = Some (Some (BOps (ps ++ [NULL])))).
      { subst h4. rewrite cells_set_cell_ne by lia.
        rewrite Hla by auto. subst h2 ln. apply cells_push_cell_new. }
      rewrite Hno1.
      assert (Hslot : 0 <= insn_num_operands I
                           < Z.of_nat (length (ps ++ [NULL])))
        by (rewrite length_app; simpl; lia).
      step (write_slot_cell _ _ _ _ (Ptr op) Harr4 Hslot).
      set (ps2 := <[Z.to_nat (insn_num_operands I) := Ptr op]>
                    (ps ++ [NULL])).
      assert (Hps2 : ps2 = ps ++ [Ptr op]).
      { subst ps2. replace (Z.to_nat (insn_num_operands I))
          with (length ps + 0)%nat by lia.
        now rewrite insert_app_r. }
      set (h5 := set_cell h4 ln (Some (BOps ps2))).
      assert (HI5 : cells h5 !! li = Some (Some (BInsn I2))).
      { subst h5. rewrite cells_set_cell_ne by lia.
        subst h4. apply cells_set_cell_eq. lia. }
      step (modify_insn_cell _ _ _ _ HI5).
      rewrite size_t_small by lia.
      eexists 1, _, _, ps2. split; [reflexivity|].
      split.
      { apply heap_insn_cell. apply cells_set_cell_eq.
        subst h5 h4; simpl. rewrite !length_insert. lia. }
      split.
      { unfold operand_array. subst I2 I1. destruct I; simpl.
        apply heap_ops_cell. rewrite cells_set_cell_ne by lia.
        subst h5. apply cells_set_cell_eq.
        subst h4; simpl. rewrite length_insert. lia. }
      split; [destruct I; reflexivity|].
      split; [intros; lia|]. split; [|intros; congruence].
      intros _ _. repeat split; auto.
      * subst I2 I1. destruct I; reflexivity.
      * subst I2 I1. destruct I; simpl. now rewrite Hln.
    + (* the request is refused *)
      assert (Hreq1 : next_request h1 = false) by exact Hreq.
      step (malloc_refused _ _ Hreq1).
      cbn [is_null]. step_ret. cbn [is_null].
      assert (HIr : cells (refuse h1) !! li = Some (Some (BInsn I1)))
        by exact HI1.
      step (modify_insn_cell _ _ _ _ HIr).
      rewrite Hao1, size_t_small by lia.
      replace (set_insn_alloc_operands (insn_alloc_operands I + 1 - 1) I1)
        with I
        by (subst I1; destruct I; simpl; f_equal; lia).
      assert (Hcells : cells (set_cell (refuse h1) li (Some (BInsn I)))
                       = cells h).
      { subst h1. cbn [cells set_cell refuse].
        etrans; [apply list_insert_insert_eq|now apply list_insert_id]. }
      eexists 0, _, I, ps. split; [reflexivity|].
      split.
      { apply heap_insn_cell. now rewrite Hcells. }
      split.
      { unfold operand_array in *.
        destruct (insn_operands I) as [|la]; [assumption|].
        cbn [is_null] in *. apply heap_ops_cell in Hps.
        apply heap_ops_cell. now rewrite Hcells. }
      split; [lia|].
      split; [intros; lia|]. split; [intros; congruence|].
      intros _ _. auto.
Qed.

(** ** C strings in buffers *)

Lemma nul_free_c_string (s : list ascii) : nul_free (c_string s).
Proof.
  induction s as [|c s IH]; simpl; [constructor|].
  destruct (is_nul c) eqn:Hc; constructor; assumption.
Qed.

Lemma nul_free_take (n : nat) (s : list ascii) :
  nul_free s -> nul_free (take n s).
Proof. apply Forall_take. Qed.

Lemma c_string_app (s r : list ascii) :
  nul_free s -> c_string (s ++ r) = s ++ c_string r.
Proof.
  induction 1 as [|c s Hc _ IH]; simpl; [reflexivity|].
  now rewrite Hc, IH.
Qed.

Lemma c_string_nul_free (s : list ascii) : nul_free s -> c_string s = s.
Proof.
  intros H. rewrite <- (app_nil_r s) at 1.
  rewrite c_string_app by assumption. simpl. apply app_nil_r.
Qed.

Lemma terminated_app (s r : list ascii) :
  nul_free s -> terminated (s ++ r) = terminated r.
Proof.
  induction 1 as [|c s Hc _ IH]; simpl; [reflexivity|].
  now rewrite Hc.
Qed.

Lemma c_string_length (s : list ascii) :
  (length (c_string s) <= length s)%nat.
Proof.
  induction s as [|c s IH]; simpl; [lia|].
  destruct (is_nul c); simpl; lia.
Qed.

(** A buffer whose byte [k] is NUL, seen from offset [k]. *)
Lemma drop_nul (k : nat) (buf : list ascii) :
  buf !! k = Some NUL -> exists rest, drop k buf = NUL :: rest.
Proof.
  intros H. exists (drop (S k) buf). now apply drop_S.
Qed.

(** What [strncpy] leaves in a buffer whose byte [k] is NUL when it is
    asked to write [k] bytes. *)
Lemma strncpy_buffer (k : nat) (s buf : list ascii) :
  nul_free s ->
  buf !! k = Some NUL ->
  let buf' := take k s ++ replicate (k - length s) NUL ++ drop k buf in
  length buf' = length buf /\
  buf' !! k = Some NUL /\
  terminated buf' = true /\
  c_string buf' = take k s.
Proof.
  intros Hs Hk buf'.
  pose proof (lookup_lt_Some _ _ _ Hk) as Hlt.
  destruct (drop_nul _ _ Hk) as [rest Hrest].
  assert (Hlen : length (take k s ++ replicate (k - length s) NUL) = k).
  { rewrite length_app, length_take, length_replicate. lia. }
  assert (Htail : forall m, c_string (replicate m NUL ++ NUL :: rest) = []
                            /\ terminated (replicate m NUL ++ NUL :: rest)
                               = true).
  { intros [|m]; simpl; auto. }
  subst buf'. rewrite Hrest. repeat split.
  - rewrite <- Hrest. rewrite !length_app, length_take, length_replicate,
      length_drop. lia.
  - rewrite app_assoc. rewrite lookup_app_r by lia.
    rewrite Hlen. now replace (k - k)%nat with 0%nat by lia.
  - rewrite terminated_app by (now apply nul_free_take).
    apply Htail.
  - rewrite c_string_app by (now apply nul_free_take).
    rewrite (proj1 (Htail _)). apply app_nil_r.
Qed.

Lemma uchar_range (z : Z) : 0 <= uchar z < 256.
Proof. unfold uchar. apply Z.mod_pos_bound. lia. Qed.

(** [strncpy] with the bound [sz - 1] of the fixed-size setters, for a
    recorded size [sz] between 1 and the length of the buffer. *)
Lemma strncpy_fixed (h : heap) (la : loc) (buf s : list ascii) (sz : Z) :
  cells h !! la = Some (Some (BChars buf)) ->
  1 <= sz < 2 ^ 64 ->
  buf !! Z.to_nat (sz - 1) = Some NUL ->
  exists buf' : list ascii,
    strncpy (Ptr la) s (size_t (sz - 1)) h
    = Ok tt (set_cell h la (Some (BChars buf'))) /\
    length buf' = length buf /\
    buf' !! Z.to_nat (sz - 1) = Some NUL /\
    terminated buf' = true /\
    c_string buf' = take (Z.to_nat (sz - 1)) (c_string s).
Proof.
  intros Hbuf Hsz Hnul.
  pose proof (lookup_lt_Some _ _ _ Hnul) as Hlt.
  destruct (strncpy_buffer (Z.to_nat (sz - 1)) (c_string s) buf
              (nul_free_c_string s) Hnul) as (H1 & H2 & H3 & H4).
  eexists. split; [|exact (conj H1 (conj H2 (conj H3 H4)))].
  unfold strncpy. step (load_chars_cell _ _ _ Hbuf).
  rewrite size_t_small by lia.
  rewrite decide_True by lia.
  now apply store_chars_cell with buf.
Qed.

(** With a recorded size of 0 the bound [sz - 1] wraps to [SIZE_MAX] and
    [strncpy] runs off the buffer. *)
Lemma strncpy_wrapped (h : heap) (la : loc) (buf s : list ascii) :
  cells h !! la = Some (Some (BChars buf)) ->
  Z.of_nat (length buf) < 2 ^ 64 - 1 ->
  strncpy (Ptr la) s (size_t (0 - 1)) h = Fault.
Proof.
  intros Hbuf Hlen. unfold strncpy. step (load_chars_cell _ _ _ Hbuf).
  replace (size_t (0 - 1)) with (2 ^ 64 - 1) by reflexivity.
  now rewrite decide_False by lia.
Qed.

(** ** Fixed-size operands *)

Lemma next_request_push (h : heap) (b : block) :
  next_request (push_cell h b) = next_request (refuse h).
Proof. reflexivity. Qed.

Lemma next_request_set_cell (h : heap) (l : loc) (ob : option block) :
  next_request (set_cell h l ob) = next_request h.
Proof. reflexivity. Qed.

(** The three outcomes of [opdis_op_alloc_fixed]: refused at once; the
    struct granted, the buffer refused and the struct released; both
    granted. *)
Lemma opdis_op_alloc_fixed_outcome (c : Z) (h : heap) :
  let lo := length (cells h) in
  opdis_op_alloc_fixed c h =
    if next_request h then
      if next_request (refuse h) then
        Ok (Ptr lo)
           {| cells := cells h ++
                [Some (BOp (fixed_op c (Ptr (S lo))));
                 Some (BChars (replicate (Z.to_nat c) NUL))];
              oracle := tail (tail (oracle h)) |}
      else
        Ok NULL {| cells := cells h ++ [None];
                   oracle := tail (tail (oracle h)) |}
    else Ok NULL (refuse h).
Proof.
  intros lo. unfold opdis_op_alloc_fixed, opdis_op_alloc.
  destruct (next_request h) eqn:Hreq.
  2:{ step (malloc_refused _ _ Hreq). reflexivity. }
  step (malloc_granted _ _ Hreq).
  pose proof (cells_push_cell_new h (BOp zero_op)) as H0. fold lo in H0.
  step (modify_op_cell _ _ _ _ H0).
  set (h1 := set_cell _ _ _).
  assert (H1 : cells h1 !! lo =
               Some (Some (BOp (set_op_fixed_size 1 zero_op)))).
  { subst h1. apply cells_set_cell_eq. simpl. rewrite length_app. simpl.
    lia. }
  step (modify_op_cell _ _ _ _ H1).
  set (h2 := set_cell _ _ _).
  assert (Hc2 : cells h2 = cells h ++
            [Some (BOp (set_op_ascii_sz (uchar c)
                          (set_op_fixed_size 1 zero_op)))]).
  { subst h2 h1. cbn [cells set_cell push_cell].
    rewrite list_insert_insert_eq. subst lo.
    replace (length (cells h)) with (length (cells h) + 0)%nat at 1 by lia.
    now rewrite insert_app_r. }
  assert (Hlen2 : length (cells h2) = S lo)
    by (rewrite Hc2, length_app; simpl; lia).
  assert (H2 : cells h2 !! lo =
               Some (Some (BOp (set_op_ascii_sz (uchar c)
                                  (set_op_fixed_size 1 zero_op))))).
  { rewrite Hc2. now apply list_lookup_middle. }
  assert (Hreq2 : next_request h2 = next_request (refuse h))
    by reflexivity.
  unfold calloc_chars.
  destruct (next_request (refuse h)) eqn:Hreq'.
  - step (malloc_granted _ _ Hreq2).
    rewrite Hlen2.
    assert (H3 : cells (push_cell h2 (BChars (replicate (Z.to_nat c) NUL)))
                 !! lo = Some (Some (BOp (set_op_ascii_sz (uchar c)
                                  (set_op_fixed_size 1 zero_op)))))
      by (rewrite cells_push_cell_old by lia; exact H2).
    step (modify_op_cell _ _ _ _ H3).
    unfold mret, M_ret. f_equal. unfold set_cell. f_equal.
    cbn [cells push_cell]. rewrite Hc2.
    replace lo with (length (cells h) + 0)%nat at 1 by (subst lo; lia).
    rewrite <- app_assoc. rewrite insert_app_r. reflexivity.
  - step (malloc_refused _ _ Hreq2).
    assert (H3 : cells (refuse h2) !! lo =
                 Some (Some (BOp (set_op_ascii_sz (uchar c)
                                  (set_op_fixed_size 1 zero_op)))))
      by exact H2.
    step (modify_op_cell _ _ _ _ H3).
    set (h4 := set_cell _ _ _).
    assert (H4 : cells h4 !! lo =
              Some (Some (BOp (set_op_ascii NULL
                (set_op_ascii_sz (uchar c) (set_op_fixed_size 1 zero_op))))))
      by (subst h4; apply cells_set_cell_eq; cbn [cells refuse]; lia).
    step (free_cell _ _ _ H4).
    unfold mret, M_ret. f_equal. subst h4. rewrite set_cell_twice.
    unfold set_cell. f_equal.
    cbn [cells refuse]. rewrite Hc2.
    replace lo with (length (cells h) + 0)%nat at 1 by (subst lo; lia).
    now rewrite insert_app_r.
Qed.

Lemma uchar_le (c : Z) : 0 <= c -> uchar c <= c.
Proof. intros H. unfold uchar. apply Z.mod_le; lia. Qed.

Lemma heap_string_cell (h : heap) (l : loc) (buf : list ascii) :
  cells h !! l = Some (Some (BChars buf)) ->
  terminated buf = true ->
  heap_string h (Ptr l) = Some (c_string buf).
Proof.
  intros H Ht. unfold heap_string.
  rewrite (proj2 (heap_chars_cell _ _ _) H). now rewrite Ht.
Qed.

(** What the code keeps of C4, for capacities whose recorded size is not
    0.  (1) A successful
    [opdis_op_alloc_fixed c] with [c] not a multiple of 256 gives a
    fixed-size operand in working order over a zeroed buffer of [c] bytes,
    its recorded size being [c mod 256] ([c] itself below 256).  (2) On a
    fixed-size operand in working order [opdis_op_set_ascii] copies the
    text into the existing buffer, cut to [ascii_sz - 1] characters; the
    buffer keeps its length, stays NUL-terminated and in working order, no
    other cell changes and no allocation request is made.  (3) On an
    operand that is not fixed-size it releases the string the operand has
    and, the request granted, gives it a new buffer holding the text.
    (4) It does nothing when the operand or the text is absent. *)
Theorem opdis_op_set_ascii_spec :
  (forall (c : Z) (h h' : heap) (lo : loc),
     0 <= c -> c mod 256 <> 0 ->
     opdis_op_alloc_fixed c h = Ok (Ptr lo) h' ->
     exists o : opdis_op_t,
       heap_op h' (Ptr lo) = Some o /\
       op_ascii_sz o = c mod 256 /\
       (c < 256 -> op_ascii_sz o = c) /\
       fixed_op_buffer h' o (replicate (Z.to_nat c) NUL)) /\
  (forall (h : heap) (lo : loc) (o : opdis_op_t) (buf s : list ascii),
     heap_op h (Ptr lo) = Some o ->
     fixed_op_buffer h o buf ->
     exists (h' : heap) (buf' : list ascii),
       opdis_op_set_ascii (Ptr lo) (Some s) h = Ok tt h' /\
       heap_op h' (Ptr lo) = Some o /\
       fixed_op_buffer h' o buf' /\
       length buf' = length buf /\
       heap_string h' (op_ascii o)
       = Some (take (Z.to_nat (op_ascii_sz o - 1)) (c_string s)) /\
       Z.of_nat (length (take (Z.to_nat (op_ascii_sz o - 1)) (c_string s)))
       <= op_ascii_sz o - 1 /\
       (forall q : ptr,
          q <> op_ascii o -> heap_block h' q = heap_block h q) /\
       length (cells h') = length (cells h) /\
       oracle h' = oracle h) /\
  (forall (h : heap) (lo : loc) (o : opdis_op_t) (s : list ascii),
     heap_op h (Ptr lo) = Some o ->
     op_fixed_size o = 0 ->
     (op_ascii o = NULL \/ exists old, heap_chars h (op_ascii o) = Some old) ->
     next_request h = true ->
     let a := Ptr (length (cells h)) in
     exists h' : heap,
       opdis_op_set_ascii (Ptr lo) (Some s) h = Ok tt h' /\
       heap_op h' (Ptr lo) = Some (set_op_ascii a o) /\
       heap_block h a = None /\
       heap_string h' a = Some (c_string s) /\
       heap_block h' (op_ascii o) = None) /\
  (forall (h : heap) (p : ptr) (t : text),
     opdis_op_set_ascii NULL t h = Ok tt h /\
     opdis_op_set_ascii p None h = Ok tt h).
Proof.
  split; [|split; [|split]].
  - (* allocation *)
    intros c h h' lo Hc Hmod Halloc.
    rewrite opdis_op_alloc_fixed_outcome in Halloc.
    destruct (next_request h); [|discriminate].
    destruct (next_request (refuse h)); [|discriminate].
    injection Halloc as <- <-.
    pose proof (uchar_range c) as Hr. pose proof (uchar_le c Hc) as Hle.
    unfold uchar in *.
    exists (fixed_op c (Ptr (S (length (cells h))))).
    split.
    { apply heap_op_cell. cbn [cells]. now apply list_lookup_middle. }
    split; [reflexivity|].
    split; [intros Hlt; cbn; unfold uchar; apply Z.mod_small; lia|].
    split; [cbn; lia|]. split.
    { apply heap_chars_cell. cbn [cells op_ascii fixed_op set_op_ascii].
      rewrite lookup_app_r by lia.
      now replace (S (length (cells h)) - length (cells h))%nat
        with 1%nat by lia. }
    split; [cbn; unfold uchar; lia|].
    apply lookup_replicate_2. cbn. unfold uchar. lia.
  - (* fixed-size *)
    intros h lo o buf s Ho (Hfs & Hbuf & Hsz & Hnul).
    apply heap_op_cell in Ho.
    destruct (op_ascii o) as [|la] eqn:Ha; [discriminate|].
    apply heap_chars_cell in Hbuf.
    assert (Hne : la <> lo) by (intros ->; congruence).
    destruct (strncpy_fixed h la buf s (op_ascii_sz o) Hbuf
                ltac:(lia) Hnul) as (buf' & Hcpy & Hlen & Hnul' & Ht & Hstr).
    exists (set_cell h la (Some (BChars buf'))), buf'.
    pose proof (cell_lt _ _ _ Hbuf) as Hla.
    assert (Hbuf' : cells (set_cell h la (Some (BChars buf'))) !! la
                    = Some (Some (BChars buf')))
      by now apply cells_set_cell_eq.
    split.
    { unfold opdis_op_set_ascii. cbn [is_null].
      step (load_op_cell _ _ _ Ho).
      rewrite decide_True by assumption. now rewrite Ha. }
    split.
    { apply heap_op_cell. now rewrite cells_set_cell_ne. }
    split.
    { split; [assumption|]. split; [|split; assumption].
      rewrite Ha. now apply heap_chars_cell. }
    split; [assumption|].
    split.
    { rewrite <- Hstr. now apply heap_string_cell. }
    split; [rewrite length_take; lia|].
    split.
    { intros [|q] Hq; [reflexivity|]. unfold heap_block.
      rewrite cells_set_cell_ne; [reflexivity|congruence]. }
    split; [cbn; now rewrite length_insert|reflexivity].
  - (* not fixed-size *)
    intros h lo o s Ho Hfs Hold Hreq a.
    apply heap_op_cell in Ho.
    pose proof (cell_lt _ _ _ Ho) as Hlo.
    set (h1 := match op_ascii o with
               | NULL => h | Ptr la => set_cell h la None end).
    assert (Hfree : (if is_null (op_ascii o) then mret tt
                     else free (op_ascii o)) h = Ok tt h1).
    { subst h1. destruct Hold as [->|[old Hold]]; [reflexivity|].
      destruct (op_ascii o) as [|la]; [reflexivity|].
      apply heap_chars_cell in Hold. cbn [is_null].
      now apply free_cell with (BChars old). }
    assert (Hlen1 : length (cells h1) = length (cells h)).
    { subst h1. destruct (op_ascii o); [reflexivity|].
      cbn. now rewrite length_insert. }
    assert (Ho1 : cells h1 !! lo = Some (Some (BOp o))).
    { subst h1. destruct Hold as [->|[old Hold]]; [assumption|].
      destruct (op_ascii o) as [|la]; [assumption|].
      apply heap_chars_cell in Hold.
      rewrite cells_set_cell_ne; [assumption|]. intros ->; congruence. }
    assert (Hgone : forall b,
              cells (push_cell h1 b) !! lo = Some (Some (BOp o)) /\
              heap_block (set_cell (push_cell h1 b) lo
                            (Some (BOp (set_op_ascii a o)))) (op_ascii o)
              = None).
    { intros b. split; [rewrite cells_push_cell_old by lia; exact Ho1|].
      subst h1. destruct Hold as [->|[old Hold]]; [reflexivity|].
      destruct (op_ascii o) as [|la]; [reflexivity|].
      apply heap_chars_cell in Hold.
      pose proof (cell_lt _ _ _ Hold).
      assert (lo <> la) by (intros ->; congruence).
      unfold heap_block. rewrite cells_set_cell_ne by assumption.
      rewrite cells_push_cell_old
        by (cbn [cells set_cell]; rewrite length_insert; lia).
      now rewrite cells_set_cell_eq. }
    assert (Hreq1 : next_request h1 = true).
    { subst h1. now destruct (op_ascii o). }
    eexists. split.
    { unfold opdis_op_set_ascii. cbn [is_null].
      step (load_op_cell _ _ _ Ho).
      rewrite decide_False by (intros Hn; now apply Hn).
      step Hfree. unfold strdup.
      step (malloc_granted _ _ Hreq1).
      rewrite Hlen1. fold a.
      now apply modify_op_cell, Hgone. }
    split.
    { apply heap_op_cell. apply cells_set_cell_eq.
      cbn [cells push_cell]. rewrite length_app. lia. }
    split.
    { unfold a, heap_block. now rewrite lookup_ge_None_2. }
    split; [|apply Hgone].
    assert (Hnew : cells (set_cell (push_cell h1 (BChars (c_string s ++ [NUL])))
                     lo (Some (BOp (set_op_ascii a o))))
                   !! length (cells h)
                   = Some (Some (BChars (c_string s ++ [NUL])))).
    { rewrite cells_set_cell_ne by lia. rewrite <- Hlen1.
      apply cells_push_cell_new. }
    etrans; [apply (heap_string_cell _ _ _ Hnew)|].
    + now rewrite terminated_app by apply nul_free_c_string.
    + rewrite c_string_app by apply nul_free_c_string.
      simpl. now rewrite app_nil_r.
  - (* absent *)
    intros h p t. split; [now destruct t|reflexivity].
Qed.

(** ** Appending to a buffer *)

Lemma take_c_string (buf : list ascii) :
  take (length (c_string buf)) buf = c_string buf.
Proof.
  induction buf as [|c buf IH]; simpl; [reflexivity|].
  destruct (is_nul c); simpl; [reflexivity|now rewrite IH].
Qed.

(** [strncat] when the characters it is to append fit the buffer. *)
Lemma strncat_room (h : heap) (la : loc) (buf s : list ascii) (n : Z) :
  cells h !! la = Some (Some (BChars buf)) ->
  terminated buf = true ->
  let app := take (Z.to_nat (Z.min n (Z.of_nat (length (c_string s)))))
               (c_string s) in
  (length (c_string buf) + length app + 1 <= length buf)%nat ->
  exists buf' : list ascii,
    strncat (Ptr la) s n h = Ok tt (set_cell h la (Some (BChars buf'))) /\
    length buf' = length buf /\
    terminated buf' = true /\
    c_string buf' = c_string buf ++ app.
Proof.
  intros Hbuf Ht app Hroom.
  assert (Hnf : nul_free app)
    by (apply nul_free_take, nul_free_c_string).
  set (k := length (c_string buf)) in *.
  set (buf' := take k buf ++ (app ++ [NUL])
                 ++ drop (k + length (app ++ [NUL])) buf).
  assert (Hlen : length (app ++ [NUL]) = S (length app))
    by (rewrite length_app; simpl; lia).
  exists buf'. split.
  { unfold strncat. step (load_chars_cell _ _ _ Hbuf). rewrite Ht.
    fold app. fold k. unfold write_bytes.
    rewrite decide_True by (rewrite Hlen; lia).
    now apply store_chars_cell with buf. }
  subst buf'.
  replace (take k buf) with (c_string buf)
    by (symmetry; apply take_c_string).
  split; [|split].
  - rewrite !length_app, length_drop. simpl. fold k. lia.
  - rewrite terminated_app by apply nul_free_c_string.
    rewrite <- app_assoc. rewrite terminated_app by assumption.
    reflexivity.
  - rewrite c_string_app by apply nul_free_c_string.
    rewrite <- app_assoc. rewrite c_string_app by assumption.
    simpl. now rewrite app_nil_r.
Qed.

Lemma uint_small (z : Z) : 0 <= z < 2 ^ 32 -> uint z = z.
Proof. intros H. unfold uint. now apply Z.mod_small. Qed.

(** [opdis_insn_add_comment] on a fixed-size instruction with room for a
    separator and the whole comment: the separator is a space, and it is
    written before the first comment as well. *)
Lemma opdis_insn_add_comment_fixed (h : heap) (li lc : loc)
    (I : opdis_insn_t) (buf s : list ascii) :
  cells h !! li = Some (Some (BInsn I)) ->
  insn_fixed_size I <> 0 ->
  insn_comment I = Ptr lc ->
  cells h !! lc = Some (Some (BChars buf)) ->
  terminated buf = true ->
  Z.of_nat (length (c_string buf)) + Z.of_nat (length (c_string s)) + 2
    <= insn_ascii_sz I ->
  insn_ascii_sz I <= Z.of_nat (length buf) ->
  insn_ascii_sz I < 2 ^ 32 ->
  exists buf' : list ascii,
    opdis_insn_add_comment (Ptr li) (Some s) h
    = Ok tt (set_cell h lc (Some (BChars buf'))) /\
    length buf' = length buf /\
    terminated buf' = true /\
    c_string buf' = c_string buf ++ space ++ c_string s.
Proof.
  intros HI Hfs Hc Hbuf Ht Hroom Hcap Hmax.
  set (len := Z.of_nat (length (c_string buf))) in *.
  set (ls := Z.of_nat (length (c_string s))) in *.
  assert (Hsize : uint (size_t (insn_ascii_sz I - len))
                  = insn_ascii_sz I - len).
  { rewrite size_t_small by lia. apply uint_small. lia. }
  destruct (strncat_room h lc buf space (insn_ascii_sz I - len - 1)
              Hbuf Ht) as (buf1 & Hcat1 & Hlen1 & Ht1 & Hs1).
  { replace (c_string space) with space by reflexivity.
    rewrite length_take. simpl. lia. }
  replace (c_string space) with space in Hs1 by reflexivity.
  replace (Z.to_nat (Z.min (insn_ascii_sz I - len - 1)
                       (Z.of_nat (length space)))) with 1%nat in Hs1
    by (simpl; lia).
  change (take 1 space) with space in Hs1.
  set (h1 := set_cell h lc (Some (BChars buf1))) in *.
  assert (Hbuf1 : cells h1 !! lc = Some (Some (BChars buf1)))
    by (apply cells_set_cell_eq; eapply cell_lt; eauto).
  assert (Hlen_s1 : length (c_string buf1) = S (length (c_string buf)))
    by (rewrite Hs1, length_app; simpl; lia).
  destruct (strncat_room h1 lc buf1 s (insn_ascii_sz I - len - 2)
              Hbuf1 Ht1) as (buf2 & Hcat2 & Hlen2 & Ht2 & Hs2).
  { rewrite length_take. lia. }
  rewrite take_ge in Hs2 by lia.
  exists buf2. split.
  { unfold opdis_insn_add_comment. cbn [is_null].
    step (load_insn_cell _ _ _ HI).
    rewrite decide_True by assumption.
    rewrite Hc. unfold strlen, load_string.
    step (load_chars_cell _ _ _ Hbuf). rewrite Ht. step_ret. step_ret.
    fold len. rewrite Hsize.
    rewrite !uint_small by lia.
    step Hcat1. rewrite Hcat2. subst h1. now rewrite set_cell_twice. }
  split; [congruence|]. split; [assumption|].
  rewrite Hs2, Hs1. now rewrite <- app_assoc.
Qed.

(** ** Clearing an instruction *)

Lemma clear_progress_start (h : heap) (li : loc) (I : opdis_insn_t) :
  cells h !! li = Some (Some (BInsn I)) -> clear_progress h li [] I h.
Proof.
  intros HI. split; [reflexivity|]. split; [reflexivity|].
  split; [assumption|].
  intros l _. rewrite decide_False; [reflexivity|]. apply not_elem_of_nil.
Qed.

Lemma clear_progress_modify (h h' : heap) (li : loc) (D : list ptr)
    (J : opdis_insn_t) (f : opdis_insn_t -> opdis_insn_t) :
  clear_progress h li D J h' ->
  exists h'' : heap,
    modify_insn (Ptr li) f h' = Ok tt h'' /\
    clear_progress h li D (f J) h''.
Proof.
  intros (Ho & Hlen & HJ & Hrest).
  exists (set_cell h' li (Some (BInsn (f J)))).
  split; [now apply modify_insn_cell|].
  split; [assumption|]. split; [cbn; now rewrite length_insert|].
  split; [apply cells_set_cell_eq; eapply cell_lt; eauto|].
  intros l Hl. rewrite cells_set_cell_ne by auto. now apply Hrest.
Qed.

Lemma clear_progress_string (h h' : heap) (li : loc) (D : list ptr)
    (I J : opdis_insn_t) (p : ptr) :
  cells h !! li = Some (Some (BInsn I)) ->
  clearable h p ->
  clear_progress h li D J h' ->
  exists h'' : heap,
    clear_string p h' = Ok tt h'' /\
    clear_progress h li (p :: D) J h''.
Proof.
  intros HI Hp (Ho & Hlen & HJ & Hrest).
  destruct Hp as [->|(c & rest & Hp)].
  { exists h'. split; [reflexivity|].
    split; [assumption|]. split; [assumption|]. split; [assumption|].
    intros l Hl. rewrite (Hrest l Hl).
    destruct (decide (Ptr l ∈ D)) as [Hin|Hin].
    - rewrite decide_True; [reflexivity|]. apply elem_of_cons; now right.
    - rewrite decide_False; [reflexivity|].
      intros [Heq|Hin']%elem_of_cons; [discriminate|contradiction]. }
  destruct p as [|lp]; [discriminate|].
  apply heap_chars_cell in Hp.
  assert (Hne : lp <> li) by (intros ->; congruence).
  assert (Hcur : exists c', cells h' !! lp
                            = Some (Some (BChars (c' :: rest)))).
  { rewrite (Hrest lp Hne), Hp.
    destruct (decide (Ptr lp ∈ D)); simpl; eauto. }
  destruct Hcur as [c' Hcur].
  exists (set_cell h' lp (Some (BChars (NUL :: rest)))).
  split.
  { unfold clear_string. cbn [is_null].
    step (load_chars_cell _ _ _ Hcur).
    now apply store_chars_cell with (c' :: rest). }
  split; [assumption|]. split; [cbn; now rewrite length_insert|].
  split; [now rewrite cells_set_cell_ne|].
  intros l Hl. destruct (decide (l = lp)) as [->|Hlp].
  - rewrite cells_set_cell_eq by (eapply cell_lt; eauto).
    rewrite decide_True by (apply elem_of_cons; now left).
    now rewrite Hp.
  - rewrite cells_set_cell_ne by auto. rewrite (Hrest l Hl).
    destruct (decide (Ptr l ∈ D)) as [Hin|Hin].
    + rewrite decide_True; [reflexivity|]. apply elem_of_cons; now right.
    + rewrite decide_False; [reflexivity|].
      intros [Heq|Hin']%elem_of_cons; [congruence|contradiction].
Qed.

Lemma clear_progress_load (h h' : heap) (li : loc) (D : list ptr)
    (J : opdis_insn_t) :
  clear_progress h li D J h' -> load_insn (Ptr li) h' = Ok J h'.
Proof. intros (_ & _ & HJ & _). now apply load_insn_cell. Qed.

(** The whole of [opdis_insn_clear]. *)
Lemma opdis_insn_clear_outcome (h : heap) (li : loc) (I : opdis_insn_t) :
  cells h !! li = Some (Some (BInsn I)) ->
  clearable h (insn_ascii I) ->
  clearable h (insn_prefixes I) ->
  clearable h (insn_mnemonic I) ->
  exists h' : heap,
    opdis_insn_clear (Ptr li) h = Ok tt h' /\
    clear_progress h li
      [insn_mnemonic I; insn_prefixes I; insn_ascii I] (cleared I) h'.
Proof.
  intros HI Ha Hp Hm.
  pose proof (clear_progress_start h li I HI) as P0.
  destruct (clear_progress_modify _ _ _ _ _
              (set_insn_status opdis_decode_invalid) P0) as (h1 & E1 & P1).
  pose proof (clear_progress_load _ _ _ _ _ P1) as L1.
  assert (Hsame : insn_ascii (set_insn_status opdis_decode_invalid I)
                  = insn_ascii I /\
                  insn_prefixes (set_insn_status opdis_decode_invalid I)
                  = insn_prefixes I /\
                  insn_mnemonic (set_insn_status opdis_decode_invalid I)
                  = insn_mnemonic I) by (destruct I; auto).
  destruct Hsame as (Sa & Sp & Sm).
  destruct (clear_progress_string _ _ _ _ _ _ _ HI Ha P1) as (h2 & E2 & P2).
  destruct (clear_progress_modify _ _ _ _ _
              (set_insn_num_prefixes 0) P2) as (h3 & E3 & P3).
  destruct (clear_progress_string _ _ _ _ _ _ _ HI Hp P3) as (h4 & E4 & P4).
  destruct (clear_progress_string _ _ _ _ _ _ _ HI Hm P4) as (h5 & E5 & P5).
  destruct (clear_progress_modify _ _ _ _ _
              (set_insn_num_operands 0) P5) as (h6 & E6 & P6).
  destruct (clear_progress_modify _ _ _ _ _
              (set_insn_src NULL) P6) as (h7 & E7 & P7).
  destruct (clear_progress_modify _ _ _ _ _
              (set_insn_dest NULL) P7) as (h8 & E8 & P8).
  destruct (clear_progress_modify _ _ _ _ _
              (set_insn_target NULL) P8) as (h9 & E9 & P9).
  exists h9. split; [|exact P9].
  unfold opdis_insn_clear. cbn [is_null].
  step E1. step L1. rewrite Sa, Sp, Sm.
  step E2. step E3. step E4. step E5. step E6. step E7. step E8.
  exact E9.
Qed.

(** C10: [opdis_insn_clear] resets the status, empties the ascii, prefix
    and mnemonic strings, zeroes [num_prefixes] and [num_operands] and
    unsets [target], [dest] and [src]; the [comment] pointer and the bytes
    of the comment buffer are as before.  On a fixed-size instruction a
    following [opdis_insn_add_comment] therefore appends to the text the
    buffer held before the clear. *)
Theorem opdis_insn_clear_keeps_comment (h : heap) (li : loc)
    (I : opdis_insn_t) :
  heap_insn h (Ptr li) = Some I ->
  clearable h (insn_ascii I) ->
  clearable h (insn_prefixes I) ->
  clearable h (insn_mnemonic I) ->
  comment_apart I ->
  exists h' : heap,
    opdis_insn_clear (Ptr li) h = Ok tt h' /\
    heap_insn h' (Ptr li) = Some (cleared I) /\
    insn_comment (cleared I) = insn_comment I /\
    heap_chars h' (insn_comment I) = heap_chars h (insn_comment I) /\
    (insn_status (cleared I) = opdis_decode_invalid /\
     insn_num_prefixes (cleared I) = 0 /\
     insn_num_operands (cleared I) = 0 /\
     insn_target (cleared I) = NULL /\
     insn_dest (cleared I) = NULL /\
     insn_src (cleared I) = NULL) /\
    (forall p : ptr,
       p ∈ [insn_ascii I; insn_prefixes I; insn_mnemonic I] ->
       p <> NULL -> heap_string h' p = Some []) /\
    (forall buf s : list ascii,
       insn_fixed_size I <> 0 ->
       heap_chars h (insn_comment I) = Some buf ->
       terminated buf = true ->
       Z.of_nat (length (c_string buf)) + Z.of_nat (length (c_string s)) + 2
         <= insn_ascii_sz I ->
       insn_ascii_sz I <= Z.of_nat (length buf) ->
       insn_ascii_sz I < 2 ^ 32 ->
       exists h'' : heap,
         opdis_insn_add_comment (Ptr li) (Some s) h' = Ok tt h'' /\
         heap_string h'' (insn_comment I)
         = Some (c_string buf ++ space ++ c_string s)).
Proof.
  intros HI Ha Hp Hm Hapart. apply heap_insn_cell in HI.
  destruct (opdis_insn_clear_outcome h li I HI Ha Hp Hm)
    as (h' & Hclear & Ho & Hlen & HJ & Hrest).
  assert (Hcomment : heap_chars h' (insn_comment I)
                     = heap_chars h (insn_comment I)).
  { destruct (insn_comment I) as [|lc] eqn:Hc; [reflexivity|].
    unfold heap_chars, heap_block.
    destruct (decide (lc = li)) as [->|Hne]; [now rewrite HJ, HI|].
    rewrite (Hrest lc Hne). rewrite decide_False; [reflexivity|].
    destruct Hapart as [?|(H1 & H2 & H3)]; [congruence|].
    rewrite !elem_of_cons, elem_of_nil. intuition congruence. }
  exists h'. split; [assumption|].
  split; [now apply heap_insn_cell|].
  split; [destruct I; reflexivity|].
  split; [assumption|].
  split; [destruct I; cbn; auto 10|].
  split.
  - intros p Hin Hnn.
    assert (Hcl : clearable h p).
    { rewrite !elem_of_cons, elem_of_nil in Hin.
      destruct Hin as [->|[->|[->|[]]]]; assumption. }
    destruct Hcl as [->|(c & rest & Hcl)]; [contradiction|].
    destruct p as [|lp]; [contradiction|].
    apply heap_chars_cell in Hcl.
    assert (Hne : lp <> li) by (intros ->; congruence).
    assert (Hcell : cells h' !! lp = Some (Some (BChars (NUL :: rest)))).
    { rewrite (Hrest lp Hne), Hcl. rewrite decide_True; [reflexivity|].
      rewrite !elem_of_cons in *. tauto. }
    now rewrite (heap_string_cell _ _ _ Hcell).
  - intros buf s Hfs Hbuf Ht Hroom Hcap Hmax.
    destruct (insn_comment I) as [|lc] eqn:Hc; [discriminate|].
    rewrite <- Hcomment in Hbuf. apply heap_chars_cell in Hbuf.
    destruct (opdis_insn_add_comment_fixed h' li lc (cleared I) buf s)
      as (buf' & Hadd & Hlen' & Ht' & Hs');
      try assumption; try (destruct I; assumption).
    exists (set_cell h' lc (Some (BChars buf'))).
    split; [assumption|].
    rewrite <- Hs'. apply heap_string_cell; [|assumption].
    apply cells_set_cell_eq. eapply cell_lt; eauto.
Qed.

(** ** Allocating instructions *)

Tactic Notation "step" open_constr(H) "in" hyp(H') :=
  rewrite ?bind_assoc in H'; rewrite (bind_Ok _ _ _ _ _ H) in H';
  cbn [is_null orb negb] in H'.

(** A function that ends in [return NULL] after some clean-up does not
    return an object. *)
Lemma bind_ret_null {A : Type} (m : M A) (h h' : heap) (l : loc) :
  (m ≫= fun _ => mret NULL) h <> Ok (Ptr l) h'.
Proof. unfold mbind, M_bind. destruct (m h); discriminate. Qed.

Lemma bind_ret_false {A : Type} (m : M A) (h h' : heap) :
  (m ≫= fun _ => mret false) h <> Ok true h'.
Proof. unfold mbind, M_bind. destruct (m h); discriminate. Qed.

Lemma opdis_insn_alloc_outcome (n : Z) (h : heap) :
  let li := length (cells h) in
  opdis_insn_alloc n h =
    if next_request h then
      if decide (n = 0) then Ok (Ptr li) (push_cell h (BInsn zero_insn))
      else if next_request (refuse h) then
        Ok (Ptr li)
           {| cells := cells h ++
                [Some (BInsn (set_insn_alloc_operands n
                                (set_insn_operands (Ptr (S li)) zero_insn)));
                 Some (BOps (replicate (Z.to_nat n) NULL))];
              oracle := tail (tail (oracle h)) |}
      else
        Ok NULL {| cells := cells h ++ [None];
                   oracle := tail (tail (oracle h)) |}
    else Ok NULL (refuse h).
Proof.
  intros li. unfold opdis_insn_alloc.
  destruct (next_request h) eqn:Hreq.
  2:{ step (malloc_refused _ _ Hreq). reflexivity. }
  step (malloc_granted _ _ Hreq). fold li.
  destruct (decide (n = 0)); [reflexivity|].
  set (h1 := push_cell h (BInsn zero_insn)).
  assert (Hc1 : cells h1 = cells h ++ [Some (BInsn zero_insn)])
    by reflexivity.
  assert (HI1 : cells h1 !! li = Some (Some (BInsn zero_insn)))
    by apply cells_push_cell_new.
  assert (Hlen1 : length (cells h1) = S li)
    by (rewrite Hc1, length_app; simpl; lia).
  assert (Hreq1 : next_request h1 = next_request (refuse h))
    by reflexivity.
  unfold calloc_ops.
  destruct (next_request (refuse h)) eqn:Hreq'.
  - step (malloc_granted _ _ Hreq1). rewrite Hlen1.
    set (h2 := push_cell h1 _).
    assert (HI2 : cells h2 !! li = Some (Some (BInsn zero_insn)))
      by (subst h2; rewrite cells_push_cell_old by lia; exact HI1).
    step (modify_insn_cell _ _ _ _ HI2).
    set (h3 := set_cell h2 _ _).
    assert (HI3 : cells h3 !! li
              = Some (Some (BInsn (set_insn_operands (Ptr (S li))
                                     zero_insn)))).
    { subst h3. apply cells_set_cell_eq. subst h2.
      cbn [cells push_cell]. rewrite length_app. lia. }
    step (modify_insn_cell _ _ _ _ HI3).
    unfold mret, M_ret. f_equal. subst h3 h2. rewrite set_cell_twice.
    unfold set_cell. f_equal. cbn [cells push_cell]. rewrite Hc1.
    rewrite <- app_assoc.
    replace li with (length (cells h) + 0)%nat at 1 by (subst li; lia).
    now rewrite insert_app_r.
  - step (malloc_refused _ _ Hreq1).
    assert (HI2 : cells (refuse h1) !! li = Some (Some (BInsn zero_insn)))
      by exact HI1.
    step (modify_insn_cell _ _ _ _ HI2).
    set (h3 := set_cell _ _ _).
    assert (HI3 : cells h3 !! li
              = Some (Some (BInsn (set_insn_operands NULL zero_insn))))
      by (subst h3; apply cells_set_cell_eq; cbn [cells refuse]; lia).
    step (free_cell _ _ _ HI3).
    unfold mret, M_ret. f_equal. subst h3. rewrite set_cell_twice.
    unfold set_cell. f_equal. cbn [cells refuse]. rewrite Hc1.
    replace li with (length (cells h) + 0)%nat at 1 by (subst li; lia).
    now rewrite insert_app_r.
Qed.

(** What a successful [opdis_insn_alloc] leaves: a zeroed struct in a new
    cell, [alloc_operands] set to the request and an array of that many
    NULL slots. *)
Lemma opdis_insn_alloc_granted (n : Z) (h h1 : heap) (li : loc) :
  opdis_insn_alloc n h = Ok (Ptr li) h1 ->
  exists J : opdis_insn_t,
    li = length (cells h) /\
    cells h1 !! li = Some (Some (BInsn J)) /\
    J = set_insn_alloc_operands (insn_alloc_operands J)
          (set_insn_operands (insn_operands J) zero_insn) /\
    (0 <= n -> insn_alloc_operands J = n) /\
    operand_array h1 J = Some (replicate (Z.to_nat n) NULL) /\
    (length (cells h) < length (cells h1))%nat /\
    (forall l, (l < length (cells h))%nat ->
               cells h1 !! l = cells h !! l) /\
    (forall l, insn_operands J = Ptr l -> l = S (length (cells h))).
Proof.
  intros H. rewrite opdis_insn_alloc_outcome in H.
  destruct (next_request h); [|discriminate].
  destruct (decide (n = 0)) as [->|Hn].
  - injection H as <- <-. exists zero_insn.
    split; [reflexivity|]. split; [apply cells_push_cell_new|].
    split; [reflexivity|]. split; [reflexivity|]. split; [reflexivity|].
    split; [cbn; rewrite length_app; simpl; lia|].
    split; [|discriminate].
    intros l Hl. now apply cells_push_cell_old.
  - destruct (next_request (refuse h)); [|discriminate].
    injection H as <- <-. eexists.
    split; [reflexivity|]. cbn [cells].
    split; [now apply list_lookup_middle|].
    split; [reflexivity|]. split; [reflexivity|].
    split.
    { unfold operand_array.
      cbn [insn_operands set_insn_alloc_operands set_insn_operands
           zero_insn is_null].
      apply heap_ops_cell. cbn [cells]. rewrite lookup_app_r by lia.
      now replace (S (length (cells h)) - length (cells h))%nat
        with 1%nat by lia. }
    split; [rewrite length_app; simpl; lia|].
    split; [|now intros l [= <-]].
    intros l Hl. now apply lookup_app_l.
Qed.

Lemma set_insn_alloc_operands_id (J : opdis_insn_t) :
  set_insn_alloc_operands (insn_alloc_operands J) J = J.
Proof. now destruct J. Qed.

Lemma set_insn_alloc_operands_twice (x y : Z) (J : opdis_insn_t) :
  set_insn_alloc_operands x (set_insn_alloc_operands y J)
  = set_insn_alloc_operands x J.
Proof. now destruct J. Qed.

(** The operand loop of [opdis_insn_alloc_fixed], when it runs to its end:
    slots [i0 .. i0 + k - 1] are filled with new fixed-size operands, the
    slots before them and every other old cell are as before, and
    [alloc_operands] has been counted up once per round. *)
Lemma alloc_fixed_operands_outcome (osz : Z) (li : loc) (k : nat) :
  forall (i0 : nat) (h h' : heap) (J : opdis_insn_t) (ps : list ptr),
    alloc_fixed_operands k (Z.of_nat i0) (Ptr li) osz h = Ok true h' ->
    cells h !! li = Some (Some (BInsn J)) ->
    operand_array h J = Some ps ->
    (i0 + k <= length ps)%nat ->
    exists (x : Z) (ps' : list ptr),
      cells h' !! li = Some (Some (BInsn (set_insn_alloc_operands x J))) /\
      operand_array h' (set_insn_alloc_operands x J) = Some ps' /\
      length ps' = length ps /\
      (forall j, (j < i0)%nat -> ps' !! j = ps !! j) /\
      (forall j, (i0 <= j < i0 + k)%nat -> fixed_slot h' ps' j osz) /\
      (forall l, (l < length (cells h))%nat -> l <> li ->
                 Ptr l <> insn_operands J ->
                 cells h' !! l = cells h !! l) /\
      (length (cells h) <= length (cells h'))%nat /\
      (0 <= insn_alloc_operands J ->
       insn_alloc_operands J + Z.of_nat k < 2 ^ 64 ->
       x = insn_alloc_operands J + Z.of_nat k).
Proof.
  induction k as [|k IH]; intros i0 h h' J ps H HJ Hps Hlen.
  - injection H as <-. exists (insn_alloc_operands J), ps.
    rewrite set_insn_alloc_operands_id.
    repeat split; auto; try lia.
  - cbn [alloc_fixed_operands] in H.
    pose proof (opdis_op_alloc_fixed_outcome osz h) as E.
    cbv zeta in E.
    destruct (next_request h).
    2:{ step E in H. now apply bind_ret_false in H. }
    destruct (next_request (refuse h)).
    2:{ step E in H. now apply bind_ret_false in H. }
    step E in H. clear E.
    set (lo := length (cells h)) in *.
    set (h1 := {| cells := _; oracle := _ |}) in H.
    pose proof (cell_lt _ _ _ HJ) as Hli.
    assert (Hold1 : forall l, (l < lo)%nat ->
              cells h1 !! l = cells h !! l)
      by (intros l Hl; subst h1; cbn [cells]; now apply lookup_app_l).
    assert (Hlen1 : length (cells h1) = S (S lo))
      by (subst h1; cbn [cells]; rewrite length_app; simpl; lia).
    assert (Hop1 : cells h1 !! lo = Some (Some (BOp (fixed_op osz
                                                 (Ptr (S lo))))))
      by (subst h1; cbn [cells]; now apply list_lookup_middle).
    assert (Hbuf1 : cells h1 !! S lo = Some (Some (BChars
                      (replicate (Z.to_nat osz) NUL)))).
    { subst h1; cbn [cells]. rewrite lookup_app_r by lia.
      now replace (S lo - length (cells h))%nat with 1%nat by lia. }
    (* the array is there: slot [i0] exists *)
    unfold operand_array in Hps.
    destruct (insn_operands J) as [|la] eqn:Hops; cbn [is_null] in Hps.
    { injection Hps as <-. simpl in Hlen. lia. }
    apply heap_ops_cell in Hps.
    pose proof (cell_lt _ _ _ Hps) as Hla.
    assert (Hne : la <> li) by (intros ->; congruence).
    assert (HJ1 : cells h1 !! li = Some (Some (BInsn J)))
      by (rewrite Hold1 by lia; exact HJ).
    assert (Hps1 : cells h1 !! la = Some (Some (BOps ps)))
      by (rewrite Hold1 by lia; exact Hps).
    step (load_insn_cell _ _ _ HJ1) in H. rewrite Hops in H.
    assert (Hslot : 0 <= Z.of_nat i0 < Z.of_nat (length ps)) by lia.
    step (write_slot_cell _ _ _ _ (Ptr lo) Hps1 Hslot) in H.
    rewrite Nat2Z.id in H.
    set (ps2 := <[i0 := Ptr lo]> ps) in *.
    set (h2 := set_cell h1 la _) in H.
    assert (HJ2 : cells h2 !! li = Some (Some (BInsn J)))
      by (subst h2; rewrite cells_set_cell_ne by auto; exact HJ1).
    step (modify_insn_cell _ _ _ _ HJ2) in H.
    set (J3 := set_insn_alloc_operands _ J) in *.
    set (h3 := set_cell h2 li _) in H.
    replace (Z.of_nat i0 + 1) with (Z.of_nat (S i0)) in H by lia.
    assert (Hlen3 : length (cells h3) = S (S lo))
      by (subst h3 h2; cbn [cells set_cell];
          now rewrite !length_insert).
    assert (Hold3 : forall l, l <> li -> l <> la ->
              cells h3 !! l = cells h1 !! l).
    { intros l H1 H2. subst h3 h2.
      now rewrite !cells_set_cell_ne by auto. }
    assert (HJ3 : cells h3 !! li = Some (Some (BInsn J3)))
      by (subst h3; apply cells_set_cell_eq; subst h2;
          cbn [cells set_cell]; rewrite length_insert; lia).
    assert (Hops3 : insn_operands J3 = Ptr la)
      by (subst J3; destruct J; exact Hops).
    assert (Hps3 : operand_array h3 J3 = Some ps2).
    { unfold operand_array. rewrite Hops3. cbn [is_null].
      apply heap_ops_cell. subst h3.
      rewrite cells_set_cell_ne by auto. subst h2.
      apply cells_set_cell_eq. lia. }
    assert (Hlen2 : length ps2 = length ps)
      by (subst ps2; apply length_insert).
    destruct (IH (S i0) h3 h' J3 ps2 H HJ3 Hps3 ltac:(lia))
      as (x & ps' & HJ' & Hps' & Hlen' & Hbefore & Hslots & Hframe
          & Hmono & Hx).
    subst J3. rewrite set_insn_alloc_operands_twice in HJ', Hps'.
    exists x, ps'.
    split; [assumption|]. split; [assumption|].
    split; [congruence|].
    split.
    { intros j Hj. rewrite Hbefore by lia. subst ps2.
      apply list_lookup_insert_ne. lia. }
    split.
    { intros j Hj. destruct (decide (j = i0)) as [->|Hji].
      - exists lo, (S lo). split.
        + rewrite Hbefore by lia. subst ps2.
          apply list_lookup_insert_eq. lia.
        + split.
          * rewrite Hframe, Hold3 by (rewrite ?Hops3; try lia; congruence).
            exact Hop1.
          * rewrite Hframe, Hold3 by (rewrite ?Hops3; try lia; congruence).
            exact Hbuf1.
      - apply Hslots. lia. }
    split.
    { intros l Hl H1 H2.
      rewrite Hframe, Hold3, Hold1
        by (rewrite ?Hops3; try lia; congruence).
      reflexivity. }
    split; [lia|].
    intros H0 Hr. rewrite Hx.
    + destruct J; cbn. rewrite size_t_small; cbn in *; lia.
    + destruct J; cbn. rewrite size_t_small; cbn in *; lia.
    + destruct J; cbn. rewrite size_t_small; cbn in *; lia.
Qed.

(** [p = calloc(1, z); insn->field = p;] *)
Lemma calloc_field (h : heap) (li : loc) (J : opdis_insn_t) (z : Z)
    (setf : ptr -> opdis_insn_t -> opdis_insn_t) :
  cells h !! li = Some (Some (BInsn J)) ->
  exists (a : ptr) (hm h' : heap),
    calloc_chars z h = Ok a hm /\
    modify_insn (Ptr li) (setf a) hm = Ok tt h' /\
    cells h' !! li = Some (Some (BInsn (setf a J))) /\
    (forall l, (l < length (cells h))%nat -> l <> li ->
               cells h' !! l = cells h !! l) /\
    ((a = NULL /\ length (cells h') = length (cells h)) \/
     (a = Ptr (length (cells h)) /\
      length (cells h') = S (length (cells h)) /\
      cells h' !! length (cells h)
      = Some (Some (BChars (replicate (Z.to_nat z) NUL))))).
Proof.
  intros HJ. pose proof (cell_lt _ _ _ HJ) as Hli.
  unfold calloc_chars. destruct (next_request h) eqn:Hreq.
  - set (b := BChars (replicate (Z.to_nat z) NUL)).
    assert (HJm : cells (push_cell h b) !! li = Some (Some (BInsn J)))
      by (rewrite cells_push_cell_old by lia; exact HJ).
    assert (Hlen : length (cells (push_cell h b)) = S (length (cells h)))
      by (cbn [cells push_cell]; rewrite length_app; simpl; lia).
    eexists _, _, _. split; [now apply malloc_granted|].
    split; [apply modify_insn_cell; exact HJm|].
    split; [apply cells_set_cell_eq; lia|].
    split.
    { intros l Hl Hne. rewrite cells_set_cell_ne by auto.
      now apply cells_push_cell_old. }
    right. split; [reflexivity|].
    split; [cbn [cells set_cell]; now rewrite length_insert|].
    rewrite cells_set_cell_ne by lia. apply cells_push_cell_new.
  - assert (HJm : cells (refuse h) !! li = Some (Some (BInsn J)))
      by exact HJ.
    eexists _, _, _. split; [now apply malloc_refused|].
    split; [apply modify_insn_cell; exact HJm|].
    split; [apply cells_set_cell_eq; exact Hli|].
    split.
    { intros l Hl Hne. now rewrite cells_set_cell_ne by auto. }
    left. split; [reflexivity|].
    cbn [cells set_cell refuse]. now rewrite length_insert.
Qed.

(** What a successful [opdis_insn_alloc_fixed] leaves. *)
Lemma opdis_insn_alloc_fixed_outcome (a m n o : Z) (h h' : heap)
    (li : loc) :
  opdis_insn_alloc_fixed a m n o h = Ok (Ptr li) h' ->
  exists (I : opdis_insn_t) (ps : list ptr) (la lp lm : loc),
    cells h' !! li = Some (Some (BInsn I)) /\
    (insn_fixed_size I = 1 /\ insn_num_operands I = 0 /\
     insn_ascii_sz I = uchar a /\ insn_mnemonic_sz I = uchar m /\
     insn_status I = 0 /\ insn_num_prefixes I = 0 /\
     insn_target I = NULL /\ insn_dest I = NULL /\ insn_src I = NULL) /\
    (insn_ascii I = Ptr la /\
     cells h' !! la = Some (Some (BChars (replicate (Z.to_nat a) NUL)))) /\
    (insn_prefixes I = Ptr lp /\
     cells h' !! lp = Some (Some (BChars
       (replicate (Z.to_nat (size_t (PREFIX_SIZE m))) NUL)))) /\
    (insn_mnemonic I = Ptr lm /\
     cells h' !! lm = Some (Some (BChars (replicate (Z.to_nat m) NUL)))) /\
    (insn_comment I = NULL \/
     exists lc, insn_comment I = Ptr lc /\ lc <> la /\ lc <> lp /\
       lc <> lm /\
       cells h' !! lc
       = Some (Some (BChars (replicate (Z.to_nat a) NUL)))) /\
    (la <> lp /\ la <> lm /\ lp <> lm) /\
    operand_array h' I = Some ps /\
    length ps = Z.to_nat n /\
    (forall j, (j < Z.to_nat n)%nat -> fixed_slot h' ps j o) /\
    (0 <= n -> 2 * n < 2 ^ 64 -> insn_alloc_operands I = 2 * n).
Proof.
  intros H. unfold opdis_insn_alloc_fixed in H.
  destruct (opdis_insn_alloc n h) as [[|li0] h1|] eqn:E1;
    [step E1 in H; discriminate| |
     unfold mbind, M_bind in H; rewrite E1 in H; discriminate].
  step E1 in H.
  destruct (opdis_insn_alloc_granted _ _ _ _ E1)
    as (J1 & Hli0 & HJ1 & HJ1eq & Halloc1 & Harr1 & Hgrow1 & _).
  pose proof (cell_lt _ _ _ HJ1) as Hli1.
  (* the four string buffers *)
  destruct (calloc_field h1 li0 J1 a set_insn_ascii HJ1)
    as (pa & hm2 & h2 & Ec2 & Em2 & HJ2 & Hfr2 & Hnew2).
  step Ec2 in H. step Em2 in H.
  destruct (calloc_field h2 li0 _ (size_t (PREFIX_SIZE m))
              set_insn_prefixes HJ2)
    as (pp & hm3 & h3 & Ec3 & Em3 & HJ3 & Hfr3 & Hnew3).
  step Ec3 in H. step Em3 in H.
  destruct (calloc_field h3 li0 _ m set_insn_mnemonic HJ3)
    as (pm & hm4 & h4 & Ec4 & Em4 & HJ4 & Hfr4 & Hnew4).
  step Ec4 in H. step Em4 in H.
  destruct (calloc_field h4 li0 _ a set_insn_comment HJ4)
    as (pc & hm5 & h5 & Ec5 & Em5 & HJ5 & Hfr5 & Hnew5).
  step Ec5 in H. step Em5 in H.
  destruct Hnew2 as [[-> _]|(-> & Hlen2 & Hbuf2)];
    [now apply bind_ret_null in H|].
  destruct Hnew3 as [[-> _]|(-> & Hlen3 & Hbuf3)];
    [now apply bind_ret_null in H|].
  destruct Hnew4 as [[-> _]|(-> & Hlen4 & Hbuf4)];
    [now apply bind_ret_null in H|].
  cbn [is_null orb] in H.
  set (la := length (cells h1)) in *.
  set (lp := length (cells h2)) in *.
  set (lm := length (cells h3)) in *.
  set (J5 := set_insn_comment pc _) in *.
  assert (Hlen5 : (length (cells h4) <= length (cells h5))%nat)
    by (destruct Hnew5 as [[_ ->]|(_ & -> & _)]; lia).
  assert (Ha5 : cells h5 !! la = Some (Some (BChars
                   (replicate (Z.to_nat a) NUL)))).
  { rewrite Hfr5, Hfr4, Hfr3 by lia. exact Hbuf2. }
  assert (Hp5 : cells h5 !! lp = Some (Some (BChars
              (replicate (Z.to_nat (size_t (PREFIX_SIZE m))) NUL)))).
  { rewrite Hfr5, Hfr4 by lia. exact Hbuf3. }
  assert (Hm5 : cells h5 !! lm = Some (Some (BChars
                   (replicate (Z.to_nat m) NUL)))).
  { rewrite Hfr5 by lia. exact Hbuf4. }
  assert (Harr5 : operand_array h5 J5
                  = Some (replicate (Z.to_nat n) NULL)).
  { unfold operand_array in *.
    replace (insn_operands J5) with (insn_operands J1)
      by (subst J5; destruct J1; reflexivity).
    destruct (insn_operands J1) as [|larr]; [assumption|].
    cbn [is_null] in *. apply heap_ops_cell in Harr1.
    pose proof (cell_lt _ _ _ Harr1).
    assert (larr <> li0) by (intros ->; congruence).
    apply heap_ops_cell.
    rewrite Hfr5, Hfr4, Hfr3, Hfr2 by lia. exact Harr1. }
  assert (Hc5 : pc = NULL \/ exists lc, pc = Ptr lc /\ lc <> la /\
                  lc <> lp /\ lc <> lm /\ (lc < length (cells h5))%nat /\
                  lc <> li0 /\ Ptr lc <> insn_operands J1 /\
                  cells h5 !! lc = Some (Some (BChars
                                     (replicate (Z.to_nat a) NUL)))).
  { destruct Hnew5 as [[-> _]|(-> & Hl5 & Hb5)]; [now left|].
    right. eexists. split; [reflexivity|].
    repeat split; try lia; try assumption.
    intros Heq. unfold operand_array in Harr1. rewrite <- Heq in Harr1.
    cbn [is_null] in Harr1. apply heap_ops_cell in Harr1.
    apply cell_lt in Harr1. lia. }
  (* the operand loop *)
  destruct (alloc_fixed_operands (Z.to_nat n) 0 (Ptr li0) o h5)
    as [[|] h6|] eqn:E6;
    [|step E6 in H; discriminate|
     unfold mbind, M_bind in H; rewrite E6 in H; discriminate].
  step E6 in H.
  destruct (alloc_fixed_operands_outcome o li0 (Z.to_nat n) 0 h5 h6 J5
              (replicate (Z.to_nat n) NULL) E6 HJ5 Harr5
              ltac:(rewrite length_replicate; lia))
    as (x & ps & HJ6 & Hps6 & Hlps & _ & Hslots & Hfr6 & Hlen6 & Hx).
  set (J6 := set_insn_alloc_operands x J5) in *.
  step (modify_insn_cell _ _ _ _ HJ6) in H.
  set (h7 := set_cell h6 li0 _) in H.
  assert (HJ7 : cells h7 !! li0
                = Some (Some (BInsn (set_insn_fixed_size 1 J6))))
    by (subst h7; apply cells_set_cell_eq; eapply cell_lt; eauto).
  step (modify_insn_cell _ _ _ _ HJ7) in H.
  set (h8 := set_cell h7 li0 _) in H.
  assert (HJ8 : cells h8 !! li0
                = Some (Some (BInsn (set_insn_ascii_sz (uchar a)
                                       (set_insn_fixed_size 1 J6)))))
    by (subst h8; apply cells_set_cell_eq; eapply cell_lt; eauto).
  step (modify_insn_cell _ _ _ _ HJ8) in H.
  injection H as <- <-.
  set (I := set_insn_mnemonic_sz (uchar m) _).
  assert (Hfinal : forall l, l <> li0 ->
            cells (set_cell h8 li0 (Some (BInsn I))) !! l = cells h6 !! l).
  { intros l Hl. subst h8 h7. now rewrite !cells_set_cell_ne by auto. }
  assert (Hops1 : insn_operands J5 = insn_operands J1)
    by (subst J5; destruct J1; reflexivity).
  assert (Hkeep : forall l b, (l < length (cells h5))%nat -> l <> li0 ->
            Ptr l <> insn_operands J1 -> cells h5 !! l = Some b ->
            cells (set_cell h8 li0 (Some (BInsn I))) !! l = Some b).
  { intros l b H1 H2 H3 H4. rewrite Hfinal by assumption.
    rewrite Hfr6; [assumption|assumption|assumption|].
    now rewrite Hops1. }
  assert (Hnotarr : forall l, (length (cells h1) <= l)%nat ->
                      Ptr l <> insn_operands J1).
  { intros l Hl Heq. unfold operand_array in Harr1.
    rewrite <- Heq in Harr1. cbn [is_null] in Harr1.
    apply heap_ops_cell in Harr1. apply cell_lt in Harr1. lia. }
  exists I, ps, la, lp, lm.
  split.
  { apply cells_set_cell_eq. subst h8 h7. cbn [cells set_cell].
    rewrite !length_insert. eapply cell_lt; eauto. }
  split.
  { subst I J6 J5. rewrite HJ1eq. cbn. auto 10. }
  split.
  { split; [subst I J6 J5; now destruct J1|].
    apply Hkeep; [lia|lia|apply Hnotarr; lia|assumption]. }
  split.
  { split; [subst I J6 J5; now destruct J1|].
    apply Hkeep; [lia|lia|apply Hnotarr; lia|assumption]. }
  split.
  { split; [subst I J6 J5; now destruct J1|].
    apply Hkeep; [lia|lia|apply Hnotarr; lia|assumption]. }
  split.
  { replace (insn_comment I) with pc
      by (subst I J6 J5; now destruct J1).
    destruct Hc5 as [->|(lc & -> & N1 & N2 & N3 & Hl & N4 & N5 & Hb)];
      [now left|].
    right. exists lc. repeat split; try assumption.
    now apply Hkeep. }
  split; [lia|].
  split.
  { unfold operand_array in *.
    replace (insn_operands I) with (insn_operands J6)
      by (subst I; now destruct J6).
    destruct (insn_operands J6) as [|larr]; [assumption|].
    cbn [is_null] in *. apply heap_ops_cell in Hps6.
    apply heap_ops_cell. rewrite Hfinal; [assumption|].
    intros ->; congruence. }
  split; [now rewrite Hlps, length_replicate|].
  split.
  { intros j Hj. destruct (Hslots j ltac:(lia)) as (lo & lb & S1 & S2 & S3).
    exists lo, lb. split; [assumption|].
    split; (rewrite Hfinal; [assumption|intros ->; congruence]). }
  intros Hn0 Hn2.
  replace (insn_alloc_operands I) with x
    by (subst I J6; now destruct J5).
  rewrite Hx.
  - replace (insn_alloc_operands J5) with (insn_alloc_operands J1)
      by (subst J5; now destruct J1).
    rewrite Halloc1 by assumption. lia.
  - replace (insn_alloc_operands J5) with (insn_alloc_operands J1)
      by (subst J5; now destruct J1).
    rewrite Halloc1 by assumption. lia.
  - replace (insn_alloc_operands J5) with (insn_alloc_operands J1)
      by (subst J5; now destruct J1).
    rewrite Halloc1 by assumption. lia.
Qed.

(** C2 (as the code has it): a successful
    [opdis_insn_alloc_fixed a m n o] gives a fixed-size instruction whose
    [num_operands] is 0 and whose operand array has [n] slots, each
    holding a fixed-size operand with recorded size [o mod 256] over a
    zeroed buffer of [o] bytes. *)
Theorem opdis_insn_alloc_fixed_spec (a m n o : Z) (h h' : heap)
    (li : loc) :
  opdis_insn_alloc_fixed a m n o h = Ok (Ptr li) h' ->
  exists (I : opdis_insn_t) (ps : list ptr),
    heap_insn h' (Ptr li) = Some I /\
    insn_fixed_size I = 1 /\
    insn_num_operands I = 0 /\
    operand_array h' I = Some ps /\
    length ps = Z.to_nat n /\
    forall j : nat, (j < Z.to_nat n)%nat ->
      exists (q : ptr) (op : opdis_op_t),
        ps !! j = Some q /\
        heap_op h' q = Some op /\
        op_fixed_size op = 1 /\
        op_ascii_sz op = uchar o /\
        heap_chars h' (op_ascii op)
        = Some (replicate (Z.to_nat o) NUL) /\
        length (replicate (Z.to_nat o) NUL) = Z.to_nat o.
Proof.
  intros H.
  destruct (opdis_insn_alloc_fixed_outcome _ _ _ _ _ _ _ H)
    as (I & ps & la & lp & lm & HI & (Hfs & Hno & _) & _ & _ & _ & _ & _
        & Hps & Hlen & Hslots & _).
  exists I, ps. split; [now apply heap_insn_cell|].
  split; [assumption|]. split; [assumption|]. split; [assumption|].
  split; [assumption|].
  intros j Hj. destruct (Hslots j Hj) as (lo & lb & S1 & S2 & S3).
  exists (Ptr lo), (fixed_op o (Ptr lb)).
  split; [assumption|]. split; [now apply heap_op_cell|].
  split; [reflexivity|]. split; [reflexivity|].
  split; [now apply heap_chars_cell|]. apply length_replicate.
Qed.

(** After [opdis_insn_alloc_fixed] the count [alloc_operands] is twice the
    number of slots: [opdis_insn_alloc] has set it to [n] and the operand
    loop counts it up once more per operand. *)
Lemma opdis_insn_alloc_fixed_alloc_operands (a m n o : Z) (h h' : heap)
    (li : loc) :
  opdis_insn_alloc_fixed a m n o h = Ok (Ptr li) h' ->
  0 <= n -> 2 * n < 2 ^ 64 ->
  exists (I : opdis_insn_t) (ps : list ptr),
    heap_insn h' (Ptr li) = Some I /\
    operand_array h' I = Some ps /\
    Z.of_nat (length ps) = n /\
    insn_alloc_operands I = 2 * n.
Proof.
  intros H Hn0 Hn2.
  destruct (opdis_insn_alloc_fixed_outcome _ _ _ _ _ _ _ H)
    as (I & ps & la & lp & lm & HI & _ & _ & _ & _ & _ & _
        & Hps & Hlen & _ & Halloc).
  exists I, ps. split; [now apply heap_insn_cell|].
  split; [assumption|]. split; [lia|]. now apply Halloc.
Qed.

(** ** Fixed-size setters of an instruction *)

Lemma opdis_insn_set_ascii_fixed (h : heap) (li la : loc)
    (I : opdis_insn_t) (buf s : list ascii) :
  cells h !! li = Some (Some (BInsn I)) ->
  insn_fixed_size I <> 0 ->
  insn_ascii I = Ptr la ->
  cells h !! la = Some (Some (BChars buf)) ->
  1 <= insn_ascii_sz I < 2 ^ 64 ->
  buf !! Z.to_nat (insn_ascii_sz I - 1) = Some NUL ->
  exists buf' : list ascii,
    opdis_insn_set_ascii (Ptr li) (Some s) h
    = Ok tt (set_cell h la (Some (BChars buf'))) /\
    length buf' = length buf /\
    buf' !! Z.to_nat (insn_ascii_sz I - 1) = Some NUL /\
    terminated buf' = true /\
    c_string buf' = take (Z.to_nat (insn_ascii_sz I - 1)) (c_string s).
Proof.
  intros HI Hfs Ha Hbuf Hsz Hnul.
  destruct (strncpy_fixed h la buf s _ Hbuf Hsz Hnul) as (buf' & Hcpy & Hr).
  exists buf'. split; [|exact Hr].
  unfold opdis_insn_set_ascii. cbn [is_null].
  step (load_insn_cell _ _ _ HI). rewrite decide_True by assumption.
  now rewrite Ha.
Qed.

Lemma opdis_insn_set_mnemonic_fixed (h : heap) (li lm : loc)
    (I : opdis_insn_t) (buf s : list ascii) :
  cells h !! li = Some (Some (BInsn I)) ->
  insn_fixed_size I <> 0 ->
  insn_mnemonic I = Ptr lm ->
  cells h !! lm = Some (Some (BChars buf)) ->
  1 <= insn_mnemonic_sz I < 2 ^ 64 ->
  buf !! Z.to_nat (insn_mnemonic_sz I - 1) = Some NUL ->
  exists buf' : list ascii,
    opdis_insn_set_mnemonic (Ptr li) (Some s) h
    = Ok tt (set_cell h lm (Some (BChars buf'))) /\
    length buf' = length buf /\
    buf' !! Z.to_nat (insn_mnemonic_sz I - 1) = Some NUL /\
    terminated buf' = true /\
    c_string buf' = take (Z.to_nat (insn_mnemonic_sz I - 1)) (c_string s).
Proof.
  intros HI Hfs Ha Hbuf Hsz Hnul.
  destruct (strncpy_fixed h lm buf s _ Hbuf Hsz Hnul) as (buf' & Hcpy & Hr).
  exists buf'. split; [|exact Hr].
  unfold opdis_insn_set_mnemonic. cbn [is_null].
  step (load_insn_cell _ _ _ HI). rewrite decide_True by assumption.
  now rewrite Ha.
Qed.

Lemma replicate_nul_at (c : Z) :
  0 <= c -> c mod 256 <> 0 ->
  replicate (Z.to_nat c) NUL !! Z.to_nat (uchar c - 1) = Some NUL /\
  1 <= uchar c < 2 ^ 64.
Proof.
  intros Hc Hmod. pose proof (uchar_range c). pose proof (uchar_le c Hc).
  unfold uchar in *. split; [|lia]. apply lookup_replicate_2. lia.
Qed.

(** C9 (as the code has it).  The fixed-size allocators record a requested
    capacity in an 8-bit field: the recorded size is the request mod 256,
    while the buffer has the requested number of bytes.  For a request [c]
    that is not a multiple of 256 (so for every such [c >= 256]) a later
    fixed-mode [set_ascii] / [set_mnemonic] keeps [(c mod 256) - 1]
    characters of the text at most, in a buffer that still has [c]
    bytes. *)
Theorem fixed_capacity_recorded_mod_256 :
  (forall (c : Z) (h h' : heap) (lo : loc),
     opdis_op_alloc_fixed c h = Ok (Ptr lo) h' ->
     exists (o : opdis_op_t) (buf : list ascii),
       heap_op h' (Ptr lo) = Some o /\
       op_ascii_sz o = c mod 256 /\
       heap_chars h' (op_ascii o) = Some buf /\
       length buf = Z.to_nat c /\
       forall s : list ascii,
         0 <= c -> c mod 256 <> 0 ->
         exists (h'' : heap) (buf' : list ascii),
           opdis_op_set_ascii (Ptr lo) (Some s) h' = Ok tt h'' /\
           heap_chars h'' (op_ascii o) = Some buf' /\
           length buf' = Z.to_nat c /\
           heap_string h'' (op_ascii o)
           = Some (take (Z.to_nat (c mod 256 - 1)) (c_string s))) /\
  (forall (a m n o : Z) (h h' : heap) (li : loc),
     opdis_insn_alloc_fixed a m n o h = Ok (Ptr li) h' ->
     exists (I : opdis_insn_t) (bufa bufm : list ascii),
       heap_insn h' (Ptr li) = Some I /\
       insn_ascii_sz I = a mod 256 /\
       insn_mnemonic_sz I = m mod 256 /\
       heap_chars h' (insn_ascii I) = Some bufa /\
       length bufa = Z.to_nat a /\
       heap_chars h' (insn_mnemonic I) = Some bufm /\
       length bufm = Z.to_nat m /\
       (forall s : list ascii,
          0 <= a -> a mod 256 <> 0 ->
          exists (h'' : heap) (buf' : list ascii),
            opdis_insn_set_ascii (Ptr li) (Some s) h' = Ok tt h'' /\
            heap_chars h'' (insn_ascii I) = Some buf' /\
            length buf' = Z.to_nat a /\
            heap_string h'' (insn_ascii I)
            = Some (take (Z.to_nat (a mod 256 - 1)) (c_string s))) /\
       (forall s : list ascii,
          0 <= m -> m mod 256 <> 0 ->
          exists (h'' : heap) (buf' : list ascii),
            opdis_insn_set_mnemonic (Ptr li) (Some s) h' = Ok tt h'' /\
            heap_chars h'' (insn_mnemonic I) = Some buf' /\
            length buf' = Z.to_nat m /\
            heap_string h'' (insn_mnemonic I)
            = Some (take (Z.to_nat (m mod 256 - 1)) (c_string s)))).
Proof.
  split.
  - intros c h h' lo Halloc.
    rewrite opdis_op_alloc_fixed_outcome in Halloc.
    destruct (next_request h); [|discriminate].
    destruct (next_request (refuse h)); [|discriminate].
    injection Halloc as <- <-.
    set (lo := length (cells h)).
    set (h' := {| cells := _; oracle := _ |}).
    assert (Ho : cells h' !! lo = Some (Some (BOp (fixed_op c
                                                 (Ptr (S lo))))))
      by (subst h'; cbn [cells]; now apply list_lookup_middle).
    assert (Hb : cells h' !! S lo = Some (Some (BChars
                   (replicate (Z.to_nat c) NUL)))).
    { subst h'; cbn [cells]. rewrite lookup_app_r by lia.
      now replace (S lo - length (cells h))%nat with 1%nat by lia. }
    exists (fixed_op c (Ptr (S lo))), (replicate (Z.to_nat c) NUL).
    split; [now apply heap_op_cell|]. split; [reflexivity|].
    split; [now apply heap_chars_cell|].
    split; [apply length_replicate|].
    intros s Hc Hmod.
    destruct (replicate_nul_at c Hc Hmod) as [Hnul Hsz].
    destruct (strncpy_fixed h' (S lo) _ s (uchar c) Hb Hsz Hnul)
      as (buf' & Hcpy & Hlen & _ & Ht & Hstr).
    exists (set_cell h' (S lo) (Some (BChars buf'))), buf'.
    assert (Hb' : cells (set_cell h' (S lo) (Some (BChars buf'))) !! S lo
                  = Some (Some (BChars buf')))
      by (apply cells_set_cell_eq; eapply cell_lt; eauto).
    split.
    { unfold opdis_op_set_ascii. cbn [is_null].
      step (load_op_cell _ _ _ Ho). now rewrite decide_True. }
    split; [now apply heap_chars_cell|].
    split; [now rewrite Hlen, length_replicate|].
    etrans; [apply (heap_string_cell _ _ _ Hb' Ht)|now rewrite Hstr].
  - intros a m n o h h' li Halloc.
    destruct (opdis_insn_alloc_fixed_outcome _ _ _ _ _ _ _ Halloc)
      as (I & ps & la & lp & lm & HI & (Hfs & _ & Hasz & Hmsz & _)
          & (Ha & Hba) & _ & (Hm & Hbm) & _).
    exists I, (replicate (Z.to_nat a) NUL), (replicate (Z.to_nat m) NUL).
    split; [now apply heap_insn_cell|].
    split; [assumption|]. split; [assumption|].
    rewrite Ha, Hm.
    split; [now apply heap_chars_cell|].
    split; [apply length_replicate|].
    split; [now apply heap_chars_cell|].
    split; [apply length_replicate|].
    split.
    + intros s Hc Hmod.
      destruct (replicate_nul_at a Hc Hmod) as [Hnul Hsz].
      rewrite <- Hasz in Hnul, Hsz.
      destruct (opdis_insn_set_ascii_fixed h' li la I _ s HI
                  ltac:(lia) Ha Hba Hsz Hnul)
        as (buf' & Hset & Hlen & _ & Ht & Hstr).
      exists (set_cell h' la (Some (BChars buf'))), buf'.
      assert (Hb' : cells (set_cell h' la (Some (BChars buf'))) !! la
                    = Some (Some (BChars buf')))
        by (apply cells_set_cell_eq; eapply cell_lt; eauto).
      split; [assumption|].
      split; [now apply heap_chars_cell|].
      split; [now rewrite Hlen, length_replicate|].
      etrans; [apply (heap_string_cell _ _ _ Hb' Ht)|].
      now rewrite Hstr, Hasz.
    + intros s Hc Hmod.
      destruct (replicate_nul_at m Hc Hmod) as [Hnul Hsz].
      rewrite <- Hmsz in Hnul, Hsz.
      destruct (opdis_insn_set_mnemonic_fixed h' li lm I _ s HI
                  ltac:(lia) Hm Hbm Hsz Hnul)
        as (buf' & Hset & Hlen & _ & Ht & Hstr).
      exists (set_cell h' lm (Some (BChars buf'))), buf'.
      assert (Hb' : cells (set_cell h' lm (Some (BChars buf'))) !! lm
                    = Some (Some (BChars buf')))
        by (apply cells_set_cell_eq; eapply cell_lt; eauto).
      split; [assumption|].
      split; [now apply heap_chars_cell|].
      split; [now rewrite Hlen, length_replicate|].
      etrans; [apply (heap_string_cell _ _ _ Hb' Ht)|].
      now rewrite Hstr, Hmsz.
Qed.

(** ** Duplication in general *)

(** Reading back what a successful command did. *)
Lemma load_insn_inv (p : ptr) (h h1 : heap) (I : opdis_insn_t) :
  load_insn p h = Ok I h1 ->
  h1 = h /\ exists l, p = Ptr l /\ cells h !! l = Some (Some (BInsn I)).
Proof.
  destruct p as [|l]; [discriminate|].
  unfold load_insn, get_cell, mbind, M_bind.
  destruct (cells h !! l) as [[[]|]|] eqn:E; try discriminate.
  intros [= <- <-]. eauto.
Qed.

Lemma load_op_inv (p : ptr) (h h1 : heap) (o : opdis_op_t) :
  load_op p h = Ok o h1 ->
  h1 = h /\ exists l, p = Ptr l /\ cells h !! l = Some (Some (BOp o)).
Proof.
  destruct p as [|l]; [discriminate|].
  unfold load_op, get_cell, mbind, M_bind.
  destruct (cells h !! l) as [[[]|]|] eqn:E; try discriminate.
  intros [= <- <-]. eauto.
Qed.

Lemma load_string_inv (p : ptr) (h h1 : heap) (s : list ascii) :
  load_string p h = Ok s h1 ->
  h1 = h /\ exists l buf, p = Ptr l /\
    cells h !! l = Some (Some (BChars buf)) /\
    terminated buf = true /\ s = c_string buf.
Proof.
  destruct p as [|l]; [discriminate|].
  unfold load_string, load_chars, get_cell, mbind, M_bind.
  destruct (cells h !! l) as [[[]|]|] eqn:E; try discriminate.
  cbn. destruct (terminated cs) eqn:Ht; [|discriminate].
  intros [= <- <-]. eauto 10.
Qed.

Lemma write_slot_inv (p q : ptr) (i : Z) (h h1 : heap) :
  write_slot p i q h = Ok tt h1 ->
  exists l ps, p = Ptr l /\ cells h !! l = Some (Some (BOps ps)) /\
    0 <= i < Z.of_nat (length ps) /\
    h1 = set_cell h l (Some (BOps (<[Z.to_nat i := q]> ps))).
Proof.
  destruct p as [|l]; [discriminate|].
  unfold write_slot, load_ops, store_ops, get_cell, put_cell, mbind, M_bind.
  destruct (cells h !! l) as [[[]|]|] eqn:E; try discriminate.
  cbn. destruct (decide _) as [Hi|]; [|discriminate].
  rewrite E. cbn. rewrite E. intros [= <-]. eauto 10.
Qed.

Lemma malloc_inv (b : block) (p : ptr) (h h1 : heap) :
  malloc b h = Ok p h1 ->
  (p = NULL /\ h1 = refuse h) \/
  (p = Ptr (length (cells h)) /\ h1 = push_cell h b).
Proof.
  unfold malloc. destruct (next_request h); intros [= <- <-]; auto.
Qed.

Lemma c_string_idemp (s : list ascii) : c_string (c_string s) = c_string s.
Proof. apply c_string_nul_free, nul_free_c_string. Qed.

(** A successful [opdis_op_dupe]: the new struct sits in a new cell, and
    every cell there was is as before. *)
Lemma opdis_op_dupe_frame (p : ptr) (h h1 : heap) (lo : loc) :
  opdis_op_dupe p h = Ok (Ptr lo) h1 ->
  lo = length (cells h) /\
  (length (cells h) < length (cells h1))%nat /\
  (forall l, (l < length (cells h))%nat -> cells h1 !! l = cells h !! l) /\
  exists (o : opdis_op_t) (a : ptr),
    heap_op (push_cell h (BOp zero_op)) p = Some o /\
    cells h1 !! lo = Some (Some (BOp (set_op_ascii a o))) /\
    ((op_ascii o = NULL /\ a = NULL) \/
     (exists buf,
        heap_chars (push_cell h (BOp zero_op)) (op_ascii o) = Some buf /\
        terminated buf = true /\
        a = Ptr (S lo) /\
        cells h1 !! S lo = Some (Some (BChars (c_string buf ++ [NUL]))))).
Proof.
  intros H. unfold opdis_op_dupe, opdis_op_alloc in H.
  destruct (malloc (BOp zero_op) h) as [q h0|] eqn:E0;
    [|unfold mbind, M_bind in H; rewrite E0 in H; discriminate].
  step E0 in H.
  destruct (malloc_inv _ _ _ _ E0) as [[-> ->]|[-> ->]]; [discriminate|].
  cbn [is_null] in H. clear E0.
  set (lo0 := length (cells h)) in *.
  set (h0 := push_cell h (BOp zero_op)) in *.
  assert (Hold0 : forall l, (l < lo0)%nat -> cells h0 !! l = cells h !! l)
    by (intros l Hl; now apply cells_push_cell_old).
  assert (Hlen0 : length (cells h0) = S lo0)
    by (subst h0; cbn [cells push_cell]; rewrite length_app; simpl; lia).
  assert (Hnew0 : cells h0 !! lo0 = Some (Some (BOp zero_op)))
    by apply cells_push_cell_new.
  destruct (load_op p h0) as [o h0'|] eqn:E1;
    [|unfold mbind, M_bind in H; rewrite E1 in H; discriminate].
  step E1 in H.
  destruct (load_op_inv _ _ _ _ E1) as (-> & lp & -> & Hp). clear E1.
  step (store_op_cell _ _ _ o Hnew0) in H.
  set (h2 := set_cell h0 lo0 _) in H.
  assert (H2 : cells h2 !! lo0 = Some (Some (BOp o)))
    by (subst h2; apply cells_set_cell_eq; lia).
  step (modify_op_cell _ _ _ _ H2) in H.
  set (h3 := set_cell h2 lo0 _) in H.
  assert (Hlen3 : length (cells h3) = S lo0)
    by (subst h3 h2; cbn [cells set_cell]; now rewrite !length_insert).
  assert (Hold3 : forall l, l <> lo0 -> cells h3 !! l = cells h0 !! l).
  { intros l Hl. subst h3 h2. now rewrite !cells_set_cell_ne by auto. }
  assert (H3 : cells h3 !! lo0 = Some (Some (BOp (set_op_ascii NULL o))))
    by (subst h3; apply cells_set_cell_eq; subst h2;
        cbn [cells set_cell]; rewrite length_insert; lia).
  destruct (op_ascii o) as [|lq] eqn:Ha; cbn [is_null] in H.
  - injection H as <- <-.
    split; [reflexivity|]. split; [lia|].
    split; [intros l Hl; rewrite Hold3, Hold0 by lia; reflexivity|].
    exists o, NULL. split; [now apply heap_op_cell|]. split; [exact H3|].
    left. auto.
  - destruct (load_string (Ptr lq) h3) as [s h3'|] eqn:E4;
      [|unfold mbind, M_bind in H; rewrite E4 in H; discriminate].
    step E4 in H.
    destruct (load_string_inv _ _ _ _ E4)
      as (-> & lq' & buf & [= <-] & Hq & Ht & ->). clear E4.
    unfold strdup in H. rewrite c_string_idemp in H.
    destruct (malloc (BChars (c_string buf ++ [NUL])) h3) as [a h4|] eqn:E5;
      [|unfold mbind, M_bind in H; rewrite E5 in H; discriminate].
    step E5 in H.
    destruct (malloc_inv _ _ _ _ E5) as [[-> ->]|[-> ->]].
    { assert (Hr : cells (refuse h3) !! lo0
                   = Some (Some (BOp (set_op_ascii NULL o)))) by exact H3.
      step (modify_op_cell _ _ _ _ Hr) in H.
      now apply bind_ret_null in H. }
    clear E5. rewrite Hlen3 in H.
    set (h4 := push_cell h3 _) in H.
    assert (H4 : cells h4 !! lo0 = Some (Some (BOp (set_op_ascii NULL o))))
      by (subst h4; rewrite cells_push_cell_old by lia; exact H3).
    step (modify_op_cell _ _ _ _ H4) in H.
    injection H as <- <-.
    assert (Hlq : lq <> lo0).
    { intros ->. rewrite H3 in Hq. discriminate. }
    split; [reflexivity|].
    split; [cbn [cells set_cell]; rewrite length_insert; subst h4;
            cbn [cells push_cell]; rewrite length_app, Hlen3; simpl;
            subst lo0; lia|].
    split.
    { intros l Hl. rewrite cells_set_cell_ne by lia. subst h4.
      rewrite cells_push_cell_old by lia.
      rewrite Hold3, Hold0 by lia. reflexivity. }
    exists o, (Ptr (S lo0)). split; [now apply heap_op_cell|].
    split.
    { rewrite cells_set_cell_eq
        by (subst h4; cbn [cells push_cell]; rewrite length_app; lia).
      now destruct o. }
    right. exists buf. rewrite Ha.
    split; [apply heap_chars_cell; rewrite <- Hold3 by auto; exact Hq|].
    split; [assumption|]. split; [reflexivity|].
    rewrite cells_set_cell_ne by lia. subst h4. rewrite <- Hlen3.
    apply cells_push_cell_new.
Qed.

Lemma read_slot_inv (p q : ptr) (i : Z) (h h1 : heap) :
  read_slot p i h = Ok q h1 ->
  h1 = h /\ exists l ps, p = Ptr l /\
    cells h !! l = Some (Some (BOps ps)) /\
    0 <= i /\ ps !! Z.to_nat i = Some q.
Proof.
  destruct p as [|l]; [discriminate|].
  unfold read_slot, load_ops, get_cell, mbind, M_bind.
  destruct (cells h !! l) as [[[]|]|] eqn:E; try discriminate.
  cbn. destruct (decide _) as [Hi|]; [|discriminate].
  destruct (ps !! Z.to_nat i) eqn:Eq; [|discriminate].
  intros [= <- <-]. eauto 10.
Qed.

Lemma set_insn_num_operands_id (J : opdis_insn_t) :
  set_insn_num_operands (insn_num_operands J) J = J.
Proof. now destruct J. Qed.

Lemma set_insn_num_operands_twice (x y : Z) (J : opdis_insn_t) :
  set_insn_num_operands x (set_insn_num_operands y J)
  = set_insn_num_operands x J.
Proof. now destruct J. Qed.

Lemma bind_Fault {A B : Type} (m : M A) (f : A -> M B) (h : heap) :
  m h = Fault -> (m ≫= f) h = Fault.
Proof. intros H. unfold mbind, M_bind. now rewrite H. Qed.

(** Destruct the outcome of the head command of the program in [H]: its
    value [r], the heap [hn] it leaves, the equation [E]. *)
Tactic Notation "case_head" hyp(H) "as" ident(r) ident(hn) ident(E) :=
  cbv beta iota in H; cbn [is_null orb negb] in H;
  rewrite ?bind_assoc in H;
  lazymatch type of H with
  | ?X ?hh = _ =>
      lazymatch X with
      | @mbind _ _ _ _ ?f ?m =>
          destruct (m hh) as [r hn|] eqn:E;
          [rewrite (bind_Ok m f hh hn r E) in H;
           cbn [is_null orb negb] in H
          |rewrite (bind_Fault m f hh E) in H; discriminate H]
      end
  end.

(** The operand loop of [opdis_insn_dupe], when it runs to its end, on a
    heap [h] that extends the heap [h0] of the source. *)
Lemma dupe_operands_outcome (h0 : heap) (ls ld : loc) (I : opdis_insn_t)
    (psS : list ptr) (k : nat) :
  cells h0 !! ls = Some (Some (BInsn I)) ->
  operand_array h0 I = Some psS ->
  0 <= insn_num_operands I < 2 ^ 64 ->
  (length (cells h0) <= ld)%nat ->
  forall (i0 : nat) (h h' : heap) (N : opdis_insn_t) (psD : list ptr),
    dupe_operands k (Z.of_nat i0) (Ptr ls) (Ptr ld) h = Ok true h' ->
    (forall l, (l < length (cells h0))%nat ->
               cells h !! l = cells h0 !! l) ->
    cells h !! ld = Some (Some (BInsn N)) ->
    operand_array h N = Some psD ->
    (forall l, insn_operands N = Ptr l -> (length (cells h0) <= l)%nat) ->
    insn_num_operands N = Z.of_nat i0 ->
    exists (x : Z) (psD' : list ptr),
      cells h' !! ld = Some (Some (BInsn (set_insn_num_operands x N))) /\
      operand_array h' (set_insn_num_operands x N) = Some psD' /\
      length psD' = length psD /\
      (forall j, (j < i0)%nat -> psD' !! j = psD !! j) /\
      (forall l, (l < length (cells h0))%nat ->
                 cells h' !! l = cells h0 !! l) /\
      (forall l, (l < length (cells h))%nat -> l <> ld ->
                 Ptr l <> insn_operands N ->
                 cells h' !! l = cells h !! l) /\
      (length (cells h) <= length (cells h'))%nat /\
      Z.of_nat i0 <= x /\
      (insn_num_operands I <= Z.of_nat (i0 + k) ->
       x = Z.max (Z.of_nat i0)
             (Z.min (insn_num_operands I) (insn_alloc_operands N))) /\
      (forall j, (i0 <= j)%nat -> Z.of_nat j < x ->
                 dupe_slot h0 h' psS psD' j).
Proof.
  intros HI HpsS HnumI Hld.
  pose proof (cell_lt _ _ _ HI) as Hls.
  induction k as [|k IH];
    intros i0 h h' N psD H Hold HN HpsD Hfresh Hnum.
  - injection H as <-. exists (insn_num_operands N), psD.
    rewrite set_insn_num_operands_id.
    split; [assumption|]. split; [assumption|]. split; [reflexivity|].
    split; [reflexivity|]. split; [assumption|].
    split; [reflexivity|]. split; [lia|]. split; [lia|].
    split; [lia|]. intros j Hj Hx. lia.
  - cbn [dupe_operands] in H.
    assert (HIh : cells h !! ls = Some (Some (BInsn I)))
      by (rewrite Hold by assumption; exact HI).
    step (load_insn_cell _ _ _ HIh) in H.
    step (load_insn_cell _ _ _ HN) in H.
    destruct (decide (Z.of_nat i0 < insn_num_operands I
                      /\ Z.of_nat i0 < insn_alloc_operands N))
      as [[Hlt1 Hlt2]|Hstop].
    2:{ injection H as <-. exists (insn_num_operands N), psD.
        rewrite set_insn_num_operands_id.
        split; [assumption|]. split; [assumption|]. split; [reflexivity|].
        split; [reflexivity|]. split; [assumption|].
        split; [reflexivity|]. split; [lia|]. split; [lia|].
        split; [lia|]. intros j Hj Hx. lia. }
    (* the source slot *)
    case_head H as qs hr Er.
    destruct (read_slot_inv _ _ _ _ _ Er)
      as (-> & lsa & ps & HopsI & Hsa & _ & Hqs). clear Er.
    rewrite Nat2Z.id in Hqs.
    assert (Hps : ps = psS /\ (lsa < length (cells h0))%nat).
    { unfold operand_array in HpsS. rewrite HopsI in HpsS.
      cbn [is_null] in HpsS. apply heap_ops_cell in HpsS.
      pose proof (cell_lt _ _ _ HpsS) as Hl.
      rewrite Hold in Hsa by assumption. split; [congruence|assumption]. }
    destruct Hps as [-> Hlsa].
    (* the copy *)
    case_head H as op h1 Ed.
    destruct op as [|lo]; [now apply bind_ret_false in H|].
    destruct (opdis_op_dupe_frame _ _ _ _ Ed)
      as (Hlo & Hgrow1 & Hold1 & o' & a & Hsrc & Hnew & Hstr). clear Ed.
    (* the slot of the duplicate *)
    case_head H as u hw Ew. destruct u.
    destruct (write_slot_inv _ _ _ _ _ Ew)
      as (lda & ps1 & HopsN & Hda1 & Hrange & ->). clear Ew.
    rewrite Nat2Z.id in H.
    pose proof (Hfresh _ HopsN) as Hlda.
    assert (Hda : cells h !! lda = Some (Some (BOps psD))).
    { unfold operand_array in HpsD. rewrite HopsN in HpsD.
      cbn [is_null] in HpsD. now apply heap_ops_cell in HpsD. }
    pose proof (cell_lt _ _ _ Hda) as Hlda'.
    pose proof (cell_lt _ _ _ HN) as Hld'.
    assert (ps1 = psD) as ->
      by (rewrite Hold1 in Hda1 by assumption; congruence).
    assert (Hne : lda <> ld) by (intros ->; congruence).
    set (h2 := set_cell h1 lda _) in H.
    assert (HN2 : cells h2 !! ld = Some (Some (BInsn N))).
    { subst h2. rewrite cells_set_cell_ne by auto.
      rewrite Hold1 by assumption. exact HN. }
    step (modify_insn_cell _ _ _ _ HN2) in H.
    rewrite Hnum in H. rewrite size_t_small in H by lia.
    set (N3 := set_insn_num_operands (Z.of_nat i0 + 1) N) in *.
    set (h3 := set_cell h2 ld _) in H.
    replace (Z.of_nat i0 + 1) with (Z.of_nat (S i0)) in H by lia.
    assert (Hlen3 : length (cells h3) = length (cells h1))
      by (subst h3 h2; cbn [cells set_cell]; now rewrite !length_insert).
    assert (Hold3 : forall l, l <> ld -> l <> lda ->
              cells h3 !! l = cells h1 !! l).
    { intros l H1 H2. subst h3 h2.
      now rewrite !cells_set_cell_ne by auto. }
    assert (HN3 : cells h3 !! ld = Some (Some (BInsn N3)))
      by (subst h3; apply cells_set_cell_eq; subst h2;
          cbn [cells set_cell]; rewrite length_insert; lia).
    assert (HopsN3 : insn_operands N3 = Ptr lda)
      by (subst N3; destruct N; exact HopsN).
    assert (HpsD3 : operand_array h3 N3 = Some (<[i0 := Ptr lo]> psD)).
    { unfold operand_array. rewrite HopsN3. cbn [is_null].
      apply heap_ops_cell. subst h3.
      rewrite cells_set_cell_ne by auto. subst h2.
      apply cells_set_cell_eq. lia. }
    destruct (IH (S i0) h3 h' N3 (<[i0 := Ptr lo]> psD) H)
      as (x & psD' & HN' & HpsD' & Hlen' & Hbefore & Hold' & Hframe
          & Hmono & Hx0 & Hx & Hslots).
    { intros l Hl. rewrite Hold3, Hold1 by lia. now apply Hold. }
    { exact HN3. }
    { exact HpsD3. }
    { intros l. rewrite HopsN3. intros [= <-]. exact Hlda. }
    { subst N3. destruct N. cbn. lia. }
    subst N3. rewrite set_insn_num_operands_twice in HN', HpsD'.
    exists x, psD'.
    split; [assumption|]. split; [assumption|].
    split; [now rewrite Hlen', length_insert|].
    split.
    { intros j Hj. rewrite Hbefore by lia.
      apply list_lookup_insert_ne. lia. }
    split; [assumption|].
    split.
    { intros l Hl H1 H2. rewrite Hframe, Hold3, Hold1; try lia.
      - reflexivity.
      - congruence.
      - rewrite HopsN3. congruence. }
    split; [lia|]. split; [lia|].
    split.
    { intros Hk. rewrite Hx by lia.
      replace (insn_alloc_operands (set_insn_num_operands
                 (Z.of_nat i0 + 1) N)) with (insn_alloc_operands N)
        by (now destruct N).
      lia. }
    intros j Hj Hjx. destruct (decide (j = i0)) as [->|Hji];
      [|apply Hslots; lia].
    assert (Hkeep : forall l, (length (cells h) <= l)%nat ->
              (l < length (cells h1))%nat ->
              cells h' !! l = cells h1 !! l).
    { intros l H1 H2. rewrite Hframe, Hold3; try lia.
      - reflexivity.
      - rewrite HopsN3. intros [= ->]. lia. }
    assert (Hlo1 : (lo < length (cells h1))%nat)
      by (eapply cell_lt; eauto).
    exists qs, lo, (set_op_ascii a o').
    split; [assumption|].
    split; [rewrite Hbefore by lia; apply list_lookup_insert_eq; lia|].
    split; [lia|].
    split; [apply heap_op_cell; rewrite Hkeep by lia; exact Hnew|].
    intros o Ho.
    assert (o' = o) as ->.
    { destruct qs as [|lq]; [discriminate|].
      apply heap_op_cell in Ho. apply heap_op_cell in Hsrc.
      pose proof (cell_lt _ _ _ Ho).
      rewrite cells_push_cell_old, Hold in Hsrc by lia. congruence. }
    split; [now destruct o|].
    replace (op_ascii (set_op_ascii a o)) with a by (now destruct o).
    destruct Hstr as [[Hnull ->]|(buf & Hc & Ht & -> & Hcopy)];
      [now left|].
    right. exists (c_string buf), (S lo).
    split; [intros Hnull; rewrite Hnull in Hc; discriminate|].
    split; [reflexivity|]. split; [lia|].
    assert (HcopyN : cells h' !! S lo
                     = Some (Some (BChars (c_string buf ++ [NUL])))).
    { rewrite Hkeep; [exact Hcopy|lia|]. eapply cell_lt; eauto. }
    split.
    { rewrite (heap_string_cell _ _ _ HcopyN).
      - rewrite c_string_app by apply nul_free_c_string.
        simpl. now rewrite app_nil_r.
      - now rewrite terminated_app by apply nul_free_c_string. }
    intros s0 Hs. unfold heap_string in Hs.
    destruct (op_ascii o) as [|lq]; [discriminate|].
    destruct (heap_chars h0 (Ptr lq)) as [buf0|] eqn:Hc0; [|discriminate].
    apply heap_chars_cell in Hc0. apply heap_chars_cell in Hc.
    pose proof (cell_lt _ _ _ Hc0).
    rewrite cells_push_cell_old, Hold in Hc by lia.
    assert (buf0 = buf) as -> by congruence.
    rewrite Ht in Hs. congruence.
Qed.

(** The heap in the shape [set_cell B ld (Some (BInsn N))]: a base heap and
    the struct under construction. *)
Lemma push_set_cell (h : heap) (l : loc) (ob : option block) (b : block) :
  (l < length (cells h))%nat ->
  push_cell (set_cell h l ob) b = set_cell (push_cell h b) l ob.
Proof.
  intros Hl. unfold push_cell, set_cell. cbn [cells oracle]. f_equal.
  symmetry. now apply insert_app_l.
Qed.

Lemma load_insn_set_cell (B : heap) (l : loc) (N : opdis_insn_t) :
  (l < length (cells B))%nat ->
  load_insn (Ptr l) (set_cell B l (Some (BInsn N)))
  = Ok N (set_cell B l (Some (BInsn N))).
Proof. intros Hl. now apply load_insn_cell, cells_set_cell_eq. Qed.

Lemma modify_insn_set_cell (B : heap) (l : loc) (N : opdis_insn_t)
    (f : opdis_insn_t -> opdis_insn_t) :
  (l < length (cells B))%nat ->
  modify_insn (Ptr l) f (set_cell B l (Some (BInsn N)))
  = Ok tt (set_cell B l (Some (BInsn (f N)))).
Proof.
  intros Hl.
  rewrite (modify_insn_cell _ _ N) by now apply cells_set_cell_eq.
  now rewrite set_cell_twice.
Qed.

Lemma store_insn_set_cell (B : heap) (l : loc) (N J : opdis_insn_t) :
  (l < length (cells B))%nat ->
  store_insn (Ptr l) J (set_cell B l (Some (BInsn N)))
  = Ok tt (set_cell B l (Some (BInsn J))).
Proof.
  intros Hl.
  rewrite (store_insn_cell _ _ N) by now apply cells_set_cell_eq.
  now rewrite set_cell_twice.
Qed.

(** One of the three string copies of [opdis_insn_dupe], with [F] the
    clean-up on failure and [K] what follows on success. *)
Lemma dupe_string_block (q : ptr) (ld : loc) (B h' : heap)
    (N : opdis_insn_t) (setf : ptr -> opdis_insn_t -> opdis_insn_t)
    (F : M unit) (K : M bool) :
  (ld < length (cells B))%nat ->
  (if is_null q then mret true else
     s ← load_string q;
     a ← strdup s;
     modify_insn (Ptr ld) (setf a);;
     if is_null a then F;; mret false else K)
    (set_cell B ld (Some (BInsn N))) = Ok true h' ->
  (q = NULL /\ h' = set_cell B ld (Some (BInsn N))) \/
  (exists (lq : loc) (buf : list ascii),
     q = Ptr lq /\ lq <> ld /\
     cells B !! lq = Some (Some (BChars buf)) /\
     terminated buf = true /\
     K (set_cell (push_cell B (BChars (c_string buf ++ [NUL]))) ld
          (Some (BInsn (setf (Ptr (length (cells B))) N)))) = Ok true h').
Proof.
  intros Hld H. destruct q as [|lq]; cbn [is_null] in H.
  { injection H as <-. now left. }
  right. case_head H as s hs Es.
  destruct (load_string_inv _ _ _ _ Es)
    as (-> & lq' & buf & [= <-] & Hq & Ht & ->). clear Es.
  assert (Hne : lq <> ld).
  { intros ->. rewrite cells_set_cell_eq in Hq by assumption.
    discriminate. }
  rewrite cells_set_cell_ne in Hq by auto.
  unfold strdup in H. rewrite c_string_idemp in H.
  case_head H as a ha Ea.
  destruct (malloc_inv _ _ _ _ Ea) as [[-> ->]|[-> ->]]; clear Ea.
  - assert (Hr : refuse (set_cell B ld (Some (BInsn N)))
                 = set_cell (refuse B) ld (Some (BInsn N))) by reflexivity.
    rewrite Hr in H.
    step (modify_insn_set_cell (refuse B) ld N (setf NULL) Hld) in H.
    now apply bind_ret_false in H.
  - rewrite push_set_cell in H by assumption.
    assert (Hld' : (ld < length (cells (push_cell B
                      (BChars (c_string buf ++ [NUL])))))%nat)
      by (cbn [cells push_cell]; rewrite length_app; lia).
    replace (length (cells (set_cell B ld (Some (BInsn N)))))
      with (length (cells B)) in H
      by (cbn [cells set_cell]; now rewrite length_insert).
    step (modify_insn_set_cell _ ld N
            (setf (Ptr (length (cells B)))) Hld') in H.
    exists lq, buf. auto.
Qed.

Lemma copied_in_ext (B B' : heap) (ld : loc) (q a : ptr) :
  copied_in B B' ld q a ->
  (length (cells B) <= length (cells B'))%nat /\
  (forall l, (l < length (cells B))%nat -> cells B' !! l = cells B !! l).
Proof.
  intros [(_ & _ & ->)|(lq & buf & _ & _ & _ & _ & _ & ->)]; [auto|].
  split; [cbn [cells push_cell]; rewrite length_app; lia|].
  intros l Hl. now apply cells_push_cell_old.
Qed.

(** A copy made on a base heap that extends [h0] is a [string_copy] in
    every later heap [hf] that keeps the new cell. *)
Lemma copied_in_string_copy (h0 B B' hf : heap) (ld : loc) (q a : ptr) :
  copied_in B B' ld q a ->
  (length (cells h0) <= length (cells B))%nat ->
  (forall l, (l < length (cells h0))%nat -> cells B !! l = cells h0 !! l) ->
  (forall l, (length (cells B) <= l < length (cells B'))%nat ->
             cells hf !! l = cells B' !! l) ->
  string_copy h0 hf q a.
Proof.
  intros [(-> & -> & _)|(lq & buf & -> & Hne & Hq & Ht & -> & ->)]
    Hlen Hold Hkeep; [now left|].
  right. exists (c_string buf), (length (cells B)).
  split; [discriminate|]. split; [reflexivity|]. split; [assumption|].
  assert (Hcopy : cells hf !! length (cells B)
                  = Some (Some (BChars (c_string buf ++ [NUL])))).
  { rewrite Hkeep by (cbn [cells push_cell]; rewrite length_app; simpl; lia).
    apply cells_push_cell_new. }
  split.
  - rewrite (heap_string_cell _ _ _ Hcopy).
    + rewrite c_string_app by apply nul_free_c_string.
      simpl. now rewrite app_nil_r.
    + now rewrite terminated_app by apply nul_free_c_string.
  - intros s0 Hs. unfold heap_string in Hs.
    destruct (heap_chars h0 (Ptr lq)) as [buf0|] eqn:Hc0; [|discriminate].
    apply heap_chars_cell in Hc0. pose proof (cell_lt _ _ _ Hc0).
    rewrite <- Hold in Hc0 by assumption.
    assert (buf0 = buf) as -> by congruence.
    rewrite Ht in Hs. congruence.
Qed.

(** A successful [opdis_insn_dupe] of the instruction [I] at [ls] of heap
    [h]: the duplicate [D] sits in a new cell; it has every field of [I]
    but [ascii], [prefixes], [mnemonic], [operands] and [num_operands], so
    also the [fixed_size], [ascii_sz], [comment], [target], [dest] and
    [src] of [I]; the three strings are copies in new cells; the operand
    array is new, [num_operands] is the smaller of the source's
    [num_operands] and [alloc_operands], and that many slots hold copies
    of the source's operands; every cell of [h] is as before. *)
Lemma opdis_insn_dupe_outcome (h h' : heap) (ls ld : loc)
    (I : opdis_insn_t) (psS : list ptr) :
  cells h !! ls = Some (Some (BInsn I)) ->
  operand_array h I = Some psS ->
  0 <= insn_num_operands I < 2 ^ 64 ->
  opdis_insn_dupe (Ptr ls) h = Ok (Ptr ld) h' ->
  exists (D : opdis_insn_t) (psD : list ptr),
    ld = length (cells h) /\
    cells h' !! ld = Some (Some (BInsn D)) /\
    D = set_insn_num_operands (insn_num_operands D)
          (set_insn_operands (insn_operands D)
             (set_insn_mnemonic (insn_mnemonic D)
                (set_insn_prefixes (insn_prefixes D)
                   (set_insn_ascii (insn_ascii D) I)))) /\
    (forall l, (l < length (cells h))%nat ->
               cells h' !! l = cells h !! l) /\
    string_copy h h' (insn_ascii I) (insn_ascii D) /\
    string_copy h h' (insn_prefixes I) (insn_prefixes D) /\
    string_copy h h' (insn_mnemonic I) (insn_mnemonic D) /\
    operand_array h' D = Some psD /\
    (forall l, insn_operands D = Ptr l -> (length (cells h) < l)%nat) /\
    insn_num_operands D
    = Z.max 0 (Z.min (insn_num_operands I) (insn_alloc_operands I)) /\
    (forall j, Z.of_nat j < insn_num_operands D ->
               dupe_slot h h' psS psD j).
Proof.
  intros HI HpsS Hnum H.
  pose proof (cell_lt _ _ _ HI) as Hls.
  unfold opdis_insn_dupe in H.
  step (load_insn_cell _ _ _ HI) in H.
  case_head H as ni B0 E1.
  destruct ni as [|ld0]; [discriminate H|]. cbn [is_null] in H.
  destruct (opdis_insn_alloc_granted _ _ _ _ E1)
    as (J1 & Hld0 & HJ1 & _ & _ & Harr1 & Hgrow1 & Hold0 & Hfresh1).
  clear E1. pose proof (cell_lt _ _ _ HJ1) as Hld1.
  rewrite <- (set_cell_same B0 ld0 _ HJ1) in H.
  step (load_insn_set_cell B0 ld0 J1 Hld1) in H.
  step (store_insn_set_cell B0 ld0 J1 I Hld1) in H.
  step (modify_insn_set_cell B0 ld0 _ (set_insn_ascii NULL) Hld1) in H.
  step (modify_insn_set_cell B0 ld0 _ (set_insn_mnemonic NULL) Hld1) in H.
  step (modify_insn_set_cell B0 ld0 _ (set_insn_prefixes NULL) Hld1) in H.
  step (modify_insn_set_cell B0 ld0 _
          (set_insn_operands (insn_operands J1)) Hld1) in H.
  set (N4 := set_insn_operands _ _) in H.
  (* ascii *)
  case_head H as ok1 h5 E5. destruct ok1; [|discriminate H].
  apply dupe_string_block in E5; [|assumption].
  assert (C1 : exists a1 B1, copied_in B0 B1 ld0 (insn_ascii I) a1 /\
                 h5 = set_cell B1 ld0 (Some (BInsn (set_insn_ascii a1 N4)))).
  { destruct E5 as [[Hq ->]|(lq & buf & Hq & Hne & Hb & Ht & [= <-])].
    - exists NULL, B0. split; [left; auto|].
      now replace (set_insn_ascii NULL N4) with N4
        by (subst N4; now destruct I).
    - eexists _, _. split; [right; eauto 10|reflexivity]. }
  destruct C1 as (a1 & B1 & Hc1 & ->). clear E5.
  destruct (copied_in_ext _ _ _ _ _ Hc1) as [Hlen1 Hext1].
  assert (Hld2 : (ld0 < length (cells B1))%nat) by lia.
  set (N5 := set_insn_ascii a1 N4) in *.
  (* prefixes *)
  case_head H as ok2 h6 E6. destruct ok2; [|discriminate H].
  apply dupe_string_block in E6; [|assumption].
  assert (C2 : exists a2 B2, copied_in B1 B2 ld0 (insn_prefixes I) a2 /\
                 h6 = set_cell B2 ld0
                        (Some (BInsn (set_insn_prefixes a2 N5)))).
  { destruct E6 as [[Hq ->]|(lq & buf & Hq & Hne & Hb & Ht & E6)].
    - exists NULL, B1. split; [left; auto|].
      now replace (set_insn_prefixes NULL N5) with N5
        by (subst N5 N4; now destruct I).
    - assert (Hld' : (ld0 < length (cells (push_cell B1
                        (BChars (c_string buf ++ [NUL])))))%nat)
        by (cbn [cells push_cell]; rewrite length_app; lia).
      step (modify_insn_set_cell _ ld0 _
              (set_insn_num_prefixes (insn_num_prefixes I)) Hld') in E6.
      injection E6 as <-.
      eexists _, _. split; [right; eauto 10|].
      f_equal. f_equal. f_equal. subst N5 N4. now destruct I. }
  destruct C2 as (a2 & B2 & Hc2 & ->). clear E6.
  destruct (copied_in_ext _ _ _ _ _ Hc2) as [Hlen2 Hext2].
  assert (Hld3 : (ld0 < length (cells B2))%nat) by lia.
  set (N6 := set_insn_prefixes a2 N5) in *.
  (* mnemonic *)
  case_head H as ok3 h7 E7. destruct ok3; [|discriminate H].
  apply dupe_string_block in E7; [|assumption].
  assert (C3 : exists a3 B3, copied_in B2 B3 ld0 (insn_mnemonic I) a3 /\
                 h7 = set_cell B3 ld0
                        (Some (BInsn (set_insn_mnemonic a3 N6)))).
  { destruct E7 as [[Hq ->]|(lq & buf & Hq & Hne & Hb & Ht & [= <-])].
    - exists NULL, B2. split; [left; auto|].
      now replace (set_insn_mnemonic NULL N6) with N6
        by (subst N6 N5 N4; now destruct I).
    - eexists _, _. split; [right; eauto 10|reflexivity]. }
  destruct C3 as (a3 & B3 & Hc3 & ->). clear E7.
  destruct (copied_in_ext _ _ _ _ _ Hc3) as [Hlen3 Hext3].
  assert (Hld4 : (ld0 < length (cells B3))%nat) by lia.
  set (N7 := set_insn_mnemonic a3 N6) in *.
  (* operands *)
  cbn [negb] in H.
  step (modify_insn_set_cell B3 ld0 N7 (set_insn_num_operands 0) Hld4) in H.
  set (N8 := set_insn_num_operands 0 N7) in *.
  set (h8 := set_cell B3 ld0 (Some (BInsn N8))) in *.
  case_head H as ok4 h9 E9. destruct ok4; [|discriminate H].
  injection H as <- <-.
  assert (Hops8 : insn_operands N8 = insn_operands J1)
    by (subst N8 N7 N6 N5 N4; now destruct I).
  assert (Halloc8 : insn_alloc_operands N8 = insn_alloc_operands I)
    by (subst N8 N7 N6 N5 N4; now destruct I).
  assert (Hold3 : forall l, (l < length (cells B0))%nat ->
            cells B3 !! l = cells B0 !! l)
    by (intros l Hl; rewrite Hext3, Hext2, Hext1 by lia; reflexivity).
  assert (Hold8 : forall l, (l < length (cells h))%nat ->
            cells h8 !! l = cells h !! l).
  { intros l Hl. subst h8. rewrite cells_set_cell_ne by lia.
    rewrite Hold3 by lia. now apply Hold0. }
  assert (HN8 : cells h8 !! ld0 = Some (Some (BInsn N8)))
    by (subst h8; now apply cells_set_cell_eq).
  assert (Harr8 : operand_array h8 N8
                  = Some (replicate (Z.to_nat (insn_num_operands I)) NULL)).
  { unfold operand_array in *. rewrite Hops8.
    destruct (insn_operands J1) as [|larr]; [assumption|].
    cbn [is_null] in *. apply heap_ops_cell in Harr1.
    pose proof (cell_lt _ _ _ Harr1).
    apply heap_ops_cell. subst h8.
    rewrite cells_set_cell_ne by (intros ->; congruence).
    now rewrite Hold3. }
  destruct (dupe_operands_outcome h ls ld0 I psS
              (Z.to_nat (insn_num_operands I)) HI HpsS Hnum ltac:(lia)
              0%nat h8 h9 N8 _ E9 Hold8 HN8 Harr8)
    as (x & psD & HD & HpsD & HlenD & _ & Hold9 & Hframe & Hmono & Hx0
        & Hx & Hslots).
  { intros l. rewrite Hops8. intros Hl. rewrite (Hfresh1 _ Hl). lia. }
  { subst N8 N7 N6 N5 N4. now destruct I. }
  clear E9.
  assert (Hkeep : forall l, (length (cells B0) <= l < length (cells B3))%nat ->
            cells h9 !! l = cells B3 !! l).
  { intros l Hl. rewrite Hframe.
    - subst h8. apply cells_set_cell_ne. lia.
    - subst h8. cbn [cells set_cell]. rewrite length_insert. lia.
    - lia.
    - rewrite Hops8. intros Heq.
      unfold operand_array in Harr1. rewrite <- Heq in Harr1.
      cbn [is_null] in Harr1. apply heap_ops_cell in Harr1.
      apply cell_lt in Harr1. lia. }
  exists (set_insn_num_operands x N8), psD.
  split; [exact Hld0|]. split; [exact HD|].
  split; [subst N8 N7 N6 N5 N4; now destruct I|].
  split; [exact Hold9|].
  split.
  { replace (insn_ascii (set_insn_num_operands x N8)) with a1
      by (subst N8 N7 N6 N5 N4; now destruct I).
    eapply copied_in_string_copy; [exact Hc1|lia|exact Hold0|].
    intros l Hl. rewrite Hkeep by lia.
    rewrite Hext3, Hext2 by lia. reflexivity. }
  split.
  { replace (insn_prefixes (set_insn_num_operands x N8)) with a2
      by (subst N8 N7 N6 N5 N4; now destruct I).
    eapply copied_in_string_copy; [exact Hc2|lia| |].
    - intros l Hl. rewrite Hext1 by lia. now apply Hold0.
    - intros l Hl. rewrite Hkeep by lia. rewrite Hext3 by lia.
      reflexivity. }
  split.
  { replace (insn_mnemonic (set_insn_num_operands x N8)) with a3
      by (subst N8 N7 N6 N5 N4; now destruct I).
    eapply copied_in_string_copy; [exact Hc3|lia| |].
    - intros l Hl. rewrite Hext2, Hext1 by lia. now apply Hold0.
    - intros l Hl. now rewrite Hkeep by lia. }
  split; [exact HpsD|].
  split.
  { replace (insn_operands (set_insn_num_operands x N8))
      with (insn_operands J1) by (subst N8 N7 N6 N5 N4; now destruct I).
    intros l Hl. rewrite (Hfresh1 _ Hl). lia. }
  assert (Hxval : x = Z.max 0 (Z.min (insn_num_operands I)
                                 (insn_alloc_operands I))).
  { rewrite Hx by lia. now rewrite Halloc8. }
  replace (insn_num_operands (set_insn_num_operands x N8)) with x
    by (now destruct N8).
  split; [exact Hxval|].
  intros j Hj. apply Hslots; lia.
Qed.

(** The defect behind C1 and C6, for every successful duplication: the
    duplicate has the [fixed_size] flag and the recorded capacities of its
    source, shares the source's [comment] buffer, and its [target], [dest]
    and [src] are those of the source; a [target] that designates an
    operand of the source heap is not among the duplicate's operands. *)
Lemma opdis_insn_dupe_copies_struct (h h' : heap) (ls ld : loc)
    (I : opdis_insn_t) (psS : list ptr) :
  cells h !! ls = Some (Some (BInsn I)) ->
  operand_array h I = Some psS ->
  0 <= insn_num_operands I < 2 ^ 64 ->
  opdis_insn_dupe (Ptr ls) h = Ok (Ptr ld) h' ->
  exists D : opdis_insn_t,
    heap_insn h' (Ptr ld) = Some D /\
    insn_fixed_size D = insn_fixed_size I /\
    insn_ascii_sz D = insn_ascii_sz I /\
    insn_mnemonic_sz D = insn_mnemonic_sz I /\
    insn_comment D = insn_comment I /\
    insn_target D = insn_target I /\
    insn_dest D = insn_dest I /\
    insn_src D = insn_src I /\
    (forall t : loc,
       insn_target I = Ptr t -> (t < length (cells h))%nat ->
       ~ accessors_own h' D).
Proof.
  intros HI HpsS Hnum H.
  destruct (opdis_insn_dupe_outcome _ _ _ _ _ _ HI HpsS Hnum H)
    as (D & psD & _ & HD & HDeq & _ & _ & _ & _ & HpsD & _ & _ & Hslots).
  exists D. split; [now apply heap_insn_cell|].
  assert (Hfields :
    insn_fixed_size D = insn_fixed_size I /\
    insn_ascii_sz D = insn_ascii_sz I /\
    insn_mnemonic_sz D = insn_mnemonic_sz I /\
    insn_comment D = insn_comment I /\
    insn_target D = insn_target I /\
    insn_dest D = insn_dest I /\
    insn_src D = insn_src I)
    by (rewrite HDeq; destruct I; cbn; auto 10).
  destruct Hfields as (F1 & F2 & F3 & F4 & F5 & F6 & F7).
  repeat (split; [assumption|]).
  intros t Ht Hlt Hown.
  destruct (Hown (Ptr t)) as [Hnull|(ps & Hps & Hin)].
  - rewrite F5, Ht. apply elem_of_cons. now left.
  - discriminate.
  - assert (ps = psD) as -> by congruence.
    apply list_elem_of_lookup in Hin as [j Hj].
    pose proof (lookup_lt_Some _ _ _ Hj) as Hjlt.
    rewrite length_take in Hjlt.
    rewrite lookup_take_lt in Hj by lia.
    destruct (Hslots j ltac:(lia)) as (qs & lo & o' & _ & Hlo & Hfresh & _).
    rewrite Hj in Hlo. injection Hlo as ->. lia.
Qed.

(** The operations that do keep [target], [dest] and [src] within the
    instruction: allocation and clearing leave them unset. *)
Lemma accessors_own_unset (h : heap) (I : opdis_insn_t) :
  insn_target I = NULL -> insn_dest I = NULL -> insn_src I = NULL ->
  accessors_own h I.
Proof.
  intros Ht Hd Hs p Hp. rewrite Ht, Hd, Hs in Hp.
  rewrite !elem_of_cons, elem_of_nil in Hp. left. tauto.
Qed.

Lemma opdis_insn_alloc_accessors (n : Z) (h h' : heap) (li : loc) :
  opdis_insn_alloc n h = Ok (Ptr li) h' ->
  accessors_own h' (the_insn h' (Ptr li)).
Proof.
  intros H.
  destruct (opdis_insn_alloc_granted _ _ _ _ H) as (J & _ & HJ & HJeq & _).
  unfold the_insn. rewrite (proj2 (heap_insn_cell _ _ _) HJ).
  apply accessors_own_unset; cbn [default]; rewrite HJeq; reflexivity.
Qed.

Lemma opdis_insn_alloc_fixed_accessors (a m n o : Z) (h h' : heap)
    (li : loc) :
  opdis_insn_alloc_fixed a m n o h = Ok (Ptr li) h' ->
  accessors_own h' (the_insn h' (Ptr li)).
Proof.
  intros H.
  destruct (opdis_insn_alloc_fixed_outcome _ _ _ _ _ _ _ H)
    as (I & ps & la & lp & lm & HI & (_ & _ & _ & _ & _ & _ & Ht & Hd & Hs)
        & _).
  unfold the_insn. rewrite (proj2 (heap_insn_cell _ _ _) HI).
  now apply accessors_own_unset.
Qed.

Lemma opdis_insn_clear_accessors (h : heap) (li : loc) (I : opdis_insn_t) :
  cells h !! li = Some (Some (BInsn I)) ->
  clearable h (insn_ascii I) ->
  clearable h (insn_prefixes I) ->
  clearable h (insn_mnemonic I) ->
  exists h' : heap,
    opdis_insn_clear (Ptr li) h = Ok tt h' /\
    accessors_own h' (the_insn h' (Ptr li)).
Proof.
  intros HI Ha Hp Hm.
  destruct (opdis_insn_clear_outcome h li I HI Ha Hp Hm)
    as (h' & Hrun & _ & _ & HJ & _).
  exists h'. split; [exact Hrun|].
  unfold the_insn. rewrite (proj2 (heap_insn_cell _ _ _) HJ).
  apply accessors_own_unset; now destruct I.
Qed.

(** * Sample inputs *)

(** ** Classification *)

(** A conditional call with decoded flags is a branch. *)
Lemma opdis_insn_is_branch_callcc :
  heap_insn (heap_with decoded_callcc) (Ptr 0%nat) = Some decoded_callcc /\
  opdis_insn_is_branch (md := metadata_h) (Ptr 0%nat)
    (heap_with decoded_callcc)
  = Ok 1 (heap_with decoded_callcc).
Proof.
  split; [reflexivity|].
  destruct (proj2 (opdis_insn_is_branch_spec (md := metadata_h)
                     (heap_with decoded_callcc))
              0%nat decoded_callcc eq_refl)
    as (r & Hrun & _ & Hiff & _).
  rewrite Hrun. f_equal. apply Hiff. vm_compute. auto.
Defined.

(** C3, as the spec states it, fails on a jump whose flags the status mask
    does not vouch for: [opdis_insn_is_branch] answers 1 although the
    [opdis_decode_mnem_flags] bit of the status is clear. *)
Lemma opdis_insn_is_branch_ignores_status :
  ~ (opdis_insn_is_branch (md := metadata_h) (Ptr 0%nat)
       (heap_with undecoded_jmp)
     = Ok 1 (heap_with undecoded_jmp)
     <->
     Z.land (insn_status undecoded_jmp) opdis_decode_mnem_flags <> 0 /\
     insn_category undecoded_jmp
     = opdis_insn_cat_cflow (opdis_metadata := metadata_h) /\
     cflow_branch_flag (md := metadata_h) (insn_flags undecoded_jmp)).
Proof.
  intros [Hto _].
  assert (Hrun : opdis_insn_is_branch (md := metadata_h) (Ptr 0%nat)
                   (heap_with undecoded_jmp)
                 = Ok 1 (heap_with undecoded_jmp)) by reflexivity.
  destruct (Hto Hrun) as [Hstatus _]. now apply Hstatus.
Qed.

(** A return does not fall through. *)
Lemma opdis_insn_fallthrough_ret :
  heap_insn (heap_with decoded_ret) (Ptr 0%nat) = Some decoded_ret /\
  opdis_insn_fallthrough (md := metadata_h) (Ptr 0%nat)
    (heap_with decoded_ret)
  = Ok 0 (heap_with decoded_ret).
Proof.
  split; [reflexivity|].
  destruct (proj2 (opdis_insn_fallthrough_spec (md := metadata_h)
                     (heap_with decoded_ret))
              0%nat decoded_ret eq_refl)
    as (r & Hrun & _ & Hiff & _).
  rewrite Hrun. f_equal. apply Hiff. vm_compute. auto.
Defined.

(** ** Operand lists *)

(** The first operand of an instruction with two slots goes into slot 0
    without an allocation request. *)
Lemma opdis_insn_add_operand_first :
  heap_insn two_slots (Ptr 0%nat) = Some (the_insn two_slots (Ptr 0%nat)) /\
  exists (h' : heap) (ps' : list ptr),
    opdis_insn_add_operand (Ptr 0%nat) (Ptr 2%nat) two_slots = Ok 1 h' /\
    operand_array h' (the_insn h' (Ptr 0%nat)) = Some ps' /\
    ps' !! 0%nat = Some (Ptr 2%nat) /\
    oracle h' = oracle two_slots.
Proof.
  split; [reflexivity|].
  destruct (opdis_insn_add_operand_spec two_slots 0%nat 2%nat
              (the_insn two_slots (Ptr 0%nat)) [NULL; NULL]
              eq_refl eq_refl eq_refl
              ltac:(vm_compute; split; discriminate)
              ltac:(reflexivity))
    as (r & h' & I' & ps' & Hrun & HI' & Hps' & _ & Hfree & _).
  destruct (Hfree ltac:(reflexivity)) as (-> & _ & _ & Hslot & Ho & _).
  exists h', ps'. split; [exact Hrun|].
  unfold the_insn. rewrite HI'. auto.
Defined.

(** The scenario of the spec: an instruction allocated with two slots takes
    two operands in place and grows to three slots for the third. *)
Lemma opdis_insn_add_operand_three :
  value_of
    ((i ← opdis_insn_alloc 2;
      a ← opdis_op_alloc; b ← opdis_op_alloc; c ← opdis_op_alloc;
      r1 ← opdis_insn_add_operand i a; I1 ← load_insn i;
      r2 ← opdis_insn_add_operand i b; I2 ← load_insn i;
      r3 ← opdis_insn_add_operand i c; I3 ← load_insn i;
      ps ← load_ops (insn_operands I3);
      mret ([r1; r2; r3],
            insn_alloc_operands <$> [I1; I2; I3],
            insn_num_operands <$> [I1; I2; I3],
            bool_decide (ps = [a; b; c]))) empty_heap)
  = Some ([1; 1; 1], [2; 2; 3], [1; 2; 3], true).
Proof. vm_compute. reflexivity. Qed.

(** ** Fixed-size allocation *)

(** C2, as the spec states it, fails for one operand: [num_operands] is 0
    after [opdis_insn_alloc_fixed], not the number of slots (and
    [alloc_operands] reads 2). *)
Lemma opdis_insn_alloc_fixed_num_operands :
  exists I : opdis_insn_t,
    heap_insn (heap_of (opdis_insn_alloc_fixed 8 8 1 8 empty_heap))
      (Ptr 0%nat) = Some I /\
    value_of (opdis_insn_alloc_fixed 8 8 1 8 empty_heap)
    = Some (Ptr 0%nat) /\
    insn_num_operands I = 0 /\
    insn_alloc_operands I = 2 /\
    ~ (insn_num_operands I = 1 /\ 1 = insn_alloc_operands I).
Proof.
  eexists. split; [vm_compute; reflexivity|].
  split; [vm_compute; reflexivity|].
  split; [reflexivity|]. split; [reflexivity|].
  intros [H _]. discriminate H.
Qed.

Lemma opdis_insn_alloc_fixed_two :
  opdis_insn_alloc_fixed 8 8 2 8 empty_heap = Ok (Ptr 0%nat) fixed_two /\
  exists (I : opdis_insn_t) (ps : list ptr),
    heap_insn fixed_two (Ptr 0%nat) = Some I /\
    insn_fixed_size I = 1 /\
    insn_num_operands I = 0 /\
    operand_array fixed_two I = Some ps /\
    length ps = 2%nat.
Proof.
  assert (Hrun : opdis_insn_alloc_fixed 8 8 2 8 empty_heap
                 = Ok (Ptr 0%nat) fixed_two)
    by (vm_compute; reflexivity).
  split; [exact Hrun|].
  destruct (opdis_insn_alloc_fixed_spec 8 8 2 8 empty_heap fixed_two 0%nat
              Hrun)
    as (I & ps & H1 & H2 & H3 & H4 & H5 & _).
  exists I, ps. auto.
Defined.

(** ** Fixed-size strings *)

(** For every capacity that is a multiple of 256 the recorded size is 0
    over a buffer of the requested bytes, and [opdis_op_set_ascii] with
    any text runs [strncpy] with the bound [SIZE_MAX]. *)
Lemma opdis_op_set_ascii_recorded_size_zero (c : Z) (h h' : heap)
    (lo : loc) (s : list ascii) :
  0 <= c < 2 ^ 64 - 1 -> c mod 256 = 0 ->
  opdis_op_alloc_fixed c h = Ok (Ptr lo) h' ->
  op_fixed_size (the_op h' (Ptr lo)) = 1 /\
  op_ascii_sz (the_op h' (Ptr lo)) = 0 /\
  length (the_chars h' (op_ascii (the_op h' (Ptr lo)))) = Z.to_nat c /\
  opdis_op_set_ascii (Ptr lo) (Some s) h' = Fault.
Proof.
  intros Hc Hmod Halloc.
  rewrite opdis_op_alloc_fixed_outcome in Halloc.
  destruct (next_request h); [|discriminate].
  destruct (next_request (refuse h)); [|discriminate].
  injection Halloc as <- <-.
  set (lo := length (cells h)).
  set (h' := {| cells := _; oracle := _ |}).
  assert (Ho : cells h' !! lo
               = Some (Some (BOp (fixed_op c (Ptr (S lo))))))
    by (subst h'; cbn [cells]; now apply list_lookup_middle).
  assert (Hb : cells h' !! S lo
               = Some (Some (BChars (replicate (Z.to_nat c) NUL)))).
  { subst h'; cbn [cells]. rewrite lookup_app_r by lia.
    now replace (S lo - length (cells h))%nat with 1%nat by (subst lo; lia). }
  unfold the_op, the_chars.
  rewrite (proj2 (heap_op_cell _ _ _) Ho). cbn [default from_option id].
  change (op_ascii (fixed_op c (Ptr (S lo)))) with (Ptr (S lo)).
  rewrite (proj2 (heap_chars_cell _ _ _) Hb). cbn [default from_option id].
  split; [reflexivity|].
  split; [exact Hmod|].
  split; [apply length_replicate|].
  unfold opdis_op_set_ascii. cbn [is_null].
  step (load_op_cell _ _ _ Ho).
  rewrite decide_True by discriminate.
  change (op_ascii (fixed_op c (Ptr (S lo)))) with (Ptr (S lo)).
  change (op_ascii_sz (fixed_op c (Ptr (S lo)))) with (uchar c).
  unfold uchar. rewrite Hmod.
  apply strncpy_wrapped with (replicate (Z.to_nat c) NUL); [exact Hb|].
  rewrite length_replicate. lia.
Qed.

(** C4 at the failing input.  A fixed-size operand of capacity 256 has the
    recorded size 0 over a buffer of 256 bytes; [opdis_op_set_ascii] with
    a text of 256 characters does not cut the text to 255 characters: the
    bound [ascii_sz - 1] of [strncpy] wraps to [SIZE_MAX] and the call
    runs past the end of the buffer. *)
Lemma opdis_op_set_ascii_capacity_256 :
  (op ← opdis_op_alloc_fixed 256;
   o ← load_op op;
   buf ← load_chars (op_ascii o);
   mret (op_fixed_size o, op_ascii_sz o, length buf)) empty_heap
  = Ok (1, 0, 256%nat) (heap_of (opdis_op_alloc_fixed 256 empty_heap)) /\
  (op ← opdis_op_alloc_fixed 256;
   opdis_op_set_ascii op (Some (replicate 256 "x"%char))) empty_heap
  = Fault.
Proof. split; vm_compute; reflexivity. Qed.

Lemma opdis_op_set_ascii_samples :
  (exists o : opdis_op_t,
     heap_op fixed_operand_4 (Ptr 0%nat) = Some o /\
     op_ascii_sz o = 4 /\
     fixed_op_buffer fixed_operand_4 o (replicate 4 NUL)) /\
  (forall s : list ascii,
     s ∈ [str "abc"; str "abcd"; str "abcdefghi"] ->
     exists h' : heap,
       opdis_op_set_ascii (Ptr 0%nat) (Some s) fixed_operand_4 = Ok tt h' /\
       heap_string h' (Ptr 1%nat) = Some (str "abc") /\
       length (the_chars h' (Ptr 1%nat)) = 4%nat) /\
  (exists h' : heap,
     opdis_op_set_ascii (Ptr 0%nat) (Some (str "ebx")) dynamic_operand
     = Ok tt h' /\
     heap_string h' (Ptr 2%nat) = Some (str "ebx") /\
     heap_block h' (Ptr 1%nat) = None).
Proof.
  destruct opdis_op_set_ascii_spec as (Halloc & Hfixed & Hdyn & _).
  split; [|split].
  - destruct (Halloc 4 empty_heap fixed_operand_4 0%nat
                ltac:(vm_compute; discriminate)
                ltac:(vm_compute; discriminate)
                ltac:(vm_compute; reflexivity))
      as (o & Ho & Hsz & _ & Hbuf).
    exists o. auto.
  - intros s Hs.
    assert (Hwork : fixed_op_buffer fixed_operand_4
                      (the_op fixed_operand_4 (Ptr 0%nat))
                      (replicate 4 NUL)).
    { split; [vm_compute; discriminate|]. split; [reflexivity|].
      split; [vm_compute; split; [discriminate|reflexivity]|reflexivity]. }
    destruct (Hfixed fixed_operand_4 0%nat
                (the_op fixed_operand_4 (Ptr 0%nat)) (replicate 4 NUL) s
                eq_refl Hwork)
      as (h' & buf' & Hrun & _ & (_ & Hchars & _) & Hlen & Hstr & _).
    exists h'. split; [exact Hrun|].
    change (op_ascii (the_op fixed_operand_4 (Ptr 0%nat)))
      with (Ptr 1%nat) in *.
    split.
    + rewrite Hstr. rewrite !elem_of_cons, elem_of_nil in Hs.
      destruct Hs as [->|[->|[->|[]]]]; reflexivity.
    + unfold the_chars. rewrite Hchars. exact Hlen.
  - destruct (Hdyn dynamic_operand 0%nat
                (the_op dynamic_operand (Ptr 0%nat)) (str "ebx")
                eq_refl eq_refl
                ltac:(right; eexists; reflexivity) eq_refl)
      as (h' & Hrun & _ & _ & Hstr & Hgone).
    exists h'. split; [exact Hrun|]. split; [exact Hstr|exact Hgone].
Defined.

(** C9, as stated, fails for capacity 512: the recorded size is 0, and a
    fixed-mode [set_ascii] does not cut the text but runs past the end of
    the 512-byte buffer. *)
Lemma opdis_op_set_ascii_capacity_512 :
  (op ← opdis_op_alloc_fixed 512;
   o ← load_op op;
   buf ← load_chars (op_ascii o);
   mret (op_ascii_sz o, length buf)) empty_heap
  = Ok (512 mod 256, 512%nat)
       (heap_of (opdis_op_alloc_fixed 512 empty_heap)) /\
  (op ← opdis_op_alloc_fixed 512;
   opdis_op_set_ascii op (Some (str "a"))) empty_heap
  = Fault.
Proof. split; vm_compute; reflexivity. Qed.

Lemma fixed_capacity_samples :
  (exists h' : heap,
     opdis_op_set_ascii (Ptr 0%nat) (Some (str "abcdefgh"))
       fixed_operand_260 = Ok tt h' /\
     heap_string h' (Ptr 1%nat) = Some (str "abc") /\
     length (the_chars h' (Ptr 1%nat)) = 260%nat) /\
  (exists h' : heap,
     opdis_insn_set_ascii (Ptr 0%nat) (Some (str "abcdefgh")) fixed_wide
     = Ok tt h' /\
     heap_string h' (Ptr 1%nat) = Some (str "abc")) /\
  (exists h' : heap,
     opdis_insn_set_mnemonic (Ptr 0%nat) (Some (str "abcdefgh")) fixed_wide
     = Ok tt h' /\
     heap_string h' (Ptr 3%nat) = Some (str "a")).
Proof.
  destruct fixed_capacity_recorded_mod_256 as [Hop Hinsn].
  split; [|split].
  - destruct (Hop 260 empty_heap fixed_operand_260 0%nat
                ltac:(vm_compute; reflexivity))
      as (o & buf & Ho & _ & Hbuf & _ & Hset).
    destruct (Hset (str "abcdefgh") ltac:(vm_compute; discriminate)
                ltac:(vm_compute; discriminate))
      as (h' & buf' & Hrun & Hchars & Hlen & Hstr).
    assert (Hoa : op_ascii o = Ptr 1%nat)
      by (vm_compute in Ho; now injection Ho as <-).
    rewrite Hoa in *.
    exists h'. split; [exact Hrun|]. split; [exact Hstr|].
    unfold the_chars. rewrite Hchars. exact Hlen.
  - destruct (Hinsn 260 258 0 8 empty_heap fixed_wide 0%nat
                ltac:(vm_compute; reflexivity))
      as (I & ba & bm & HI & _ & _ & _ & _ & _ & _ & Hset & _).
    destruct (Hset (str "abcdefgh") ltac:(vm_compute; discriminate)
                ltac:(vm_compute; discriminate))
      as (h' & buf' & Hrun & _ & _ & Hstr).
    assert (Hia : insn_ascii I = Ptr 1%nat)
      by (vm_compute in HI; now injection HI as <-).
    rewrite Hia in *.
    exists h'. split; [exact Hrun|exact Hstr].
  - destruct (Hinsn 260 258 0 8 empty_heap fixed_wide 0%nat
                ltac:(vm_compute; reflexivity))
      as (I & ba & bm & HI & _ & _ & _ & _ & _ & _ & _ & Hset).
    destruct (Hset (str "abcdefgh") ltac:(vm_compute; discriminate)
                ltac:(vm_compute; discriminate))
      as (h' & buf' & Hrun & _ & _ & Hstr).
    assert (Him : insn_mnemonic I = Ptr 3%nat)
      by (vm_compute in HI; now injection HI as <-).
    rewrite Him in *.
    exists h'. split; [exact Hrun|exact Hstr].
Defined.

(** ** Comments *)

Lemma opdis_insn_clear_then_comment :
  heap_string commented (Ptr 4%nat) = Some (str " a") /\
  exists h' : heap,
    opdis_insn_clear (Ptr 0%nat) commented = Ok tt h' /\
    heap_string h' (Ptr 1%nat) = Some [] /\
    heap_string h' (Ptr 4%nat) = Some (str " a") /\
    exists h'' : heap,
      opdis_insn_add_comment (Ptr 0%nat) (Some (str "b")) h' = Ok tt h'' /\
      heap_string h'' (Ptr 4%nat) = Some (str " a b").
Proof.
  split; [reflexivity|].
  destruct (opdis_insn_clear_keeps_comment commented 0%nat
              (the_insn commented (Ptr 0%nat)) eq_refl
              ltac:(right; eexists _, _; reflexivity)
              ltac:(right; eexists _, _; reflexivity)
              ltac:(right; eexists _, _; reflexivity)
              ltac:(right; repeat split; discriminate))
    as (h' & Hrun & _ & _ & Hchars & _ & Hempty & Hadd).
  change (insn_comment (the_insn commented (Ptr 0%nat)))
    with (Ptr 4%nat) in *.
  exists h'. split; [exact Hrun|].
  split.
  { apply Hempty; [|discriminate].
    apply elem_of_cons. now left. }
  split.
  { unfold heap_string. now rewrite Hchars. }
  destruct (Hadd (the_chars commented (Ptr 4%nat)) (str "b")
              ltac:(vm_compute; discriminate) eq_refl eq_refl
              ltac:(vm_compute; discriminate)
              ltac:(vm_compute; discriminate) eq_refl)
    as (h'' & Hrun' & Hstr).
  exists h''. split; [exact Hrun'|exact Hstr].
Defined.

(** C8 at the failing input.  On a fixed-size instruction
    [opdis_insn_add_comment] separates comments with a space, written
    before the first comment too: "a" then "b" leave " a b".  On an
    instruction that is not fixed-size the separator is the semicolon and
    the same calls leave "a;b". *)
Theorem opdis_insn_add_comment_fixed_separator :
  value_of ((i ← opdis_insn_alloc_fixed 16 8 0 8; two_comments i)
              empty_heap)
  = Some (str " a b") /\
  value_of ((i ← opdis_insn_alloc 0; two_comments i) empty_heap)
  = Some (str "a;b").
Proof. split; vm_compute; reflexivity. Qed.

(** ** Duplication *)

(** C1 at the failing input.  The duplicate of a fixed-size instruction
    still has [fixed_size] 1 and the recorded capacity 8 of its source,
    over an ascii buffer of the 4 bytes of "nop"; a [set_ascii] on the
    duplicate then writes 7 bytes into that buffer. *)
Theorem opdis_insn_dupe_of_fixed_stays_fixed :
  value_of (dupe_of_fixed empty_heap) = Some (1, 8, 4%nat) /\
  dupe_of_fixed_reused empty_heap = Fault.
Proof. split; vm_compute; reflexivity. Qed.

(** C6 at the failing input.  The source instruction owns the operand its
    [target] designates; the duplicate's [target] designates that same
    operand of the source, which is no entry of the duplicate's operand
    array. *)
Theorem opdis_insn_dupe_target_astray :
  value_of (dupe_with_target empty_heap)
  = Some (Ptr 2%nat, Ptr 2%nat, [Ptr 6%nat]) /\
  accessors_own (heap_of (dupe_with_target empty_heap))
    (the_insn (heap_of (dupe_with_target empty_heap)) (Ptr 0%nat)) /\
  ~ accessors_own (heap_of (dupe_with_target empty_heap))
      (the_insn (heap_of (dupe_with_target empty_heap)) (Ptr 4%nat)).
Proof.
  split; [vm_compute; reflexivity|]. split.
  - intros p Hp. rewrite !elem_of_cons, elem_of_nil in Hp.
    destruct Hp as [->|[->|[->|[]]]]; [right|now left|now left].
    exists [Ptr 2%nat]. split; [reflexivity|].
    apply elem_of_cons. now left.
  - intros Hown.
    destruct (Hown (Ptr 2%nat)) as [Hnull|(ps & Hps & Hin)].
    + apply elem_of_cons. now left.
    + discriminate.
    + vm_compute in Hps. injection Hps as <-.
      change (Ptr 2%nat ∈ [Ptr 6%nat]) in Hin.
      rewrite !elem_of_cons, elem_of_nil in Hin.
      destruct Hin as [Heq|[]]. discriminate.
Qed.

(** With one slot and [alloc_operands] 2, a second
    [opdis_insn_add_operand] on a fixed-size instruction finds
    [num_operands < alloc_operands] and writes past the one-slot array. *)
Lemma opdis_insn_add_operand_after_alloc_fixed :
  (i ← opdis_insn_alloc_fixed 8 8 1 8;
   a ← opdis_op_alloc; b ← opdis_op_alloc;
   r ← opdis_insn_add_operand i a;
   I ← load_insn i;
   mret (r, insn_num_operands I, insn_alloc_operands I)) empty_heap
  = Ok (1, 1, 2)
       (heap_of ((i ← opdis_insn_alloc_fixed 8 8 1 8;
                  a ← opdis_op_alloc; b ← opdis_op_alloc;
                  opdis_insn_add_operand i a) empty_heap)) /\
  (i ← opdis_insn_alloc_fixed 8 8 1 8;
   a ← opdis_op_alloc; b ← opdis_op_alloc;
   opdis_insn_add_operand i a;;
   opdis_insn_add_operand i b) empty_heap = Fault.
Proof. split; vm_compute; reflexivity. Qed.

(** * The life cycle of instructions and operands *)

(** ** Allocation is all or nothing *)

Lemma heap_block_beyond (h : heap) (l : loc) :
  (length (cells h) <= l)%nat -> heap_block h (Ptr l) = None.
Proof.
  intros Hl. unfold heap_block. now rewrite lookup_ge_None_2.
Qed.

(** X1: [opdis_insn_alloc] never faults.  It returns NULL exactly when the
    request for the struct is refused, or operand slots are asked for and
    the request for the array is refused; the struct is then released, so
    no new cell is live.  Otherwise the new struct is zero but for
    [operands] and [alloc_operands]: [alloc_operands] is the request,
    [num_operands] is 0 and the array holds that many NULL slots.  No cell
    there was is touched. *)
Theorem opdis_insn_alloc_all_or_nothing (n : Z) (h : heap) :
  exists (p : ptr) (h' : heap),
    opdis_insn_alloc n h = Ok p h' /\
    (p = NULL <->
     next_request h = false \/
     (n <> 0 /\ next_request (refuse h) = false)) /\
    (forall l, (l < length (cells h))%nat -> cells h' !! l = cells h !! l) /\
    match p with
    | NULL =>
        forall l, (length (cells h) <= l)%nat -> heap_block h' (Ptr l) = None
    | Ptr li =>
        li = length (cells h) /\
        exists J : opdis_insn_t,
          heap_insn h' p = Some J /\
          J = set_insn_alloc_operands n
                (set_insn_operands (insn_operands J) zero_insn) /\
          insn_num_operands J = 0 /\
          operand_array h' J = Some (replicate (Z.to_nat n) NULL)
    end.
Proof.
  rewrite opdis_insn_alloc_outcome.
  destruct (next_request h) eqn:R1.
  2:{ exists NULL, (refuse h). split; [reflexivity|].
      split; [tauto|]. split; [reflexivity|].
      intros l Hl. now apply heap_block_beyond. }
  destruct (decide (n = 0)) as [->|Hn].
  { eexists _, _. split; [reflexivity|].
    split; [split; [discriminate|intros [?|[? _]]; congruence]|].
    split; [intros l Hl; now apply cells_push_cell_old|].
    split; [reflexivity|]. exists zero_insn.
    split; [apply heap_insn_cell, cells_push_cell_new|].
    repeat split. }
  destruct (next_request (refuse h)) eqn:R2.
  - eexists _, _. split; [reflexivity|].
    split; [split; [discriminate|intros [?|[_ ?]]; congruence]|].
    cbn [cells].
    split; [intros l Hl; now apply lookup_app_l|].
    split; [reflexivity|]. eexists.
    split; [apply heap_insn_cell; cbn [cells]; now apply list_lookup_middle|].
    split; [reflexivity|]. split; [reflexivity|].
    unfold operand_array.
    cbn [insn_operands set_insn_alloc_operands set_insn_operands zero_insn
         is_null].
    apply heap_ops_cell. cbn [cells]. rewrite lookup_app_r by lia.
    now replace (S (length (cells h)) - length (cells h))%nat
      with 1%nat by lia.
  - eexists _, _. split; [reflexivity|].
    split; [split; auto|]. cbn [cells].
    split; [intros l Hl; now apply lookup_app_l|].
    intros l Hl. unfold heap_block. cbn [cells].
    destruct (decide (l = length (cells h))) as [->|Hne].
    + now rewrite list_lookup_middle.
    + rewrite lookup_ge_None_2; [reflexivity|].
      rewrite length_app. simpl. lia.
Qed.

(** X2: [opdis_op_alloc_fixed] never faults.  It returns NULL exactly when the
    request for the struct or the request for the buffer is refused; in
    the second case the struct is released, so no new cell is live.
    Otherwise the operand is fixed-size over a zeroed buffer of the
    requested number of bytes in the cell after its own.  No cell there
    was is touched. *)
Theorem opdis_op_alloc_fixed_all_or_nothing (c : Z) (h : heap) :
  exists (p : ptr) (h' : heap),
    opdis_op_alloc_fixed c h = Ok p h' /\
    (p = NULL <->
     next_request h = false \/ next_request (refuse h) = false) /\
    (forall l, (l < length (cells h))%nat -> cells h' !! l = cells h !! l) /\
    match p with
    | NULL =>
        forall l, (length (cells h) <= l)%nat -> heap_block h' (Ptr l) = None
    | Ptr lo =>
        lo = length (cells h) /\
        heap_op h' p = Some (fixed_op c (Ptr (S lo))) /\
        heap_chars h' (Ptr (S lo)) = Some (replicate (Z.to_nat c) NUL) /\
        heap_string h' (Ptr (S lo))
        = (if decide (0 < c) then Some [] else None)
    end.
Proof.
  rewrite opdis_op_alloc_fixed_outcome.
  destruct (next_request h) eqn:R1.
  2:{ exists NULL, (refuse h). split; [reflexivity|].
      split; [tauto|]. split; [reflexivity|].
      intros l Hl. now apply heap_block_beyond. }
  destruct (next_request (refuse h)) eqn:R2.
  - eexists _, _. split; [reflexivity|].
    split; [split; [discriminate|intros [?|?]; congruence]|].
    cbn [cells].
    split; [intros l Hl; now apply lookup_app_l|].
    split; [reflexivity|].
    assert (Hb : cells {| cells := cells h ++
                [Some (BOp (fixed_op c (Ptr (S (length (cells h))))));
                 Some (BChars (replicate (Z.to_nat c) NUL))];
              oracle := tail (tail (oracle h)) |} !! S (length (cells h))
            = Some (Some (BChars (replicate (Z.to_nat c) NUL)))).
    { cbn [cells]. rewrite lookup_app_r by lia.
      now replace (S (length (cells h)) - length (cells h))%nat
        with 1%nat by lia. }
    split; [apply heap_op_cell; cbn [cells]; now apply list_lookup_middle|].
    split; [now apply heap_chars_cell|].
    unfold heap_string. rewrite (proj2 (heap_chars_cell _ _ _) Hb).
    destruct (decide (0 < c)) as [Hc|Hc].
    + destruct (Z.to_nat c) as [|k] eqn:Ek; [lia|]. reflexivity.
    + replace (Z.to_nat c) with 0%nat by lia. reflexivity.
  - eexists _, _. split; [reflexivity|].
    split; [split; auto|]. cbn [cells].
    split; [intros l Hl; now apply lookup_app_l|].
    intros l Hl. unfold heap_block. cbn [cells].
    destruct (decide (l = length (cells h))) as [->|Hne].
    + now rewrite list_lookup_middle.
    + rewrite lookup_ge_None_2; [reflexivity|].
      rewrite length_app. simpl. lia.
Qed.

(** ** Releasing an operand *)

(** X3: [opdis_op_free] releases the string of an operand and nothing else:
    the operand struct stays allocated and keeps its [ascii] pointer, which
    now designates a released cell, so a second [opdis_op_free] on the
    operand releases that cell again. *)
Theorem opdis_op_free_releases_string_only (h : heap) (lo la : loc)
    (o : opdis_op_t) (buf : list ascii) :
  heap_op h (Ptr lo) = Some o ->
  op_ascii o = Ptr la ->
  heap_chars h (Ptr la) = Some buf ->
  exists h' : heap,
    opdis_op_free (Ptr lo) h = Ok tt h' /\
    heap_block h' (Ptr la) = None /\
    heap_op h' (Ptr lo) = Some o /\
    (forall l, l <> la -> cells h' !! l = cells h !! l) /\
    oracle h' = oracle h /\
    opdis_op_free (Ptr lo) h' = Fault.
Proof.
  intros Ho Ha Hbuf.
  apply heap_op_cell in Ho. apply heap_chars_cell in Hbuf.
  assert (Hne : lo <> la) by (intros ->; congruence).
  pose proof (cell_lt _ _ _ Hbuf) as Hla.
  exists (set_cell h la None).
  assert (Ho' : cells (set_cell h la None) !! lo = Some (Some (BOp o)))
    by (rewrite cells_set_cell_ne by auto; exact Ho).
  assert (Hgone : cells (set_cell h la None) !! la = Some None)
    by now apply cells_set_cell_eq.
  split.
  { unfold opdis_op_free. cbn [is_null].
    step (load_op_cell _ _ _ Ho). rewrite Ha. cbn [is_null].
    now apply free_cell with (BChars buf). }
  split; [unfold heap_block; now rewrite Hgone|].
  split; [now apply heap_op_cell|].
  split; [intros l Hl; now apply cells_set_cell_ne|].
  split; [reflexivity|].
  unfold opdis_op_free. cbn [is_null].
  step (load_op_cell _ _ _ Ho'). rewrite Ha. cbn [is_null].
  unfold free. now rewrite Hgone.
Qed.

Lemma opdis_op_free_dynamic_operand :
  exists h' : heap,
    opdis_op_free (Ptr 0%nat) dynamic_operand = Ok tt h' /\
    heap_block h' (Ptr 1%nat) = None /\
    heap_op h' (Ptr 0%nat) = heap_op dynamic_operand (Ptr 0%nat) /\
    opdis_op_free (Ptr 0%nat) h' = Fault.
Proof.
  destruct (opdis_op_free_releases_string_only dynamic_operand 0%nat 1%nat
              (the_op dynamic_operand (Ptr 0%nat))
              (the_chars dynamic_operand (Ptr 1%nat)))
    as (h' & H1 & H2 & H3 & _ & _ & H4); [reflexivity..|].
  exists h'. split; [exact H1|]. split; [exact H2|].
  split; [exact H3|exact H4].
Defined.

(** ** Branches that do not fall through *)

Section BranchesAndFallthrough.
Context {md : opdis_metadata}.

(** X4: When the return flag is none of the four branch flags, the
    instructions that [opdis_insn_is_branch] accepts and
    [opdis_insn_fallthrough] rejects are the unconditional jumps; neither
    function changes the heap. *)
Theorem opdis_insn_branch_without_fallthrough (h : heap) (li : loc)
    (I : opdis_insn_t) :
  heap_insn h (Ptr li) = Some I ->
  ~ cflow_branch_flag opdis_cflow_flag_ret ->
  (opdis_insn_is_branch (Ptr li) h = Ok 1 h /\
   opdis_insn_fallthrough (Ptr li) h = Ok 0 h)
  <->
  (insn_category I = opdis_insn_cat_cflow /\
   insn_flags I = opdis_cflow_flag_jmp).
Proof.
  intros HI Hret. apply heap_insn_cell in HI.
  unfold opdis_insn_is_branch, opdis_insn_fallthrough. cbn [is_null].
  rewrite !(bind_Ok _ _ _ _ _ (load_insn_cell _ _ _ HI)).
  unfold cflow_branch_flag in Hret.
  destruct (decide (insn_category I = opdis_insn_cat_cflow)) as [Hc|Hc].
  2:{ split; [intros [[=] _]|tauto]. }
  destruct (decide (_ \/ _ \/ _ \/ _)) as [Hb|Hb];
    destruct (decide (_ \/ _)) as [Hf|Hf]; unfold mret, M_ret.
  - split; [|auto]. intros _. split; [assumption|].
    destruct Hf as [Hf|Hf]; [|assumption].
    exfalso. apply Hret. now rewrite <- Hf.
  - split; [intros [_ [=]]|]. intros [_ Hj]. tauto.
  - split; [intros [[=] _]|]. intros [_ Hj]. tauto.
  - split; [intros [[=] _]|]. intros [_ Hj]. tauto.
Qed.

End BranchesAndFallthrough.

Lemma opdis_insn_branch_without_fallthrough_jmp :
  opdis_insn_is_branch (md := metadata_h) (Ptr 0%nat) (heap_with undecoded_jmp)
  = Ok 1 (heap_with undecoded_jmp) /\
  opdis_insn_fallthrough (md := metadata_h) (Ptr 0%nat)
    (heap_with undecoded_jmp)
  = Ok 0 (heap_with undecoded_jmp).
Proof.
  apply (opdis_insn_branch_without_fallthrough (md := metadata_h)
           (heap_with undecoded_jmp) 0%nat undecoded_jmp).
  - reflexivity.
  - unfold cflow_branch_flag. cbn. lia.
  - split; reflexivity.
Defined.

(** ** Prefixes and comments *)

Lemma terminated_split (buf : list ascii) :
  terminated buf = true ->
  exists rest, buf = c_string buf ++ NUL :: rest.
Proof.
  induction buf as [|c buf IH]; simpl; [discriminate|].
  destruct (is_nul c) eqn:Hc.
  - intros _. exists buf. simpl. f_equal.
    unfold is_nul in Hc. now apply Ascii.eqb_eq in Hc.
  - intros Ht. destruct (IH Ht) as [rest Hrest]. exists rest.
    simpl. now f_equal.
Qed.

(** A buffer cut or extended to [n] bytes keeps its string when [n] lies
    beyond the terminator. *)
Lemma resize_string (n : nat) (buf : list ascii) :
  terminated buf = true ->
  (length (c_string buf) < n)%nat ->
  terminated (resize n NUL buf) = true /\
  c_string (resize n NUL buf) = c_string buf.
Proof.
  intros Ht Hn. destruct (terminated_split buf Ht) as [rest Hrest].
  pose proof (nul_free_c_string buf) as Hnf.
  set (cs := c_string buf) in *.
  assert (Hres : exists tl, resize n NUL buf = cs ++ NUL :: tl).
  { rewrite Hrest.
    destruct (decide (n <= length (cs ++ NUL :: rest))%nat) as [Hle|Hgt].
    - rewrite resize_le by assumption.
      rewrite take_app_ge by lia.
      destruct (n - length cs)%nat as [|k] eqn:Ek; [lia|].
      simpl. eauto.
    - rewrite resize_ge by lia. rewrite <- app_assoc. simpl. eauto. }
  destruct Hres as [tl ->].
  rewrite terminated_app, c_string_app by assumption.
  simpl. split; [reflexivity|apply app_nil_r].
Qed.

(** [strcat] when the characters it appends fit the buffer. *)
Lemma strcat_room (h : heap) (la : loc) (buf s : list ascii) :
  cells h !! la = Some (Some (BChars buf)) ->
  terminated buf = true ->
  (length (c_string buf) + length (c_string s) + 1 <= length buf)%nat ->
  exists buf' : list ascii,
    strcat (Ptr la) s h = Ok tt (set_cell h la (Some (BChars buf'))) /\
    length buf' = length buf /\
    terminated buf' = true /\
    c_string buf' = c_string buf ++ c_string s.
Proof.
  intros Hbuf Ht Hroom.
  pose proof (nul_free_c_string s) as Hnf.
  set (app := c_string s) in *.
  set (k := length (c_string buf)) in *.
  set (buf' := take k buf ++ (app ++ [NUL])
                 ++ drop (k + length (app ++ [NUL])) buf).
  assert (Hlen : length (app ++ [NUL]) = S (length app))
    by (rewrite length_app; simpl; lia).
  exists buf'. split.
  { unfold strcat. step (load_chars_cell _ _ _ Hbuf). rewrite Ht.
    fold app. fold k. unfold write_bytes.
    rewrite decide_True by (rewrite Hlen; lia).
    now apply store_chars_cell with buf. }
  subst buf'.
  replace (take k buf) with (c_string buf)
    by (symmetry; apply take_c_string).
  split; [|split].
  - rewrite !length_app, length_drop. simpl. fold k. lia.
  - rewrite terminated_app by apply nul_free_c_string.
    rewrite <- app_assoc. rewrite terminated_app by assumption.
    reflexivity.
  - rewrite c_string_app by apply nul_free_c_string.
    rewrite <- app_assoc. rewrite c_string_app by assumption.
    simpl. now rewrite app_nil_r.
Qed.

Lemma heap_string_inv (h : heap) (p : ptr) (s : list ascii) :
  heap_string h p = Some s ->
  exists l buf, p = Ptr l /\ cells h !! l = Some (Some (BChars buf)) /\
    terminated buf = true /\ s = c_string buf.
Proof.
  unfold heap_string. destruct (heap_chars h p) as [buf|] eqn:E;
    [|discriminate].
  destruct (terminated buf) eqn:Ht; [|discriminate]. intros [= <-].
  destruct p as [|l]; [discriminate|].
  apply heap_chars_cell in E. eauto 10.
Qed.

(** The branches of [opdis_insn_add_prefix] and [opdis_insn_add_comment]
    for an instruction that is not fixed-size, over the field read by
    [get] and assigned by [set], with separator [sep]. *)
Lemma append_dynamic (get : opdis_insn_t -> ptr)
    (set : ptr -> opdis_insn_t -> opdis_insn_t) (sep : list ascii)
    (h : heap) (li : loc) (I : opdis_insn_t) (s : list ascii) :
  (forall J, set (get J) J = J) ->
  c_string sep = sep -> length sep = 1%nat ->
  cells h !! li = Some (Some (BInsn I)) ->
  (get I = NULL \/ exists old, heap_string h (get I) = Some old) ->
  Z.of_nat (length (default [] (heap_string h (get I))))
  + Z.of_nat (length (c_string s)) + 2 < 2 ^ 64 ->
  exists h' : heap,
    (if is_null (get I) then
       p ← calloc_chars (size_t (Z.of_nat (length (c_string s)) + 1));
       modify_insn (Ptr li) (set p);;
       if is_null p then mret tt else strcat p s
     else
       len ← strlen (get I);
       p ← realloc_chars (get I)
             (size_t (len + Z.of_nat (length (c_string s)) + 2));
       if is_null p then mret tt else
         modify_insn (Ptr li) (set p);;
         strcat p sep;;
         strcat p s) h = Ok tt h' /\
    (forall l, (l < length (cells h))%nat -> l <> li -> Ptr l <> get I ->
               cells h' !! l = cells h !! l) /\
    if next_request h then
      heap_insn h' (Ptr li) = Some (set (Ptr (length (cells h))) I) /\
      heap_string h' (Ptr (length (cells h)))
      = Some (match heap_string h (get I) with
              | Some old => old ++ sep ++ c_string s
              | None => c_string s
              end) /\
      heap_block h' (get I) = None
    else
      heap_insn h' (Ptr li) = Some I /\ cells h' = cells h.
Proof.
  intros Hset Hsep Hsep1 HI Hold Hmax.
  pose proof (cell_lt _ _ _ HI) as Hli.
  set (ls := length (c_string s)) in *.
  set (ln := length (cells h)).
  destruct Hold as [Hnull|(old & Hold)].
  - (* the first text *)
    pose proof (Hset I) as HsI.
    rewrite Hnull in *. cbn [is_null].
    replace (heap_string h NULL) with (@None (list ascii)) in *
      by reflexivity.
    cbn [default id length] in Hmax.
    rewrite size_t_small by lia. unfold calloc_chars.
    destruct (next_request h) eqn:Hreq.
    + step (malloc_granted _ _ Hreq). fold ln.
      set (b := replicate (Z.to_nat (Z.of_nat ls + 1)) NUL).
      assert (HI1 : cells (push_cell h (BChars b)) !! li
                    = Some (Some (BInsn I)))
        by (rewrite cells_push_cell_old by lia; exact HI).
      step (modify_insn_cell _ _ _ _ HI1).
      set (h2 := set_cell _ _ _).
      assert (Hb : cells h2 !! ln = Some (Some (BChars b))).
      { subst h2. rewrite cells_set_cell_ne by (subst ln; lia).
        apply cells_push_cell_new. }
      assert (Hb0 : b = NUL :: replicate ls NUL).
      { subst b. replace (Z.to_nat (Z.of_nat ls + 1)) with (S ls) by lia.
        reflexivity. }
      destruct (strcat_room h2 ln b s Hb) as (b' & Hcat & Hlen' & Ht' & Hs').
      { now rewrite Hb0. }
      { rewrite Hb0. simpl. rewrite length_replicate. fold ls. lia. }
      eexists. split; [exact Hcat|].
      assert (Hlen2 : length (cells h2) = S ln).
      { subst h2. cbn [cells set_cell push_cell].
        rewrite length_insert, length_app. simpl. subst ln. lia. }
      split.
      { intros l Hl Hne _. rewrite cells_set_cell_ne by (subst ln; lia).
        subst h2. rewrite cells_set_cell_ne by auto.
        now apply cells_push_cell_old. }
      split.
      { apply heap_insn_cell. rewrite cells_set_cell_ne by (subst ln; lia).
        subst h2. apply cells_set_cell_eq. cbn [cells push_cell].
        rewrite length_app. lia. }
      split; [|reflexivity].
      rewrite (heap_string_cell _ ln b') ; [| |assumption].
      * rewrite Hs', Hb0. reflexivity.
      * apply cells_set_cell_eq. lia.
    + step (malloc_refused _ _ Hreq).
      assert (HI1 : cells (refuse h) !! li = Some (Some (BInsn I)))
        by exact HI.
      step (modify_insn_cell _ _ _ _ HI1).
      rewrite HsI.
      eexists. split; [reflexivity|].
      assert (Hc : cells (set_cell (refuse h) li (Some (BInsn I)))
                   = cells h)
        by (cbn [cells set_cell refuse]; now apply list_insert_id).
      split; [intros; now rewrite Hc|].
      split; [apply heap_insn_cell; now rewrite Hc|exact Hc].
  - (* a further text *)
    rewrite Hold in *. cbn [default id] in Hmax.
    destruct (heap_string_inv _ _ _ Hold)
      as (lp & buf & Hp & Hbuf & Ht & ->).
    rewrite Hp. cbn [is_null].
    assert (Hne : lp <> li) by (intros ->; congruence).
    pose proof (cell_lt _ _ _ Hbuf) as Hlp.
    set (len := length (c_string buf)) in *.
    unfold strlen, load_string.
    step (load_chars_cell _ _ _ Hbuf). rewrite Ht. step_ret. step_ret.
    fold len. rewrite size_t_small by lia.
    unfold realloc_chars. cbn [is_null].
    step (load_chars_cell _ _ _ Hbuf).
    set (n := Z.to_nat (Z.of_nat len + Z.of_nat ls + 2)).
    destruct (resize_string n buf Ht) as (Htn & Hsn); [subst n len; lia|].
    set (nb := resize n NUL buf) in *.
    assert (Hnb : length nb = n) by (subst nb; apply length_resize).
    destruct (next_request h) eqn:Hreq.
    + step (malloc_granted _ _ Hreq). fold ln.
      set (h1 := push_cell h (BChars nb)).
      assert (Hbuf1 : cells h1 !! lp = Some (Some (BChars buf)))
        by (subst h1; rewrite cells_push_cell_old by lia; exact Hbuf).
      step (free_cell _ _ _ Hbuf1). step_ret.
      set (h2 := set_cell h1 lp None).
      assert (Hlen2 : length (cells h2) = S ln).
      { subst h2 h1. cbn [cells set_cell push_cell].
        rewrite length_insert, length_app. simpl. subst ln. lia. }
      assert (HI2 : cells h2 !! li = Some (Some (BInsn I))).
      { subst h2. rewrite cells_set_cell_ne by auto. subst h1.
        rewrite cells_push_cell_old by lia. exact HI. }
      step (modify_insn_cell _ _ _ _ HI2).
      set (h3 := set_cell h2 li _).
      assert (Hb3 : cells h3 !! ln = Some (Some (BChars nb))).
      { subst h3. rewrite cells_set_cell_ne by (subst ln; lia).
        subst h2. rewrite cells_set_cell_ne by (subst ln; lia).
        apply cells_push_cell_new. }
      destruct (strcat_room h3 ln nb sep Hb3 Htn)
        as (b1 & Hcat1 & Hlen1 & Ht1 & Hs1).
      { rewrite Hsn, Hsep, Hsep1, Hnb. subst n len. lia. }
      step Hcat1.
      set (h4 := set_cell h3 ln _).
      assert (Hb4 : cells h4 !! ln = Some (Some (BChars b1))).
      { subst h4. apply cells_set_cell_eq. subst h3.
        cbn [cells set_cell]. rewrite length_insert. lia. }
      destruct (strcat_room h4 ln b1 s Hb4 Ht1)
        as (b2 & Hcat2 & Hlen2' & Ht2 & Hs2).
      { rewrite Hs1, Hsn, Hsep, length_app, Hsep1, Hlen1, Hnb.
        subst n len. fold ls. lia. }
      eexists. split; [exact Hcat2|].
      split.
      { intros l Hl Hnli Hnlp. rewrite cells_set_cell_ne by (subst ln; lia).
        subst h4. rewrite cells_set_cell_ne by (subst ln; lia).
        subst h3. rewrite cells_set_cell_ne by auto.
        subst h2. rewrite cells_set_cell_ne by congruence.
        subst h1. now apply cells_push_cell_old. }
      assert (Hlen4 : length (cells h4) = S ln).
      { subst h4 h3. cbn [cells set_cell]. now rewrite !length_insert. }
      split.
      { apply heap_insn_cell. rewrite cells_set_cell_ne by (subst ln; lia).
        subst h4. rewrite cells_set_cell_ne by (subst ln; lia).
        subst h3. apply cells_set_cell_eq. lia. }
      split.
      { rewrite (heap_string_cell _ ln b2); [| |assumption].
        - rewrite Hs2, Hs1, Hsn, Hsep. now rewrite <- app_assoc.
        - apply cells_set_cell_eq. lia. }
      unfold heap_block. rewrite cells_set_cell_ne by (subst ln; lia).
      subst h4. rewrite cells_set_cell_ne by (subst ln; lia).
      subst h3. rewrite cells_set_cell_ne by auto.
      subst h2. rewrite cells_set_cell_eq; [reflexivity|].
      subst h1. cbn [cells push_cell]. rewrite length_app. lia.
    + step (malloc_refused _ _ Hreq).
      eexists. split; [reflexivity|].
      split; [reflexivity|].
      split; [now apply heap_insn_cell|reflexivity].
Qed.

Lemma take_min (n : Z) (l : list ascii) :
  0 <= n ->
  take (Z.to_nat (Z.min n (Z.of_nat (length l)))) l = take (Z.to_nat n) l.
Proof.
  intros Hn. destruct (decide (n <= Z.of_nat (length l))).
  - now rewrite Z.min_l by lia.
  - rewrite Z.min_r by lia. rewrite Nat2Z.id.
    rewrite firstn_all. symmetry. apply take_ge. lia.
Qed.

(** The branch of [opdis_insn_add_prefix] and [opdis_insn_add_comment]
    for a fixed-size instruction, on the buffer at [lc] with capacity
    [cap].  With room for the separator the text is cut to what the
    capacity leaves; on a buffer that is exactly full the second bound
    [size - 2] wraps and the whole text is written. *)
Lemma append_fixed (h : heap) (lc : loc) (buf s : list ascii) (cap : Z) :
  cells h !! lc = Some (Some (BChars buf)) ->
  terminated buf = true ->
  let len := Z.of_nat (length (c_string buf)) in
  let prog :=
    (len ← strlen (Ptr lc);
     let size := uint (size_t (cap - len)) in
     strncat (Ptr lc) space (uint (size - 1));;
     strncat (Ptr lc) s (uint (size - 2))) in
  len + 1 <= cap -> cap <= Z.of_nat (length buf) -> cap < 2 ^ 32 ->
  (len + 2 <= cap ->
   exists buf' : list ascii,
     prog h = Ok tt (set_cell h lc (Some (BChars buf'))) /\
     length buf' = length buf /\
     terminated buf' = true /\
     c_string buf'
     = c_string buf ++ space ++ take (Z.to_nat (cap - len - 2)) (c_string s))
  /\
  (len + 1 = cap ->
   Z.of_nat (length buf) < len + Z.of_nat (length (c_string s)) + 1 ->
   Z.of_nat (length (c_string s)) < 2 ^ 32 ->
   prog h = Fault).
Proof.
  intros Hbuf Ht len prog Hlen Hcap Hmax.
  assert (Hprog : prog h =
            (strncat (Ptr lc) space (uint (uint (size_t (cap - len)) - 1));;
             strncat (Ptr lc) s (uint (uint (size_t (cap - len)) - 2))) h).
  { subst prog. unfold strlen, load_string.
    step (load_chars_cell _ _ _ Hbuf). rewrite Ht. step_ret. step_ret.
    reflexivity. }
  rewrite Hprog. clear Hprog prog.
  assert (Hsize : uint (size_t (cap - len)) = cap - len).
  { rewrite size_t_small by lia. apply uint_small. lia. }
  rewrite Hsize. split.
  - intros Hroom.
    destruct (strncat_room h lc buf space (cap - len - 1) Hbuf Ht)
      as (buf1 & Hcat1 & Hlen1 & Ht1 & Hs1).
    { replace (c_string space) with space by reflexivity.
      rewrite length_take. simpl. lia. }
    replace (c_string space) with space in Hs1 by reflexivity.
    replace (Z.to_nat (Z.min (cap - len - 1) (Z.of_nat (length space))))
      with 1%nat in Hs1 by (simpl; lia).
    change (take 1 space) with space in Hs1.
    set (h1 := set_cell h lc (Some (BChars buf1))) in *.
    assert (Hbuf1 : cells h1 !! lc = Some (Some (BChars buf1)))
      by (apply cells_set_cell_eq; eapply cell_lt; eauto).
    assert (Hlen_s1 : length (c_string buf1) = S (length (c_string buf)))
      by (rewrite Hs1, length_app; simpl; lia).
    destruct (strncat_room h1 lc buf1 s (cap - len - 2) Hbuf1 Ht1)
      as (buf2 & Hcat2 & Hlen2 & Ht2 & Hs2).
    { rewrite length_take. lia. }
    rewrite take_min in Hs2 by lia.
    exists buf2. split.
    { rewrite !uint_small by lia. step Hcat1. rewrite Hcat2.
      subst h1. now rewrite set_cell_twice. }
    split; [congruence|]. split; [assumption|].
    rewrite Hs2, Hs1. now rewrite <- app_assoc.
  - intros Hfull Hover Hs32.
    replace (cap - len) with 1 by lia.
    change (uint (1 - 1)) with 0.
    change (uint (1 - 2)) with (2 ^ 32 - 1).
    destruct (strncat_room h lc buf space 0 Hbuf Ht)
      as (buf1 & Hcat1 & Hlen1 & Ht1 & Hs1).
    { rewrite length_take. simpl. lia. }
    replace (Z.to_nat (Z.min 0 (Z.of_nat (length (c_string space)))))
      with 0%nat in Hs1 by (simpl; lia).
    rewrite take_0, app_nil_r in Hs1.
    step Hcat1.
    set (h1 := set_cell h lc (Some (BChars buf1))).
    assert (Hbuf1 : cells h1 !! lc = Some (Some (BChars buf1)))
      by (apply cells_set_cell_eq; eapply cell_lt; eauto).
    unfold strncat. step (load_chars_cell _ _ _ Hbuf1). rewrite Ht1.
    unfold write_bytes. rewrite decide_False; [reflexivity|].
    rewrite Hs1, Hlen1, length_app, length_take. simpl. lia.
Qed.

(** X5: In an instruction that is not fixed-size the first prefix is stored
    as it is and a later one is joined to the text there is by one space,
    in a new buffer; the buffer there was is released.  [num_prefixes] is
    not counted.  When the request is refused the instruction and its
    text are as before. *)
Theorem opdis_insn_add_prefix_dynamic (h : heap) (li : loc)
    (I : opdis_insn_t) (s : list ascii) :
  heap_insn h (Ptr li) = Some I ->
  insn_fixed_size I = 0 ->
  (insn_prefixes I = NULL \/
   exists old, heap_string h (insn_prefixes I) = Some old) ->
  Z.of_nat (length (default [] (heap_string h (insn_prefixes I))))
  + Z.of_nat (length (c_string s)) + 2 < 2 ^ 64 ->
  exists h' : heap,
    opdis_insn_add_prefix (Ptr li) (Some s) h = Ok tt h' /\
    (forall l, (l < length (cells h))%nat -> l <> li ->
               Ptr l <> insn_prefixes I -> cells h' !! l = cells h !! l) /\
    insn_num_prefixes (the_insn h' (Ptr li)) = insn_num_prefixes I /\
    if next_request h then
      heap_insn h' (Ptr li)
      = Some (set_insn_prefixes (Ptr (length (cells h))) I) /\
      heap_string h' (Ptr (length (cells h)))
      = Some (match heap_string h (insn_prefixes I) with
              | Some old => old ++ space ++ c_string s
              | None => c_string s
              end) /\
      heap_block h' (insn_prefixes I) = None
    else
      heap_insn h' (Ptr li) = Some I /\ cells h' = cells h.
Proof.
  intros HI Hfs Hold Hmax. apply heap_insn_cell in HI.
  destruct (append_dynamic insn_prefixes set_insn_prefixes space h li I s)
    as (h' & Hrun & Hframe & Hres); try assumption; try reflexivity.
  { now intros []. }
  exists h'. split.
  { unfold opdis_insn_add_prefix. cbn [is_null].
    step (load_insn_cell _ _ _ HI).
    rewrite decide_False by (intros Hn; now apply Hn). exact Hrun. }
  split; [assumption|]. split; [|assumption].
  unfold the_insn. destruct (next_request h).
  - destruct Hres as (-> & _). now destruct I.
  - destruct Hres as (-> & _). reflexivity.
Qed.

Lemma opdis_insn_add_prefix_lock_rep :
  exists h' : heap,
    opdis_insn_add_prefix (Ptr 0%nat) (Some (str "rep")) annotated
    = Ok tt h' /\
    heap_string h' (Ptr 3%nat) = Some (str "lock rep").
Proof.
  destruct (opdis_insn_add_prefix_dynamic annotated 0%nat
              (the_insn annotated (Ptr 0%nat)) (str "rep"))
    as (h' & H1 & _ & _ & H2).
  - reflexivity.
  - reflexivity.
  - right. eexists. reflexivity.
  - vm_compute. reflexivity.
  - exists h'. split; [exact H1|]. exact (proj1 (proj2 H2)).
Defined.

(** X6: In an instruction that is not fixed-size the first comment is stored
    as it is and a later one is joined to the text there is by one
    semicolon, in a new buffer; the buffer there was is released.  When
    the request is refused the instruction and its text are as before. *)
Theorem opdis_insn_add_comment_dynamic (h : heap) (li : loc)
    (I : opdis_insn_t) (s : list ascii) :
  heap_insn h (Ptr li) = Some I ->
  insn_fixed_size I = 0 ->
  (insn_comment I = NULL \/
   exists old, heap_string h (insn_comment I) = Some old) ->
  Z.of_nat (length (default [] (heap_string h (insn_comment I))))
  + Z.of_nat (length (c_string s)) + 2 < 2 ^ 64 ->
  exists h' : heap,
    opdis_insn_add_comment (Ptr li) (Some s) h = Ok tt h' /\
    (forall l, (l < length (cells h))%nat -> l <> li ->
               Ptr l <> insn_comment I -> cells h' !! l = cells h !! l) /\
    if next_request h then
      heap_insn h' (Ptr li)
      = Some (set_insn_comment (Ptr (length (cells h))) I) /\
      heap_string h' (Ptr (length (cells h)))
      = Some (match heap_string h (insn_comment I) with
              | Some old => old ++ semicolon ++ c_string s
              | None => c_string s
              end) /\
      heap_block h' (insn_comment I) = None
    else
      heap_insn h' (Ptr li) = Some I /\ cells h' = cells h.
Proof.
  intros HI Hfs Hold Hmax. apply heap_insn_cell in HI.
  destruct (append_dynamic insn_comment set_insn_comment semicolon h li I s)
    as (h' & Hrun & Hres); try assumption; try reflexivity.
  { now intros []. }
  exists h'. split; [|assumption].
  unfold opdis_insn_add_comment. cbn [is_null].
  step (load_insn_cell _ _ _ HI).
  rewrite decide_False by (intros Hn; now apply Hn). exact Hrun.
Qed.

Lemma opdis_insn_add_comment_a_b :
  exists h' : heap,
    opdis_insn_add_comment (Ptr 0%nat) (Some (str "b")) annotated
    = Ok tt h' /\
    heap_string h' (Ptr 3%nat) = Some (str "a;b").
Proof.
  destruct (opdis_insn_add_comment_dynamic annotated 0%nat
              (the_insn annotated (Ptr 0%nat)) (str "b"))
    as (h' & H1 & _ & H2).
  - reflexivity.
  - reflexivity.
  - right. eexists. reflexivity.
  - vm_compute. reflexivity.
  - exists h'. split; [exact H1|]. exact (proj1 (proj2 H2)).
Defined.

(** X7: On a fixed-size instruction [opdis_insn_add_prefix] writes into the
    prefix buffer, whose capacity it takes to be four times the recorded
    mnemonic size.  With room for two more bytes it appends a space, also
    before the first prefix, and as much of the text as the capacity
    leaves; nothing else changes.  On a buffer that is exactly full the
    bound of the second [strncat] wraps: the whole text is written and
    runs off a buffer that is no longer than the capacity. *)
Theorem opdis_insn_add_prefix_fixed (h : heap) (li lp : loc)
    (I : opdis_insn_t) (buf s : list ascii) :
  heap_insn h (Ptr li) = Some I ->
  insn_fixed_size I <> 0 ->
  insn_prefixes I = Ptr lp ->
  heap_chars h (Ptr lp) = Some buf ->
  terminated buf = true ->
  let cap := PREFIX_SIZE (insn_mnemonic_sz I) in
  let len := Z.of_nat (length (c_string buf)) in
  len + 1 <= cap -> cap <= Z.of_nat (length buf) -> cap < 2 ^ 32 ->
  (len + 2 <= cap ->
   exists (h' : heap) (t : list ascii),
     opdis_insn_add_prefix (Ptr li) (Some s) h = Ok tt h' /\
     t = c_string buf ++ space ++ take (Z.to_nat (cap - len - 2)) (c_string s)
     /\
     heap_string h' (Ptr lp) = Some t /\
     Z.of_nat (length t) < cap /\
     (forall l, l <> lp -> cells h' !! l = cells h !! l) /\
     length (cells h') = length (cells h) /\
     oracle h' = oracle h) /\
  (len + 1 = cap ->
   Z.of_nat (length buf) < len + Z.of_nat (length (c_string s)) + 1 ->
   Z.of_nat (length (c_string s)) < 2 ^ 32 ->
   opdis_insn_add_prefix (Ptr li) (Some s) h = Fault).
Proof.
  intros HI Hfs Hp Hbuf Ht cap len Hlen Hcap Hmax.
  apply heap_insn_cell in HI. apply heap_chars_cell in Hbuf.
  assert (Hrun : opdis_insn_add_prefix (Ptr li) (Some s) h =
            (len ← strlen (Ptr lp);
             let size := uint (size_t (cap - len)) in
             strncat (Ptr lp) space (uint (size - 1));;
             strncat (Ptr lp) s (uint (size - 2))) h).
  { unfold opdis_insn_add_prefix. cbn [is_null].
    step (load_insn_cell _ _ _ HI). rewrite decide_True by assumption.
    now rewrite Hp. }
  rewrite Hrun.
  destruct (append_fixed h lp buf s cap Hbuf Ht Hlen Hcap Hmax)
    as [Hroom Hfull].
  split; [|exact Hfull].
  intros H2. destruct (Hroom H2) as (buf' & Hcat & Hlen' & Ht' & Hs').
  eexists _, _. split; [exact Hcat|]. split; [reflexivity|].
  pose proof (cell_lt _ _ _ Hbuf) as Hlp.
  split.
  { fold len in Hs'. rewrite <- Hs'. apply heap_string_cell; [|assumption].
    now apply cells_set_cell_eq. }
  split.
  { rewrite !length_app, length_take. simpl. fold len. lia. }
  split; [intros l Hl; now apply cells_set_cell_ne|].
  split; [cbn [cells set_cell]; now rewrite length_insert|reflexivity].
Qed.

Lemma opdis_insn_add_prefix_fixed_samples :
  (exists h' : heap,
     opdis_insn_add_prefix (Ptr 0%nat) (Some (str "repnz")) fixed_two
     = Ok tt h' /\
     heap_string h' (Ptr 3%nat) = Some (str " repnz")) /\
  opdis_insn_add_prefix (Ptr 0%nat) (Some (str "c")) fixed_full = Fault.
Proof.
  split.
  - destruct (opdis_insn_add_prefix_fixed fixed_two 0%nat 3%nat
                (the_insn fixed_two (Ptr 0%nat))
                (the_chars fixed_two (Ptr 3%nat)) (str "repnz"))
      as [H _]; try reflexivity; try (vm_compute; congruence).
    destruct (H ltac:(vm_compute; congruence)) as (h' & t & H1 & -> & H2 & _).
    exists h'. split; [exact H1|exact H2].
  - refine (proj2 (opdis_insn_add_prefix_fixed fixed_full 0%nat 2%nat
                (the_insn fixed_full (Ptr 0%nat))
                (the_chars fixed_full (Ptr 2%nat)) (str "c")
                _ _ _ _ _ _ _ _) _ _ _);
      try reflexivity; vm_compute; congruence.
Defined.

(** X8: On a fixed-size instruction [opdis_insn_add_comment] writes into the
    comment buffer, whose capacity it takes to be the recorded ascii size.
    With room for two more bytes it appends a space and as much of the
    text as the capacity leaves; nothing else changes.  On a buffer that is
    exactly full the bound of the second [strncat] wraps: the whole text is
    written and runs off a buffer that is no longer than the capacity. *)
Theorem opdis_insn_add_comment_fixed_bounds (h : heap) (li lc : loc)
    (I : opdis_insn_t) (buf s : list ascii) :
  heap_insn h (Ptr li) = Some I ->
  insn_fixed_size I <> 0 ->
  insn_comment I = Ptr lc ->
  heap_chars h (Ptr lc) = Some buf ->
  terminated buf = true ->
  let cap := insn_ascii_sz I in
  let len := Z.of_nat (length (c_string buf)) in
  len + 1 <= cap -> cap <= Z.of_nat (length buf) -> cap < 2 ^ 32 ->
  (len + 2 <= cap ->
   exists (h' : heap) (t : list ascii),
     opdis_insn_add_comment (Ptr li) (Some s) h = Ok tt h' /\
     t = c_string buf ++ space ++ take (Z.to_nat (cap - len - 2)) (c_string s)
     /\
     heap_string h' (Ptr lc) = Some t /\
     Z.of_nat (length t) < cap /\
     (forall l, l <> lc -> cells h' !! l = cells h !! l) /\
     length (cells h') = length (cells h) /\
     oracle h' = oracle h) /\
  (len + 1 = cap ->
   Z.of_nat (length buf) < len + Z.of_nat (length (c_string s)) + 1 ->
   Z.of_nat (length (c_string s)) < 2 ^ 32 ->
   opdis_insn_add_comment (Ptr li) (Some s) h = Fault).
Proof.
  intros HI Hfs Hp Hbuf Ht cap len Hlen Hcap Hmax.
  apply heap_insn_cell in HI. apply heap_chars_cell in Hbuf.
  assert (Hrun : opdis_insn_add_comment (Ptr li) (Some s) h =
            (len ← strlen (Ptr lc);
             let size := uint (size_t (cap - len)) in
             strncat (Ptr lc) space (uint (size - 1));;
             strncat (Ptr lc) s (uint (size - 2))) h).
  { unfold opdis_insn_add_comment. cbn [is_null].
    step (load_insn_cell _ _ _ HI). rewrite decide_True by assumption.
    now rewrite Hp. }
  rewrite Hrun.
  destruct (append_fixed h lc buf s cap Hbuf Ht Hlen Hcap Hmax)
    as [Hroom Hfull].
  split; [|exact Hfull].
  intros H2. destruct (Hroom H2) as (buf' & Hcat & Hlen' & Ht' & Hs').
  eexists _, _. split; [exact Hcat|]. split; [reflexivity|].
  pose proof (cell_lt _ _ _ Hbuf) as Hlc.
  split.
  { fold len in Hs'. rewrite <- Hs'. apply heap_string_cell; [|assumption].
    now apply cells_set_cell_eq. }
  split.
  { rewrite !length_app, length_take. simpl. fold len. lia. }
  split; [intros l Hl; now apply cells_set_cell_ne|].
  split; [cbn [cells set_cell]; now rewrite length_insert|reflexivity].
Qed.

Lemma opdis_insn_add_comment_fixed_samples :
  (exists h' : heap,
     opdis_insn_add_comment (Ptr 0%nat) (Some (str "see above")) fixed_two
     = Ok tt h' /\
     heap_string h' (Ptr 5%nat) = Some (str " see ab")) /\
  opdis_insn_add_comment (Ptr 0%nat) (Some (str "c")) fixed_full = Fault.
Proof.
  split.
  - destruct (opdis_insn_add_comment_fixed_bounds fixed_two 0%nat 5%nat
                (the_insn fixed_two (Ptr 0%nat))
                (the_chars fixed_two (Ptr 5%nat)) (str "see above"))
      as [H _]; try reflexivity; try (vm_compute; congruence).
    destruct (H ltac:(vm_compute; congruence)) as (h' & t & H1 & -> & H2 & _).
    exists h'. split; [exact H1|exact H2].
  - refine (proj2 (opdis_insn_add_comment_fixed_bounds fixed_full 0%nat 4%nat
                (the_insn fixed_full (Ptr 0%nat))
                (the_chars fixed_full (Ptr 4%nat)) (str "c")
                _ _ _ _ _ _ _ _) _ _ _);
      try reflexivity; vm_compute; congruence.
Defined.

(** ** Replacing the strings of an instruction *)

(** The branch of [opdis_insn_set_ascii] and [opdis_insn_set_mnemonic]
    for an instruction that is not fixed-size, over the field read by
    [get] and assigned by [set]. *)
Lemma replace_dynamic (get : opdis_insn_t -> ptr)
    (set : ptr -> opdis_insn_t -> opdis_insn_t)
    (h : heap) (li : loc) (I : opdis_insn_t) (s : list ascii) :
  cells h !! li = Some (Some (BInsn I)) ->
  (get I = NULL \/ exists old, heap_chars h (get I) = Some old) ->
  exists h' : heap,
    ((if is_null (get I) then mret tt else free (get I));;
     a ← strdup s;
     modify_insn (Ptr li) (set a)) h = Ok tt h' /\
    heap_block h' (get I) = None /\
    (forall l, (l < length (cells h))%nat -> l <> li -> Ptr l <> get I ->
               cells h' !! l = cells h !! l) /\
    if next_request h then
      heap_insn h' (Ptr li) = Some (set (Ptr (length (cells h))) I) /\
      heap_block h (Ptr (length (cells h))) = None /\
      heap_string h' (Ptr (length (cells h))) = Some (c_string s)
    else
      heap_insn h' (Ptr li) = Some (set NULL I) /\
      length (cells h') = length (cells h).
Proof.
  intros HI Hold. pose proof (cell_lt _ _ _ HI) as Hli.
  set (ln := length (cells h)).
  assert (Hfree : exists h0,
            (if is_null (get I) then mret tt else free (get I)) h
            = Ok tt h0 /\
            cells h0 !! li = Some (Some (BInsn I)) /\
            length (cells h0) = ln /\
            next_request h0 = next_request h /\
            heap_block h0 (get I) = None /\
            (forall l, Ptr l <> get I -> cells h0 !! l = cells h !! l)).
  { destruct Hold as [->|(old & Hold)].
    - exists h. repeat split; auto.
    - destruct (get I) as [|lp]; [discriminate|].
      apply heap_chars_cell in Hold.
      assert (lp <> li) by (intros ->; congruence).
      pose proof (cell_lt _ _ _ Hold).
      exists (set_cell h lp None). cbn [is_null].
      split; [now apply free_cell with (BChars old)|].
      split; [now rewrite cells_set_cell_ne|].
      split; [cbn [cells set_cell]; now rewrite length_insert|].
      split; [reflexivity|].
      split; [unfold heap_block; now rewrite cells_set_cell_eq|].
      intros l Hl. apply cells_set_cell_ne. congruence. }
  destruct Hfree as (h0 & Hrun0 & HI0 & Hlen0 & Hreq0 & Hgone & Hframe).
  step Hrun0. unfold strdup. rewrite <- Hreq0.
  destruct (next_request h0) eqn:Hreq.
  - step (malloc_granted _ _ Hreq). rewrite Hlen0.
    set (h1 := push_cell h0 _).
    assert (HI1 : cells h1 !! li = Some (Some (BInsn I)))
      by (subst h1; rewrite cells_push_cell_old by lia; exact HI0).
    eexists. split; [apply modify_insn_cell; exact HI1|].
    assert (Hlen1 : length (cells h1) = S ln)
      by (subst h1; cbn [cells push_cell]; rewrite length_app; simpl; lia).
    split.
    { destruct (get I) as [|lp] eqn:Hg; [reflexivity|].
      unfold heap_block in *.
      destruct (decide (lp = li)) as [->|Hne].
      { rewrite HI0 in Hgone. discriminate. }
      rewrite cells_set_cell_ne by auto.
      destruct (decide (lp < ln)%nat).
      - subst h1. rewrite cells_push_cell_old by lia. exact Hgone.
      - destruct Hold as [?|(old & Hold)]; [discriminate|].
        apply heap_chars_cell, cell_lt in Hold. lia. }
    split.
    { intros l Hl Hne Hg. rewrite cells_set_cell_ne by auto.
      subst h1. rewrite cells_push_cell_old by lia. now apply Hframe. }
    split.
    { apply heap_insn_cell. apply cells_set_cell_eq. lia. }
    split; [now apply heap_block_beyond|].
    assert (Hb : cells (set_cell h1 li (Some (BInsn (set (Ptr ln) I))))
                 !! ln = Some (Some (BChars (c_string s ++ [NUL])))).
    { rewrite cells_set_cell_ne by lia. subst h1. rewrite <- Hlen0.
      apply cells_push_cell_new. }
    rewrite (heap_string_cell _ _ _ Hb).
    + rewrite c_string_app by apply nul_free_c_string.
      simpl. now rewrite app_nil_r.
    + rewrite terminated_app by apply nul_free_c_string. reflexivity.
  - step (malloc_refused _ _ Hreq).
    assert (HI1 : cells (refuse h0) !! li = Some (Some (BInsn I)))
      by exact HI0.
    eexists. split; [apply modify_insn_cell; exact HI1|].
    split.
    { destruct (get I) as [|lp] eqn:Hg; [reflexivity|].
      unfold heap_block in *.
      destruct (decide (lp = li)) as [->|Hne].
      { rewrite HI0 in Hgone. discriminate. }
      rewrite cells_set_cell_ne by auto. exact Hgone. }
    split.
    { intros l Hl Hne Hg. rewrite cells_set_cell_ne by auto.
      now apply Hframe. }
    split.
    { apply heap_insn_cell. apply cells_set_cell_eq.
      cbn [cells refuse]. lia. }
    cbn [cells set_cell refuse]. rewrite length_insert. exact Hlen0.
Qed.

(** X9: On an instruction that is not fixed-size [opdis_insn_set_ascii]
    releases the string there is, then asks for a copy of the text.  The
    request granted, [ascii] designates the copy, in a new cell.  The
    request refused, [ascii] is NULL: the string there was is lost.  No
    other field and no other cell changes. *)
Theorem opdis_insn_set_ascii_dynamic (h : heap) (li : loc)
    (I : opdis_insn_t) (s : list ascii) :
  heap_insn h (Ptr li) = Some I ->
  insn_fixed_size I = 0 ->
  (insn_ascii I = NULL \/
   exists old, heap_chars h (insn_ascii I) = Some old) ->
  exists h' : heap,
    opdis_insn_set_ascii (Ptr li) (Some s) h = Ok tt h' /\
    heap_block h' (insn_ascii I) = None /\
    (forall l, (l < length (cells h))%nat -> l <> li ->
               Ptr l <> insn_ascii I -> cells h' !! l = cells h !! l) /\
    if next_request h then
      heap_insn h' (Ptr li)
      = Some (set_insn_ascii (Ptr (length (cells h))) I) /\
      heap_block h (Ptr (length (cells h))) = None /\
      heap_string h' (Ptr (length (cells h))) = Some (c_string s)
    else
      heap_insn h' (Ptr li) = Some (set_insn_ascii NULL I) /\
      length (cells h') = length (cells h).
Proof.
  intros HI Hfs Hold. apply heap_insn_cell in HI.
  destruct (replace_dynamic insn_ascii set_insn_ascii h li I s HI Hold)
    as (h' & Hrun & Hres).
  exists h'. split; [|exact Hres].
  unfold opdis_insn_set_ascii. cbn [is_null].
  step (load_insn_cell _ _ _ HI).
  rewrite decide_False by (intros Hn; now apply Hn). exact Hrun.
Qed.

Lemma opdis_insn_set_ascii_dynamic_sample :
  exists h' : heap,
    opdis_insn_set_ascii (Ptr 0%nat) (Some (str "ret 8")) dynamic_insn
    = Ok tt h' /\
    heap_block h' (Ptr 1%nat) = None /\
    heap_string h' (Ptr 3%nat) = Some (str "ret 8").
Proof.
  destruct (opdis_insn_set_ascii_dynamic dynamic_insn 0%nat
              (the_insn dynamic_insn (Ptr 0%nat)) (str "ret 8"))
    as (h' & H1 & H2 & _ & H3).
  - reflexivity.
  - reflexivity.
  - right. eexists. reflexivity.
  - exists h'. split; [exact H1|]. split; [exact H2|].
    exact (proj2 (proj2 H3)).
Defined.

(** X10: [opdis_insn_set_mnemonic] on an instruction that is not fixed-size:
    as [opdis_insn_set_ascii], on the [mnemonic] field. *)
Theorem opdis_insn_set_mnemonic_dynamic (h : heap) (li : loc)
    (I : opdis_insn_t) (s : list ascii) :
  heap_insn h (Ptr li) = Some I ->
  insn_fixed_size I = 0 ->
  (insn_mnemonic I = NULL \/
   exists old, heap_chars h (insn_mnemonic I) = Some old) ->
  exists h' : heap,
    opdis_insn_set_mnemonic (Ptr li) (Some s) h = Ok tt h' /\
    heap_block h' (insn_mnemonic I) = None /\
    (forall l, (l < length (cells h))%nat -> l <> li ->
               Ptr l <> insn_mnemonic I -> cells h' !! l = cells h !! l) /\
    if next_request h then
      heap_insn h' (Ptr li)
      = Some (set_insn_mnemonic (Ptr (length (cells h))) I) /\
      heap_block h (Ptr (length (cells h))) = None /\
      heap_string h' (Ptr (length (cells h))) = Some (c_string s)
    else
      heap_insn h' (Ptr li) = Some (set_insn_mnemonic NULL I) /\
      length (cells h') = length (cells h).
Proof.
  intros HI Hfs Hold. apply heap_insn_cell in HI.
  destruct (replace_dynamic insn_mnemonic set_insn_mnemonic h li I s HI Hold)
    as (h' & Hrun & Hres).
  exists h'. split; [|exact Hres].
  unfold opdis_insn_set_mnemonic. cbn [is_null].
  step (load_insn_cell _ _ _ HI).
  rewrite decide_False by (intros Hn; now apply Hn). exact Hrun.
Qed.

Lemma opdis_insn_set_mnemonic_dynamic_sample :
  exists h' : heap,
    opdis_insn_set_mnemonic (Ptr 0%nat) (Some (str "retn")) dynamic_insn
    = Ok tt h' /\
    heap_block h' (Ptr 2%nat) = None /\
    heap_string h' (Ptr 3%nat) = Some (str "retn").
Proof.
  destruct (opdis_insn_set_mnemonic_dynamic dynamic_insn 0%nat
              (the_insn dynamic_insn (Ptr 0%nat)) (str "retn"))
    as (h' & H1 & H2 & _ & H3).
  - reflexivity.
  - reflexivity.
  - right. eexists. reflexivity.
  - exists h'. split; [exact H1|]. split; [exact H2|].
    exact (proj2 (proj2 H3)).
Defined.

(** ** Reusing a fixed-size instruction *)

(** X11: The fixed-size setters keep an instruction in working order.
    [opdis_insn_alloc_fixed] with capacities that are not multiples of 256
    gives an instruction in working order; on such an instruction
    [opdis_insn_set_ascii] and [opdis_insn_set_mnemonic] leave the struct as
    it is and the instruction in working order, the string of the field
    they set is the text cut to the recorded size less one, whatever the
    buffer held before, and the buffer of the other field is untouched. *)
Theorem fixed_setters_keep_working_order :
  (forall (a m n o : Z) (h h' : heap) (li : loc),
     opdis_insn_alloc_fixed a m n o h = Ok (Ptr li) h' ->
     0 <= a -> a mod 256 <> 0 -> 0 <= m -> m mod 256 <> 0 ->
     fixed_strings h' (the_insn h' (Ptr li))) /\
  (forall (h : heap) (li : loc) (I : opdis_insn_t) (s : list ascii),
     heap_insn h (Ptr li) = Some I ->
     fixed_strings h I ->
     exists h' : heap,
       opdis_insn_set_ascii (Ptr li) (Some s) h = Ok tt h' /\
       heap_insn h' (Ptr li) = Some I /\
       fixed_strings h' I /\
       heap_string h' (insn_ascii I)
       = Some (take (Z.to_nat (insn_ascii_sz I - 1)) (c_string s)) /\
       heap_chars h' (insn_mnemonic I) = heap_chars h (insn_mnemonic I)) /\
  (forall (h : heap) (li : loc) (I : opdis_insn_t) (s : list ascii),
     heap_insn h (Ptr li) = Some I ->
     fixed_strings h I ->
     exists h' : heap,
       opdis_insn_set_mnemonic (Ptr li) (Some s) h = Ok tt h' /\
       heap_insn h' (Ptr li) = Some I /\
       fixed_strings h' I /\
       heap_string h' (insn_mnemonic I)
       = Some (take (Z.to_nat (insn_mnemonic_sz I - 1)) (c_string s)) /\
       heap_chars h' (insn_ascii I) = heap_chars h (insn_ascii I)).
Proof.
  split; [|split].
  - intros a m n o h h' li H Ha Hma Hm Hmm.
    destruct (opdis_insn_alloc_fixed_outcome _ _ _ _ _ _ _ H)
      as (I & ps & la & lp & lm & HI & (Hfs & _ & Hasz & Hmsz & _)
          & (Hpa & Hba) & _ & (Hpm & Hbm) & _ & (_ & Hne & _) & _).
    unfold the_insn. rewrite (proj2 (heap_insn_cell _ _ _) HI).
    cbn [default from_option id].
    destruct (replicate_nul_at a Ha Hma) as [Na Ra].
    destruct (replicate_nul_at m Hm Hmm) as [Nm Rm].
    pose proof (uchar_range a). pose proof (uchar_range m).
    split; [rewrite Hfs; discriminate|].
    exists la, lm, (replicate (Z.to_nat a) NUL),
      (replicate (Z.to_nat m) NUL).
    rewrite Hasz, Hmsz.
    repeat split; try assumption; try lia;
      now apply heap_chars_cell.
  - intros h li I s HI (Hfs & la & lm & ba & bm & Hpa & Hpm & Hne & Hba
                        & Hbm & Hasz & Hna & Hmsz & Hnm).
    apply heap_insn_cell in HI.
    apply heap_chars_cell in Hba. apply heap_chars_cell in Hbm.
    assert (Hli : la <> li) by (intros ->; congruence).
    pose proof (cell_lt _ _ _ Hba) as Hla.
    destruct (opdis_insn_set_ascii_fixed h li la I ba s HI Hfs Hpa Hba)
      as (b' & Hrun & Hlen & Hnul & Ht & Hs); [lia|assumption|].
    eexists. split; [exact Hrun|].
    assert (Hb' : cells (set_cell h la (Some (BChars b'))) !! la
                  = Some (Some (BChars b')))
      by now apply cells_set_cell_eq.
    assert (Hm' : cells (set_cell h la (Some (BChars b'))) !! lm
                  = Some (Some (BChars bm)))
      by (rewrite cells_set_cell_ne by auto; exact Hbm).
    split; [apply heap_insn_cell; now rewrite cells_set_cell_ne|].
    split.
    { split; [assumption|]. exists la, lm, b', bm.
      repeat split; try assumption; try lia; now apply heap_chars_cell. }
    rewrite Hpa, Hpm. split.
    + rewrite <- Hs. now apply heap_string_cell.
    + rewrite (proj2 (heap_chars_cell _ _ _) Hm').
      now rewrite (proj2 (heap_chars_cell _ _ _) Hbm).
  - intros h li I s HI (Hfs & la & lm & ba & bm & Hpa & Hpm & Hne & Hba
                        & Hbm & Hasz & Hna & Hmsz & Hnm).
    apply heap_insn_cell in HI.
    apply heap_chars_cell in Hba. apply heap_chars_cell in Hbm.
    assert (Hli : lm <> li) by (intros ->; congruence).
    pose proof (cell_lt _ _ _ Hbm) as Hlm.
    destruct (opdis_insn_set_mnemonic_fixed h li lm I bm s HI Hfs Hpm Hbm)
      as (b' & Hrun & Hlen & Hnul & Ht & Hs); [lia|assumption|].
    eexists. split; [exact Hrun|].
    assert (Hb' : cells (set_cell h lm (Some (BChars b'))) !! lm
                  = Some (Some (BChars b')))
      by now apply cells_set_cell_eq.
    assert (Ha' : cells (set_cell h lm (Some (BChars b'))) !! la
                  = Some (Some (BChars ba)))
      by (rewrite cells_set_cell_ne by auto; exact Hba).
    split; [apply heap_insn_cell; now rewrite cells_set_cell_ne|].
    split.
    { split; [assumption|]. exists la, lm, ba, b'.
      repeat split; try assumption; try lia; now apply heap_chars_cell. }
    rewrite Hpa, Hpm. split.
    + rewrite <- Hs. now apply heap_string_cell.
    + rewrite (proj2 (heap_chars_cell _ _ _) Ha').
      now rewrite (proj2 (heap_chars_cell _ _ _) Hba).
Qed.

Lemma fixed_setters_last_text :
  exists h1 h2 h3 : heap,
    opdis_insn_set_ascii (Ptr 0%nat) (Some (str "mov eax, 1")) fixed_two
    = Ok tt h1 /\
    opdis_insn_set_mnemonic (Ptr 0%nat) (Some (str "mov")) h1 = Ok tt h2 /\
    opdis_insn_set_ascii (Ptr 0%nat) (Some (str "nop")) h2 = Ok tt h3 /\
    heap_string h3 (Ptr 2%nat) = Some (str "nop") /\
    heap_string h2 (Ptr 4%nat) = Some (str "mov").
Proof.
  destruct fixed_setters_keep_working_order as (Halloc & Hascii & Hmnem).
  assert (W0 : fixed_strings fixed_two (the_insn fixed_two (Ptr 0%nat))).
  { apply (Halloc 8 8 2 8 empty_heap fixed_two 0%nat);
      [reflexivity|lia|discriminate|lia|discriminate]. }
  destruct (Hascii fixed_two 0%nat _ (str "mov eax, 1") eq_refl W0)
    as (h1 & R1 & I1 & W1 & _).
  destruct (Hmnem h1 0%nat _ (str "mov") I1 W1)
    as (h2 & R2 & I2 & W2 & S2 & _).
  destruct (Hascii h2 0%nat _ (str "nop") I2 W2)
    as (h3 & R3 & _ & _ & S3 & _).
  exists h1, h2, h3. repeat split; assumption.
Defined.

(** ** Clearing twice *)

Lemma heap_ext (h1 h2 : heap) :
  cells h1 = cells h2 -> oracle h1 = oracle h2 -> h1 = h2.
Proof. destruct h1, h2. simpl. now intros -> ->. Qed.

Lemma clear_cell_idemp (x : option (option block)) :
  clear_cell <$> (clear_cell <$> x) = clear_cell <$> x.
Proof. now destruct x as [[[[|c cs]| | |]|]|]. Qed.

Lemma clearable_after (h h' : heap) (li : loc) (D : list ptr)
    (J I : opdis_insn_t) (p : ptr) :
  cells h !! li = Some (Some (BInsn I)) ->
  clear_progress h li D J h' ->
  clearable h p -> clearable h' p.
Proof.
  intros HI (_ & _ & _ & Hrest) [->|(c & rest & Hp)]; [now left|].
  destruct p as [|lp]; [discriminate|]. right.
  apply heap_chars_cell in Hp.
  assert (Hne : lp <> li) by (intros ->; congruence).
  setoid_rewrite heap_chars_cell. rewrite (Hrest lp Hne), Hp.
  destruct (decide (Ptr lp ∈ D)); simpl; eauto.
Qed.

(** X12: [opdis_insn_clear] makes no allocation request and adds no cell, and
    it leaves every operand struct and every operand array as it is, so
    the slots of the instruction still hold their operands; a second
    [opdis_insn_clear] changes nothing any more. *)
Theorem opdis_insn_clear_idempotent (h : heap) (li : loc)
    (I : opdis_insn_t) :
  heap_insn h (Ptr li) = Some I ->
  clearable h (insn_ascii I) ->
  clearable h (insn_prefixes I) ->
  clearable h (insn_mnemonic I) ->
  exists h' : heap,
    opdis_insn_clear (Ptr li) h = Ok tt h' /\
    opdis_insn_clear (Ptr li) h' = Ok tt h' /\
    oracle h' = oracle h /\
    length (cells h') = length (cells h) /\
    insn_alloc_operands (the_insn h' (Ptr li)) = insn_alloc_operands I /\
    insn_operands (the_insn h' (Ptr li)) = insn_operands I /\
    (forall p : ptr, heap_ops h' p = heap_ops h p) /\
    (forall p : ptr, heap_op h' p = heap_op h p).
Proof.
  intros HI Ha Hp Hm. apply heap_insn_cell in HI.
  destruct (opdis_insn_clear_outcome h li I HI Ha Hp Hm) as (h' & R1 & P1).
  pose proof P1 as (Ho1 & Hlen1 & HJ1 & Hrest1).
  assert (Hsame : insn_ascii (cleared I) = insn_ascii I /\
                  insn_prefixes (cleared I) = insn_prefixes I /\
                  insn_mnemonic (cleared I) = insn_mnemonic I /\
                  cleared (cleared I) = cleared I)
    by (destruct I; auto).
  destruct Hsame as (Sa & Sp & Sm & Sc).
  destruct (opdis_insn_clear_outcome h' li (cleared I) HJ1)
    as (h'' & R2 & P2).
  { rewrite Sa. eapply clearable_after; [exact HI|exact P1|assumption]. }
  { rewrite Sp. eapply clearable_after; [exact HI|exact P1|assumption]. }
  { rewrite Sm. eapply clearable_after; [exact HI|exact P1|assumption]. }
  rewrite Sa, Sp, Sm, Sc in P2.
  destruct P2 as (Ho2 & Hlen2 & HJ2 & Hrest2).
  assert (Heq : h'' = h').
  { apply heap_ext; [|assumption]. apply list_eq. intros l.
    destruct (decide (l = li)) as [->|Hne]; [now rewrite HJ2, HJ1|].
    rewrite (Hrest2 l Hne). destruct (decide _) as [Hin|]; [|reflexivity].
    rewrite (Hrest1 l Hne). rewrite decide_True by assumption.
    apply clear_cell_idemp. }
  rewrite Heq in R2.
  exists h'. split; [assumption|]. split; [assumption|].
  split; [assumption|]. split; [assumption|].
  unfold the_insn. rewrite (proj2 (heap_insn_cell _ _ _) HJ1).
  split; [now destruct I|]. split; [now destruct I|].
  split.
  - intros [|l]; [reflexivity|]. unfold heap_ops, heap_block.
    destruct (decide (l = li)) as [->|Hne]; [now rewrite HJ1, HI|].
    rewrite (Hrest1 l Hne). destruct (decide _); [|reflexivity].
    now destruct (cells h !! l) as [[[[|c cs]| | |]|]|].
  - intros [|l]; [reflexivity|]. unfold heap_op, heap_block.
    destruct (decide (l = li)) as [->|Hne]; [now rewrite HJ1, HI|].
    rewrite (Hrest1 l Hne). destruct (decide _); [|reflexivity].
    now destruct (cells h !! l) as [[[[|c cs]| | |]|]|].
Qed.

Lemma opdis_insn_clear_twice_commented :
  exists h' : heap,
    opdis_insn_clear (Ptr 0%nat) commented = Ok tt h' /\
    opdis_insn_clear (Ptr 0%nat) h' = Ok tt h'.
Proof.
  destruct (opdis_insn_clear_idempotent commented 0%nat
              (the_insn commented (Ptr 0%nat)))
    as (h' & H1 & H2 & _).
  - reflexivity.
  - right. eexists _, _. reflexivity.
  - right. eexists _, _. reflexivity.
  - right. eexists _, _. reflexivity.
  - exists h'. split; assumption.
Defined.

(** ** Releasing an instruction *)

Lemma released_refl (h : heap) : released h [] h.
Proof.
  split; [reflexivity|]. split; [reflexivity|].
  intros l. rewrite decide_False; [reflexivity|]. apply not_elem_of_nil.
Qed.

(** Releasing one more cell, live and not released before. *)
Lemma released_free (h hk : heap) (G : list loc) (l : loc) (b : block) :
  released h G hk ->
  cells h !! l = Some (Some b) ->
  l ∉ G ->
  free (Ptr l) hk = Ok tt (set_cell hk l None) /\
  released h (G ++ [l]) (set_cell hk l None).
Proof.
  intros (Ho & Hlen & Hcells) Hl Hin.
  assert (Hk : cells hk !! l = Some (Some b))
    by (rewrite Hcells, decide_False by assumption; exact Hl).
  split; [now apply free_cell with b|].
  split; [assumption|].
  split; [cbn [cells set_cell]; now rewrite length_insert|].
  intros l'. destruct (decide (l' = l)) as [->|Hne].
  - rewrite cells_set_cell_eq by (eapply cell_lt; eauto).
    rewrite decide_True; [reflexivity|].
    apply elem_of_app. right. apply elem_of_cons. now left.
  - rewrite cells_set_cell_ne by auto. rewrite Hcells.
    destruct (decide (l' ∈ G)) as [Hi|Hi].
    + rewrite decide_True; [reflexivity|]. apply elem_of_app. now left.
    + rewrite decide_False; [reflexivity|].
      rewrite elem_of_app, elem_of_cons, elem_of_nil. tauto.
Qed.





(** X14: Releasing a fixed-size instruction as [opdis_insn_alloc_fixed] made it:
    [num_operands] is 0, so the operand loop of [opdis_insn_free] does not
    run.  The struct, the ascii buffer and the mnemonic buffer are
    released; the prefix buffer, the comment buffer, the operand array and
    the operand structs in its slots stay allocated. *)
Theorem opdis_insn_free_after_alloc_fixed (a m n o : Z) (h h1 : heap)
    (li : loc) :
  opdis_insn_alloc_fixed a m n o h = Ok (Ptr li) h1 ->
  exists (I : opdis_insn_t) (ps : list ptr) (la lm : loc) (h2 : heap),
    heap_insn h1 (Ptr li) = Some I /\
    insn_ascii I = Ptr la /\ insn_mnemonic I = Ptr lm /\
    opdis_insn_free (Ptr li) h1 = Ok tt h2 /\
    released h1 [la; lm; li] h2 /\
    heap_chars h2 (insn_prefixes I)
    = Some (replicate (Z.to_nat (size_t (PREFIX_SIZE m))) NUL) /\
    heap_chars h2 (insn_comment I) = heap_chars h1 (insn_comment I) /\
    operand_array h2 I = Some ps /\
    length ps = Z.to_nat n /\
    forall j : nat, (j < Z.to_nat n)%nat ->
      exists (lo : loc) (b : ptr),
        ps !! j = Some (Ptr lo) /\
        heap_op h2 (Ptr lo) = Some (fixed_op o b).
Proof.
  intros H.
  destruct (opdis_insn_alloc_fixed_outcome _ _ _ _ _ _ _ H)
    as (I & ps & la & lp & lm & HI & (_ & Hno & _) & (Hpa & Hba)
        & (Hpp & Hbp) & (Hpm & Hbm) & Hc & (Hap & Ham & Hpm') & Hps
        & Hlen & Hslots & _).
  assert (Hla : la <> li) by (intros ->; congruence).
  assert (Hlm : lm <> li) by (intros ->; congruence).
  assert (Hlp : lp <> li) by (intros ->; congruence).
  destruct (released_free h1 h1 [] la _ (released_refl h1) Hba)
    as [F1 R1]; [apply not_elem_of_nil|].
  destruct (released_free h1 _ _ lm _ R1 Hbm) as [F2 R2].
  { cbn [app]. rewrite elem_of_cons, elem_of_nil. intuition congruence. }
  destruct (released_free h1 _ _ li _ R2 HI) as [F3 R3].
  { cbn [app]. rewrite !elem_of_cons, elem_of_nil. intuition congruence. }
  cbn [app] in R1, R2, R3.
  exists I, ps, la, lm. eexists.
  split; [now apply heap_insn_cell|]. split; [assumption|].
  split; [assumption|].
  split.
  { unfold opdis_insn_free. cbn [is_null].
    step (load_insn_cell _ _ _ HI). rewrite Hpa, Hpm. cbn [is_null].
    step F1. step F2. rewrite Hno.
    change (Z.to_nat 0) with 0%nat. cbn [free_operands].
    step_ret. exact F3. }
  split; [exact R3|].
  destruct R3 as (_ & _ & Hcells).
  assert (Hkeep : forall l, l <> la -> l <> lm -> l <> li ->
            cells (set_cell (set_cell (set_cell h1 la None) lm None) li None)
              !! l = cells h1 !! l).
  { intros l H1 H2 H3. rewrite Hcells. rewrite decide_False; [reflexivity|].
    rewrite !elem_of_cons, elem_of_nil. tauto. }
  split.
  { rewrite Hpp. apply heap_chars_cell. rewrite Hkeep by congruence.
    exact Hbp. }
  split.
  { destruct Hc as [->|(lc & -> & C1 & C2 & C3 & Hbc)]; [reflexivity|].
    assert (lc <> li) by (intros ->; congruence).
    unfold heap_chars, heap_block. now rewrite Hkeep. }
  split.
  { unfold operand_array in *.
    destruct (insn_operands I) as [|lops]; [assumption|].
    cbn [is_null] in *. apply heap_ops_cell in Hps. apply heap_ops_cell.
    rewrite Hkeep; [assumption|intros ->; congruence..]. }
  split; [assumption|].
  intros j Hj. destruct (Hslots j Hj) as (lo & lb & S1 & S2 & S3).
  exists lo, (Ptr lb). split; [assumption|]. apply heap_op_cell.
  rewrite Hkeep; [assumption|intros ->; congruence..].
Qed.

Lemma opdis_insn_free_fixed_two :
  exists h2 : heap,
    opdis_insn_free (Ptr 0%nat) fixed_two = Ok tt h2 /\
    released fixed_two [2; 4; 0]%nat h2.
Proof.
  destruct (opdis_insn_free_after_alloc_fixed 8 8 2 8 empty_heap fixed_two
              0%nat eq_refl)
    as (I & ps & la & lm & h2 & HI & Ha & Hm & Hrun & Hrel & _).
  injection HI as <-. injection Ha as <-. injection Hm as <-.
  exists h2. split; assumption.
Defined.

(** X15: [opdis_insn_alloc_fixed] does not look at the outcome of the request
    for the comment buffer.  When that request alone is refused the
    instruction is returned with [comment] NULL, and an
    [opdis_insn_add_comment] on it, which takes the fixed-size path, reads
    through the NULL pointer. *)
Theorem opdis_insn_alloc_fixed_comment_unchecked (a m n o : Z)
    (h h' : heap) (li : loc) (s : list ascii) :
  opdis_insn_alloc_fixed a m n o h = Ok (Ptr li) h' ->
  insn_comment (the_insn h' (Ptr li)) = NULL ->
  opdis_insn_add_comment (Ptr li) (Some s) h' = Fault.
Proof.
  intros H Hc.
  destruct (opdis_insn_alloc_fixed_outcome _ _ _ _ _ _ _ H)
    as (I & ps & la & lp & lm & HI & (Hfs & _) & _).
  unfold the_insn in Hc. rewrite (proj2 (heap_insn_cell _ _ _) HI) in Hc.
  cbn [default from_option id] in Hc.
  unfold opdis_insn_add_comment. cbn [is_null].
  step (load_insn_cell _ _ _ HI).
  rewrite decide_True by (rewrite Hfs; discriminate).
  rewrite Hc. reflexivity.
Qed.

Lemma opdis_insn_alloc_fixed_comment_refused :
  value_of (opdis_insn_alloc_fixed 8 8 0 8 fifth_refused)
  = Some (Ptr 0%nat) /\
  opdis_insn_add_comment (Ptr 0%nat) (Some (str "a"))
    (heap_of (opdis_insn_alloc_fixed 8 8 0 8 fifth_refused)) = Fault.
Proof.
  split; [reflexivity|].
  apply (opdis_insn_alloc_fixed_comment_unchecked 8 8 0 8 fifth_refused).
  - reflexivity.
  - reflexivity.
Defined.

(** ** Duplicating an operand *)

(** X16: [opdis_op_dupe] on an operand whose string, if any, is terminated.  It
    returns NULL exactly when the request for the struct is refused, or
    the operand has a string and the request for its copy is refused; the
    new struct is then released, so no new cell is live.  Otherwise the
    new struct has every field of the source, [fixed_size] and [ascii_sz]
    among them, but for [ascii], which designates a copy of the string in a
    buffer of its own that is just as long as the string needs.  No cell
    there was is touched. *)
Theorem opdis_op_dupe_spec (h : heap) (lo : loc) (o : opdis_op_t) :
  heap_op h (Ptr lo) = Some o ->
  (op_ascii o = NULL \/ exists s, heap_string h (op_ascii o) = Some s) ->
  exists (p : ptr) (h' : heap),
    opdis_op_dupe (Ptr lo) h = Ok p h' /\
    (forall l, (l < length (cells h))%nat -> cells h' !! l = cells h !! l) /\
    (p = NULL <->
     next_request h = false \/
     (op_ascii o <> NULL /\ next_request (refuse h) = false)) /\
    match p with
    | NULL =>
        forall l, (length (cells h) <= l)%nat -> heap_block h' (Ptr l) = None
    | Ptr ln =>
        ln = length (cells h) /\
        exists a : ptr,
          heap_op h' p = Some (set_op_ascii a o) /\
          if is_null (op_ascii o) then a = NULL
          else
            a = Ptr (S ln) /\
            heap_string h' a = heap_string h (op_ascii o) /\
            exists buf, heap_chars h' a = Some buf /\
              length buf
              = S (length (default [] (heap_string h (op_ascii o))))
    end.
Proof.
  intros Ho Hs. apply heap_op_cell in Ho.
  pose proof (cell_lt _ _ _ Ho) as Hlo.
  set (ln := length (cells h)).
  unfold opdis_op_dupe, opdis_op_alloc.
  destruct (next_request h) eqn:R1.
  2:{ exists NULL, (refuse h). step (malloc_refused _ _ R1).
      split; [reflexivity|]. split; [reflexivity|].
      split; [tauto|]. intros l Hl. now apply heap_block_beyond. }
  step (malloc_granted _ _ R1). fold ln.
  set (h1 := push_cell h (BOp zero_op)).
  assert (Hlen1 : length (cells h1) = S ln)
    by (subst h1; cbn [cells push_cell]; rewrite length_app; simpl; lia).
  assert (Ho1 : cells h1 !! lo = Some (Some (BOp o)))
    by (subst h1; rewrite cells_push_cell_old by lia; exact Ho).
  step (load_op_cell _ _ _ Ho1).
  assert (Hn1 : cells h1 !! ln = Some (Some (BOp zero_op)))
    by apply cells_push_cell_new.
  step (store_op_cell _ _ _ o Hn1).
  set (h2 := set_cell h1 ln _).
  assert (Hn2 : cells h2 !! ln = Some (Some (BOp o)))
    by (subst h2; apply cells_set_cell_eq; lia).
  step (modify_op_cell _ _ _ _ Hn2).
  set (h3 := set_cell h2 ln _).
  assert (Hlen3 : length (cells h3) = S ln)
    by (subst h3 h2; cbn [cells set_cell]; now rewrite !length_insert).
  assert (Hn3 : cells h3 !! ln = Some (Some (BOp (set_op_ascii NULL o))))
    by (subst h3; apply cells_set_cell_eq; subst h2; cbn [cells set_cell];
        rewrite length_insert; lia).
  assert (Hold3 : forall l, (l < ln)%nat -> cells h3 !! l = cells h !! l).
  { intros l Hl. subst h3 h2. rewrite !cells_set_cell_ne by lia.
    subst h1. now apply cells_push_cell_old. }
  destruct Hs as [Hnull|(s & Hs)].
  { rewrite Hnull. cbn [is_null]. eexists _, _. split; [reflexivity|].
    split; [assumption|].
    split; [split; [discriminate|intros [?|[? _]]; congruence]|].
    split; [reflexivity|]. exists NULL.
    split; [now apply heap_op_cell|reflexivity]. }
  destruct (heap_string_inv _ _ _ Hs) as (la & buf & Ha & Hbuf & Ht & ->).
  rewrite Ha in *. cbn [is_null].
  pose proof (cell_lt _ _ _ Hbuf) as Hla.
  assert (Hbuf3 : cells h3 !! la = Some (Some (BChars buf)))
    by (rewrite Hold3 by exact Hla; exact Hbuf).
  unfold load_string. step (load_chars_cell _ _ _ Hbuf3). rewrite Ht.
  step_ret. unfold strdup. rewrite c_string_idemp.
  assert (R3 : next_request h3 = next_request (refuse h)) by reflexivity.
  destruct (next_request (refuse h)) eqn:R2.
  - step (malloc_granted _ _ R3). rewrite Hlen3.
    set (h4 := push_cell h3 _).
    assert (Hn4 : cells h4 !! ln = Some (Some (BOp (set_op_ascii NULL o))))
      by (subst h4; rewrite cells_push_cell_old by lia; exact Hn3).
    step (modify_op_cell _ _ _ _ Hn4).
    replace (set_op_ascii (Ptr (S ln)) (set_op_ascii NULL o))
      with (set_op_ascii (Ptr (S ln)) o) by now destruct o.
    set (h5 := set_cell h4 ln _).
    assert (Hlen4 : length (cells h4) = S (S ln))
      by (subst h4; cbn [cells push_cell]; rewrite length_app, Hlen3;
          simpl; lia).
    assert (Hb5 : cells h5 !! S ln
                  = Some (Some (BChars (c_string buf ++ [NUL])))).
    { subst h5. rewrite cells_set_cell_ne by lia. subst h4.
      rewrite <- Hlen3. apply cells_push_cell_new. }
    eexists _, _. split; [reflexivity|].
    split.
    { intros l Hl. subst h5. rewrite cells_set_cell_ne by (subst ln; lia).
      subst h4. rewrite cells_push_cell_old by lia. now apply Hold3. }
    split; [split; [discriminate|intros [?|[_ ?]]; congruence]|].
    split; [reflexivity|]. exists (Ptr (S ln)).
    split; [apply heap_op_cell; subst h5; apply cells_set_cell_eq; lia|].
    split; [reflexivity|].
    split.
    + rewrite Hs. rewrite (heap_string_cell _ _ _ Hb5).
      * rewrite c_string_app by apply nul_free_c_string. simpl.
        now rewrite app_nil_r.
      * rewrite terminated_app by apply nul_free_c_string. reflexivity.
    + eexists. split; [apply heap_chars_cell; exact Hb5|].
      rewrite Hs. cbn [default from_option id].
      rewrite length_app. simpl. lia.
  - step (malloc_refused _ _ R3).
    assert (Hn4 : cells (refuse h3) !! ln
                  = Some (Some (BOp (set_op_ascii NULL o)))) by exact Hn3.
    step (modify_op_cell _ _ _ _ Hn4).
    set (h5 := set_cell (refuse h3) ln _).
    assert (Hn5 : cells h5 !! ln
              = Some (Some (BOp (set_op_ascii NULL (set_op_ascii NULL o)))))
      by (subst h5; apply cells_set_cell_eq; cbn [cells refuse]; lia).
    step (free_cell _ _ _ Hn5).
    eexists _, _. split; [reflexivity|].
    split.
    { intros l Hl. rewrite cells_set_cell_ne by (subst ln; lia).
      subst h5. rewrite cells_set_cell_ne by (subst ln; lia).
      now apply Hold3. }
    split; [split; [intros _; right; split; [discriminate|reflexivity]
                   |reflexivity]|].
    assert (Hlen5 : length (cells h5) = S ln)
      by (subst h5; cbn [cells set_cell refuse]; rewrite length_insert;
          exact Hlen3).
    intros l Hl. unfold heap_block.
    destruct (decide (l = ln)) as [->|Hne].
    + rewrite cells_set_cell_eq; [reflexivity|lia].
    + rewrite lookup_ge_None_2; [reflexivity|].
      cbn [cells set_cell]. rewrite length_insert, Hlen5. lia.
Qed.

Lemma opdis_op_dupe_dynamic_operand :
  exists h' : heap,
    opdis_op_dupe (Ptr 0%nat) dynamic_operand = Ok (Ptr 2%nat) h' /\
    heap_string h' (Ptr 3%nat) = Some (str "eax").
Proof.
  destruct (opdis_op_dupe_spec dynamic_operand 0%nat
              (the_op dynamic_operand (Ptr 0%nat)))
    as (p & h' & H1 & _ & H2 & H3).
  - reflexivity.
  - right. eexists. reflexivity.
  - destruct p as [|ln].
    + apply proj1 in H2. specialize (H2 eq_refl).
      destruct H2 as [H2|[_ H2]]; discriminate H2.
    + destruct H3 as (-> & a & _ & -> & H3 & _).
      exists h'. split; [exact H1|exact H3].
Defined.

(** ** A refused request inside [opdis_insn_alloc_fixed] *)

(** X17: [opdis_insn_alloc_fixed] for an instruction without operand slots,
    when the requests for the struct, the ascii buffer and the prefix
    buffer are granted and the request for the mnemonic buffer is refused:
    it returns NULL after [opdis_insn_free], which releases the struct and
    the ascii buffer; the prefix buffer stays allocated, and so does the
    comment buffer when its request was granted. *)
Theorem opdis_insn_alloc_fixed_mnemonic_refused (a m o : Z) (h : heap)
    (c : bool) (rest : list bool) :
  oracle h = true :: true :: true :: false :: c :: rest ->
  exists h' : heap,
    opdis_insn_alloc_fixed a m 0 o h = Ok NULL h' /\
    (forall l, (l < length (cells h))%nat -> cells h' !! l = cells h !! l) /\
    heap_block h' (Ptr (length (cells h))) = None /\
    heap_block h' (Ptr (S (length (cells h)))) = None /\
    heap_block h' (Ptr (S (S (length (cells h)))))
    = Some (BChars (replicate (Z.to_nat (size_t (PREFIX_SIZE m))) NUL)) /\
    heap_block h' (Ptr (S (S (S (length (cells h))))))
    = (if c then Some (BChars (replicate (Z.to_nat a) NUL)) else None).
Proof.
  destruct h as [cs orc]. cbn [oracle cells]. intros ->.
  set (L := length cs).
  set (h0 := {| cells := cs;
                oracle := true :: true :: true :: false :: c :: rest |}).
  assert (E0 : opdis_insn_alloc 0 h0
               = Ok (Ptr L) (push_cell h0 (BInsn zero_insn)))
    by (rewrite opdis_insn_alloc_outcome; reflexivity).
  unfold opdis_insn_alloc_fixed. step E0.
  set (h1 := push_cell h0 _).
  assert (Len1 : length (cells h1) = S L)
    by (subst h1; cbn [cells push_cell]; rewrite length_app; simpl; lia).
  assert (HI1 : cells h1 !! L = Some (Some (BInsn zero_insn)))
    by apply (cells_push_cell_new h0).
  assert (Old1 : forall l, (l < L)%nat -> cells h1 !! l = cs !! l)
    by (intros l Hl; subst h1; now rewrite cells_push_cell_old).
  (* ascii *)
  unfold calloc_chars.
  step (malloc_granted h1 (BChars (replicate (Z.to_nat a) NUL)) eq_refl).
  rewrite Len1. set (h2 := push_cell h1 _).
  assert (Len2 : length (cells h2) = S (S L))
    by (subst h2; cbn [cells push_cell]; rewrite length_app, Len1; simpl;
        lia).
  assert (HI2 : cells h2 !! L = Some (Some (BInsn zero_insn)))
    by (subst h2; rewrite cells_push_cell_old by lia; exact HI1).
  step (modify_insn_cell _ _ _ _ HI2). set (h3 := set_cell h2 L _).
  assert (Len3 : length (cells h3) = S (S L))
    by (subst h3; cbn [cells set_cell]; now rewrite length_insert).
  assert (HI3 : cells h3 !! L = Some (Some (BInsn
                   (set_insn_ascii (Ptr (S L)) zero_insn))))
    by (subst h3; apply cells_set_cell_eq; lia).
  assert (Ha3 : cells h3 !! S L
                = Some (Some (BChars (replicate (Z.to_nat a) NUL)))).
  { subst h3. rewrite cells_set_cell_ne by lia. subst h2.
    rewrite <- Len1. apply cells_push_cell_new. }
  (* prefixes *)
  step (malloc_granted h3
          (BChars (replicate (Z.to_nat (size_t (PREFIX_SIZE m))) NUL))
          eq_refl).
  rewrite Len3. set (h4 := push_cell h3 _).
  assert (Len4 : length (cells h4) = S (S (S L)))
    by (subst h4; cbn [cells push_cell]; rewrite length_app, Len3; simpl;
        lia).
  assert (HI4 : cells h4 !! L = Some (Some (BInsn
                   (set_insn_ascii (Ptr (S L)) zero_insn))))
    by (subst h4; rewrite cells_push_cell_old by lia; exact HI3).
  step (modify_insn_cell _ _ _ _ HI4). set (h5 := set_cell h4 L _).
  assert (Len5 : length (cells h5) = S (S (S L)))
    by (subst h5; cbn [cells set_cell]; now rewrite length_insert).
  assert (Hp5 : cells h5 !! S (S L)
                = Some (Some (BChars (replicate
                     (Z.to_nat (size_t (PREFIX_SIZE m))) NUL)))).
  { subst h5. rewrite cells_set_cell_ne by lia. subst h4.
    rewrite <- Len3. apply cells_push_cell_new. }
  assert (Ha5 : cells h5 !! S L
                = Some (Some (BChars (replicate (Z.to_nat a) NUL)))).
  { subst h5. rewrite cells_set_cell_ne by lia. subst h4.
    rewrite cells_push_cell_old by lia. exact Ha3. }
  assert (Old5 : forall l, (l < L)%nat -> cells h5 !! l = cs !! l).
  { intros l Hl. subst h5. rewrite cells_set_cell_ne by lia. subst h4.
    rewrite cells_push_cell_old by lia. subst h3.
    rewrite cells_set_cell_ne by lia. subst h2.
    rewrite cells_push_cell_old by lia. now apply Old1. }
  assert (HI5 : exists J5, cells h5 !! L = Some (Some (BInsn J5)) /\
                  insn_ascii J5 = Ptr (S L) /\ insn_mnemonic J5 = NULL /\
                  insn_num_operands J5 = 0)
    by (eexists; split; [subst h5; apply cells_set_cell_eq; lia|];
        repeat split).
  destruct HI5 as (J5 & HI5 & Ja5 & Jm5 & Jn5).
  assert (Or5 : oracle h5 = false :: c :: rest) by reflexivity.
  clearbody h5. clear h1 h2 h3 h4 Len1 Len2 Len3 Len4 HI1 HI2 HI3 HI4 Ha3
    Old1.
  (* mnemonic *)
  assert (R5 : next_request h5 = false)
    by (unfold next_request; now rewrite Or5).
  step (malloc_refused h5 (BChars (replicate (Z.to_nat m) NUL)) R5).
  assert (HI6 : cells (refuse h5) !! L = Some (Some (BInsn J5)))
    by exact HI5.
  step (modify_insn_cell _ _ _ _ HI6).
  set (J6 := set_insn_mnemonic NULL J5).
  set (h6 := set_cell (refuse h5) L _).
  assert (Or6 : oracle h6 = c :: rest)
    by (subst h6; cbn [oracle set_cell refuse]; now rewrite Or5).
  assert (Len6 : length (cells h6) = S (S (S L)))
    by (subst h6; cbn [cells set_cell refuse]; now rewrite length_insert).
  assert (HI6' : cells h6 !! L = Some (Some (BInsn J6)))
    by (subst h6; apply cells_set_cell_eq; cbn [cells refuse]; lia).
  assert (Keep6 : forall l, l <> L -> cells h6 !! l = cells h5 !! l)
    by (intros l Hl; subst h6; now rewrite cells_set_cell_ne).
  clearbody h6.
  (* comment *)
  assert (Hc : exists (pc : ptr) (h8 : heap) (J8 : opdis_insn_t),
            malloc (BChars (replicate (Z.to_nat a) NUL)) h6 = Ok pc
              (if c then push_cell h6 (BChars (replicate (Z.to_nat a) NUL))
               else refuse h6) /\
            modify_insn (Ptr L) (set_insn_comment pc)
              (if c then push_cell h6 (BChars (replicate (Z.to_nat a) NUL))
               else refuse h6) = Ok tt h8 /\
            cells h8 !! L = Some (Some (BInsn J8)) /\
            insn_ascii J8 = Ptr (S L) /\ insn_mnemonic J8 = NULL /\
            insn_num_operands J8 = 0 /\
            (forall l, l <> L -> (l < S (S (S L)))%nat ->
                       cells h8 !! l = cells h6 !! l) /\
            heap_block h8 (Ptr (S (S (S L))))
            = (if c then Some (BChars (replicate (Z.to_nat a) NUL))
               else None) /\
            (length (cells h8) <= S (S (S (S L))))%nat).
  { destruct c.
    - assert (R6 : next_request h6 = true)
        by (unfold next_request; now rewrite Or6).
      set (h7 := push_cell h6 (BChars (replicate (Z.to_nat a) NUL))).
      assert (HI7 : cells h7 !! L = Some (Some (BInsn J6)))
        by (subst h7; rewrite cells_push_cell_old by lia; exact HI6').
      eexists _, _, _. split; [now apply malloc_granted|].
      split; [apply modify_insn_cell; exact HI7|].
      split; [apply cells_set_cell_eq; subst h7; cbn [cells push_cell];
              rewrite length_app; lia|].
      split; [subst J6; now destruct J5|].
      split; [subst J6; now destruct J5|].
      split; [subst J6; now destruct J5|].
      split.
      { intros l H1 H2. rewrite cells_set_cell_ne by auto.
        subst h7. rewrite cells_push_cell_old by lia. reflexivity. }
      split.
      { unfold heap_block. rewrite cells_set_cell_ne by lia.
        subst h7. rewrite <- Len6. now rewrite cells_push_cell_new. }
      cbn [cells set_cell]. rewrite length_insert. subst h7.
      cbn [cells push_cell]. rewrite length_app, Len6. simpl. lia.
    - assert (R6 : next_request h6 = false)
        by (unfold next_request; now rewrite Or6).
      assert (HI7 : cells (refuse h6) !! L = Some (Some (BInsn J6)))
        by exact HI6'.
      eexists _, _, _. split; [now apply malloc_refused|].
      split; [apply modify_insn_cell; exact HI7|].
      split; [apply cells_set_cell_eq; cbn [cells refuse]; lia|].
      split; [subst J6; now destruct J5|].
      split; [subst J6; now destruct J5|].
      split; [subst J6; now destruct J5|].
      split; [intros l H1 H2; now rewrite cells_set_cell_ne by auto|].
      split.
      { apply heap_block_beyond. cbn [cells set_cell refuse].
        rewrite length_insert. lia. }
      cbn [cells set_cell refuse]. rewrite length_insert. lia. }
  destruct Hc as (pc & h8 & J8 & Hm8 & Hmod8 & HI8 & Ja8 & Jm8 & Jn8
                  & Keep8 & Hc8 & Len8).
  step Hm8. step Hmod8.
  (* the clean-up *)
  assert (Ha8 : cells h8 !! S L
                = Some (Some (BChars (replicate (Z.to_nat a) NUL))))
    by (rewrite Keep8, Keep6 by lia; exact Ha5).
  destruct (released_free h8 h8 [] (S L) _ (released_refl h8) Ha8)
    as [F1 R1]; [apply not_elem_of_nil|].
  destruct (released_free h8 _ _ L _ R1 HI8) as [F2 R2].
  { cbn [app]. rewrite elem_of_cons, elem_of_nil. lia. }
  cbn [app] in R2. destruct R2 as (_ & _ & Hcells).
  eexists. split.
  { unfold opdis_insn_free. cbn [is_null].
    step (load_insn_cell _ _ _ HI8). rewrite Ja8, Jm8, Jn8.
    cbn [is_null]. step F1. step_ret.
    change (Z.to_nat 0) with 0%nat. cbn [free_operands]. step_ret.
    step F2. reflexivity. }
  split.
  { intros l Hl. rewrite Hcells. rewrite decide_False.
    - rewrite Keep8, Keep6 by lia. now apply Old5.
    - rewrite !elem_of_cons, elem_of_nil. lia. }
  unfold heap_block in *.
  split; [rewrite Hcells, decide_True; [reflexivity|];
          rewrite !elem_of_cons; auto|].
  split; [rewrite Hcells, decide_True; [reflexivity|];
          rewrite !elem_of_cons; auto|].
  split.
  - rewrite Hcells, decide_False
      by (rewrite !elem_of_cons, elem_of_nil; lia).
    rewrite Keep8, Keep6 by lia. now rewrite Hp5.
  - rewrite Hcells, decide_False
      by (rewrite !elem_of_cons, elem_of_nil; lia).
    exact Hc8.
Qed.

Lemma opdis_insn_alloc_fixed_fourth_refused :
  exists h' : heap,
    opdis_insn_alloc_fixed 8 8 0 8 fourth_refused = Ok NULL h' /\
    heap_block h' (Ptr 0%nat) = None /\
    heap_block h' (Ptr 2%nat) = Some (BChars (replicate 32 NUL)).
Proof.
  destruct (opdis_insn_alloc_fixed_mnemonic_refused 8 8 8 fourth_refused
              true [] eq_refl) as (h' & H1 & _ & H2 & _ & H3 & _).
  exists h'. split; [exact H1|]. split; [exact H2|exact H3].
Defined.

(** ** Absent objects and absent texts *)

Section AbsentArguments.
Context {md : opdis_metadata}.

(** X18: Every function of the model that takes an instruction, an operand or
    a text does nothing when it is NULL, and the heap is as before; the
    two that answer a number answer 0, [opdis_insn_fallthrough] 1.  The
    exceptions are the duplicators: [opdis_insn_dupe] reads through a NULL
    instruction, and [opdis_op_dupe] reads through a NULL operand once the
    request for the new struct has been granted. *)
Theorem absent_arguments (h : heap) (t : text) (p : ptr) :
  (opdis_insn_free NULL h = Ok tt h /\
   opdis_insn_clear NULL h = Ok tt h /\
   opdis_op_free NULL h = Ok tt h) /\
  (opdis_insn_set_ascii NULL t h = Ok tt h /\
   opdis_insn_set_mnemonic NULL t h = Ok tt h /\
   opdis_insn_add_prefix NULL t h = Ok tt h /\
   opdis_insn_add_comment NULL t h = Ok tt h) /\
  (opdis_insn_set_ascii p None h = Ok tt h /\
   opdis_insn_set_mnemonic p None h = Ok tt h /\
   opdis_insn_add_prefix p None h = Ok tt h /\
   opdis_insn_add_comment p None h = Ok tt h) /\
  (opdis_insn_add_operand NULL p h = Ok 0 h /\
   opdis_insn_add_operand p NULL h = Ok 0 h /\
   opdis_insn_is_branch NULL h = Ok 0 h /\
   opdis_insn_fallthrough NULL h = Ok 1 h) /\
  opdis_insn_dupe NULL h = Fault /\
  opdis_op_dupe NULL h
  = (if next_request h then Fault else Ok NULL (refuse h)).
Proof.
  split; [repeat split|].
  split; [destruct t; repeat split|].
  split; [repeat split|].
  split; [destruct p; repeat split|].
  split; [reflexivity|].
  unfold opdis_op_dupe, opdis_op_alloc.
  destruct (next_request h) eqn:R.
  - step (malloc_granted _ _ R). reflexivity.
  - step (malloc_refused _ _ R). reflexivity.
Qed.

End AbsentArguments.

(** ** A prefix after a clear *)

(** X19: [opdis_insn_clear] empties the prefix string and keeps its buffer.  On
    an instruction that is not fixed-size the next
    [opdis_insn_add_prefix] therefore takes the text there is, the empty
    string, for a first prefix: the new prefix string starts with the
    separating space. *)
Theorem opdis_insn_clear_then_add_prefix (h : heap) (li lp : loc)
    (I : opdis_insn_t) (c : ascii) (rest s : list ascii) :
  heap_insn h (Ptr li) = Some I ->
  insn_fixed_size I = 0 ->
  insn_prefixes I = Ptr lp ->
  heap_chars h (Ptr lp) = Some (c :: rest) ->
  clearable h (insn_ascii I) ->
  clearable h (insn_mnemonic I) ->
  Z.of_nat (length (c_string s)) + 2 < 2 ^ 64 ->
  next_request h = true ->
  exists h1 h2 : heap,
    opdis_insn_clear (Ptr li) h = Ok tt h1 /\
    heap_string h1 (Ptr lp) = Some [] /\
    opdis_insn_add_prefix (Ptr li) (Some s) h1 = Ok tt h2 /\
    heap_string h2 (insn_prefixes (the_insn h2 (Ptr li)))
    = Some (space ++ c_string s).
Proof.
  intros HI Hfs Hp Hbuf Ha Hm Hmax Hreq.
  apply heap_insn_cell in HI.
  assert (Hcp : clearable h (insn_prefixes I))
    by (right; rewrite Hp; eauto).
  destruct (opdis_insn_clear_outcome h li I HI Ha Hcp Hm)
    as (h1 & Hclear & Ho & Hlen & HJ & Hrest).
  apply heap_chars_cell in Hbuf.
  assert (Hne : lp <> li) by (intros ->; congruence).
  assert (Hbuf1 : cells h1 !! lp = Some (Some (BChars (NUL :: rest)))).
  { rewrite (Hrest lp Hne), Hbuf. rewrite decide_True; [reflexivity|].
    rewrite <- Hp, !elem_of_cons. auto. }
  assert (Hs1 : heap_string h1 (Ptr lp) = Some [])
    by now rewrite (heap_string_cell _ _ _ Hbuf1).
  assert (HpJ : insn_prefixes (cleared I) = Ptr lp)
    by (rewrite <- Hp; now destruct I).
  destruct (append_dynamic insn_prefixes set_insn_prefixes space
              h1 li (cleared I) s) as (h2 & Hrun & _ & Hres);
    try reflexivity; try assumption.
  { now intros []. }
  { right. rewrite HpJ. eauto. }
  { rewrite HpJ, Hs1. cbn [default from_option id length]. lia. }
  assert (Hreq1 : next_request h1 = true)
    by (unfold next_request in *; now rewrite Ho).
  rewrite Hreq1, HpJ, Hs1 in Hres. destruct Hres as (HI2 & Hs2 & _).
  exists h1, h2. split; [assumption|]. split; [assumption|].
  split.
  { unfold opdis_insn_add_prefix. cbn [is_null].
    step (load_insn_cell _ _ _ HJ).
    rewrite decide_False
      by (intros Hn; apply Hn; rewrite <- Hfs; now destruct I).
    exact Hrun. }
  unfold the_insn. rewrite HI2. cbn [default from_option id].
  replace (insn_prefixes (set_insn_prefixes (Ptr (length (cells h1)))
                            (cleared I)))
    with (Ptr (length (cells h1))) by now destruct I.
  exact Hs2.
Qed.

Lemma opdis_insn_clear_then_add_prefix_annotated :
  exists h1 h2 : heap,
    opdis_insn_clear (Ptr 0%nat) annotated = Ok tt h1 /\
    opdis_insn_add_prefix (Ptr 0%nat) (Some (str "rep")) h1 = Ok tt h2 /\
    heap_string h2 (insn_prefixes (the_insn h2 (Ptr 0%nat)))
    = Some (str " rep").
Proof.
  destruct (opdis_insn_clear_then_add_prefix annotated 0%nat 1%nat
              (the_insn annotated (Ptr 0%nat)) "l"%char
              (str "ock" ++ [NUL]) (str "rep"))
    as (h1 & h2 & H1 & _ & H2 & H3).
  - reflexivity.
  - reflexivity.
  - reflexivity.
  - reflexivity.
  - left. reflexivity.
  - left. reflexivity.
  - reflexivity.
  - reflexivity.
  - exists h1, h2. split; [exact H1|]. split; [exact H2|exact H3].
Defined.

(** ** Operands in the order of their insertion *)

(** One [opdis_insn_add_operand] on a heap whose requests are all
    granted: the operand goes into the slot after the operands in use. *)
Lemma opdis_insn_add_operand_appends (h : heap) (li : loc) (op : loc)
    (I : opdis_insn_t) (ps : list ptr) :
  cells h !! li = Some (Some (BInsn I)) ->
  operand_array h I = Some ps ->
  Z.of_nat (length ps) = insn_alloc_operands I ->
  0 <= insn_num_operands I <= insn_alloc_operands I ->
  insn_alloc_operands I < 2 ^ 64 - 1 ->
  oracle h = [] ->
  exists (h' : heap) (I' : opdis_insn_t) (ps' : list ptr),
    opdis_insn_add_operand (Ptr li) (Ptr op) h = Ok 1 h' /\
    cells h' !! li = Some (Some (BInsn I')) /\
    operand_array h' I' = Some ps' /\
    Z.of_nat (length ps') = insn_alloc_operands I' /\
    insn_num_operands I' = insn_num_operands I + 1 /\
    insn_alloc_operands I'
    = Z.max (insn_alloc_operands I) (insn_num_operands I + 1) /\
    take (Z.to_nat (insn_num_operands I')) ps'
    = take (Z.to_nat (insn_num_operands I)) ps ++ [Ptr op] /\
    oracle h' = [].
Proof.
  intros HI Hps Hlen Hnum Hmax Hor.
  pose proof (cell_lt _ _ _ HI) as Hli.
  unfold opdis_insn_add_operand. cbn [is_null orb].
  step (load_insn_cell _ _ _ HI).
  set (k := Z.to_nat (insn_num_operands I)).
  destruct (decide (insn_num_operands I < insn_alloc_operands I))
    as [Hlt|Hge].
  - (* a free slot *)
    unfold operand_array in Hps.
    destruct (insn_operands I) as [|la] eqn:Hops; simpl in Hps.
    { injection Hps as <-. simpl in Hlen. lia. }
    apply heap_ops_cell in Hps.
    assert (Hne : la <> li) by (intros ->; congruence).
    assert (Hslot : 0 <= insn_num_operands I < Z.of_nat (length ps))
      by lia.
    step (write_slot_cell _ _ _ _ (Ptr op) Hps Hslot). fold k.
    set (ps1 := <[k := Ptr op]> ps).
    set (h1 := set_cell h la (Some (BOps ps1))).
    assert (HI1 : cells h1 !! li = Some (Some (BInsn I)))
      by (subst h1; rewrite cells_set_cell_ne; auto).
    step (modify_insn_cell _ _ _ _ HI1).
    rewrite size_t_small by lia.
    eexists _, _, ps1. split; [reflexivity|].
    split.
    { apply cells_set_cell_eq. subst h1; simpl. now rewrite length_insert. }
    split.
    { unfold operand_array. destruct I; simpl in *. subst.
      simpl. apply heap_ops_cell. rewrite cells_set_cell_ne by auto.
      subst h1. apply cells_set_cell_eq. eapply cell_lt; eauto. }
    split; [subst ps1; rewrite length_insert; now destruct I|].
    split; [now destruct I|].
    split; [destruct I; simpl in *; lia|].
    split; [|exact Hor].
    replace (insn_num_operands
               (set_insn_num_operands (insn_num_operands I + 1) I))
      with (insn_num_operands I + 1) by now destruct I.
    replace (Z.to_nat (insn_num_operands I + 1)) with (S k) by lia.
    subst ps1. assert (Hk : (k < length ps)%nat) by lia.
    rewrite (take_S_r _ _ (Ptr op))
      by (apply list_lookup_insert_eq; exact Hk).
    now rewrite take_insert_ge by lia.
  - (* no free slot *)
    assert (Heq : insn_num_operands I = insn_alloc_operands I) by lia.
    step (modify_insn_cell _ _ _ _ HI).
    rewrite size_t_small by lia.
    set (I1 := set_insn_alloc_operands (insn_alloc_operands I + 1) I).
    set (h1 := set_cell h li (Some (BInsn I1))).
    assert (HI1 : cells h1 !! li = Some (Some (BInsn I1)))
      by (subst h1; now apply cells_set_cell_eq).
    step (load_insn_cell _ _ _ HI1).
    assert (Hops1 : insn_operands I1 = insn_operands I)
      by (destruct I; reflexivity).
    assert (Hao1 : insn_alloc_operands I1 = insn_alloc_operands I + 1)
      by (destruct I; reflexivity).
    assert (Hno1 : insn_num_operands I1 = insn_num_operands I)
      by (destruct I; reflexivity).
    assert (Hold : (if is_null (insn_operands I1) then mret []
                    else load_ops (insn_operands I1)) h1 = Ok ps h1).
    { rewrite Hops1. unfold operand_array in Hps.
      destruct (insn_operands I) as [|la]; simpl in *.
      - now injection Hps as <-.
      - apply heap_ops_cell in Hps. apply load_ops_cell.
        subst h1. rewrite cells_set_cell_ne; auto.
        intros ->; congruence. }
    unfold realloc_ops. step Hold.
    assert (Hres : resize (Z.to_nat (insn_alloc_operands I1)) NULL ps
                   = ps ++ [NULL]).
    { rewrite Hao1. replace (Z.to_nat (insn_alloc_operands I + 1))
        with (length ps + 1)%nat by lia.
      rewrite resize_ge by lia.
      now replace (length ps + 1 - length ps)%nat with 1%nat by lia. }
    rewrite Hres.
    assert (Hreq1 : next_request h1 = true)
      by (unfold next_request; subst h1; cbn [oracle set_cell];
          now rewrite Hor).
    step (malloc_granted _ _ Hreq1).
    set (h2 := push_cell h1 (BOps (ps ++ [NULL]))).
    set (ln := length (cells h1)).
    assert (Hln : ln = length (cells h))
      by (subst ln h1; simpl; now rewrite length_insert).
    assert (Hfree : free (insn_operands I1) h2
              = Ok tt (match insn_operands I with
                       | NULL => h2
                       | Ptr la => set_cell h2 la None
                       end)).
    { rewrite Hops1. unfold operand_array in Hps.
      destruct (insn_operands I) as [|la]; [reflexivity|].
      simpl in Hps. apply heap_ops_cell in Hps.
      assert (la <> li) by (intros ->; congruence).
      pose proof (cell_lt _ _ _ Hps).
      unfold free. subst h2.
      rewrite cells_push_cell_old
        by (subst h1; simpl; rewrite length_insert; lia).
      subst h1. rewrite cells_set_cell_ne by auto. now rewrite Hps. }
    step Hfree.
    set (h3 := match insn_operands I with
               | NULL => h2 | Ptr la => set_cell h2 la None end).
    assert (Hlen3 : length (cells h3) = S ln).
    { subst h3 h2. destruct (insn_operands I); simpl;
        rewrite ?length_insert, ?length_app; simpl;
        rewrite ?length_insert; lia. }
    assert (Hor3 : oracle h3 = []).
    { subst h3 h2 h1. destruct (insn_operands I);
        cbn [oracle set_cell push_cell]; now rewrite Hor. }
    assert (Hla : forall l, (l = li \/ l = ln) ->
              cells h3 !! l = cells h2 !! l).
    { intros l Hl. subst h3. unfold operand_array in Hps.
      destruct (insn_operands I) as [|la]; simpl in Hps; [reflexivity|].
      apply heap_ops_cell in Hps. pose proof (cell_lt _ _ _ Hps).
      apply cells_set_cell_ne.
      destruct Hl as [->| ->]; [intros ->; congruence|lia]. }
    assert (HI3 : cells h3 !! li = Some (Some (BInsn I1))).
    { rewrite Hla by auto. subst h2.
      rewrite cells_push_cell_old by lia. exact HI1. }
    step_ret.
    step (modify_insn_cell _ _ _ _ HI3).
    set (I2 := set_insn_operands (Ptr ln) I1).
    set (h4 := set_cell h3 li (Some (BInsn I2))).
    assert (Harr4 : cells h4 !! ln = Some (Some (BOps (ps ++ [NULL])))).
    { subst h4. rewrite cells_set_cell_ne by lia.
      rewrite Hla by auto. subst h2 ln. apply cells_push_cell_new. }
    rewrite Hno1.
    assert (Hslot : 0 <= insn_num_operands I
                         < Z.of_nat (length (ps ++ [NULL])))
      by (rewrite length_app; simpl; lia).
    step (write_slot_cell _ _ _ _ (Ptr op) Harr4 Hslot). fold k.
    set (ps2 := <[k := Ptr op]> (ps ++ [NULL])).
    assert (Hps2 : ps2 = ps ++ [Ptr op]).
    { subst ps2. replace k with (length ps + 0)%nat by lia.
      now rewrite insert_app_r. }
    set (h5 := set_cell h4 ln (Some (BOps ps2))).
    assert (HI5 : cells h5 !! li = Some (Some (BInsn I2))).
    { subst h5. rewrite cells_set_cell_ne by lia.
      subst h4. apply cells_set_cell_eq. lia. }
    step (modify_insn_cell _ _ _ _ HI5).
    rewrite size_t_small by lia.
    eexists _, _, ps2. split; [reflexivity|].
    split.
    { apply cells_set_cell_eq.
      subst h5 h4; simpl. rewrite !length_insert. lia. }
    split.
    { unfold operand_array. subst I2 I1. destruct I; simpl.
      apply heap_ops_cell. rewrite cells_set_cell_ne by lia.
      subst h5. apply cells_set_cell_eq.
      subst h4; simpl. rewrite length_insert. lia. }
    split.
    { rewrite Hps2, length_app. subst I2 I1. destruct I; simpl in *. lia. }
    split; [subst I2 I1; now destruct I|].
    split; [subst I2 I1; destruct I; simpl in *; lia|].
    split; [|exact Hor3].
    replace (insn_num_operands
               (set_insn_num_operands (insn_num_operands I + 1) I2))
      with (insn_num_operands I + 1) by (subst I2 I1; now destruct I).
    replace (Z.to_nat (insn_num_operands I + 1)) with (S k) by lia.
    rewrite Hps2. assert (Hk : k = length ps) by lia.
    rewrite Hk. rewrite firstn_all.
    replace (S (length ps)) with (length (ps ++ [Ptr op]))
      by (rewrite length_app; simpl; lia).
    now rewrite firstn_all.
Qed.

(** X20: Operands come back in the order of their insertion.  On a heap whose
    requests are all granted, appending the operands [qs] one by one gives
    an instruction whose operands in use are those it had, followed by
    [qs]; every call answers 1, and the array grows, one slot per call,
    once the slots there were are used up. *)
Theorem add_operands_in_order (qs : list loc) :
  forall (h : heap) (li : loc) (I : opdis_insn_t) (ps : list ptr),
    heap_insn h (Ptr li) = Some I ->
    operand_array h I = Some ps ->
    Z.of_nat (length ps) = insn_alloc_operands I ->
    0 <= insn_num_operands I <= insn_alloc_operands I ->
    insn_alloc_operands I + Z.of_nat (length qs) < 2 ^ 64 ->
    oracle h = [] ->
    exists (h' : heap) (I' : opdis_insn_t) (ps' : list ptr),
      add_operands (Ptr li) (Ptr <$> qs) h = Ok (Z.of_nat (length qs)) h' /\
      heap_insn h' (Ptr li) = Some I' /\
      operand_array h' I' = Some ps' /\
      insn_num_operands I' = insn_num_operands I + Z.of_nat (length qs) /\
      insn_alloc_operands I'
      = Z.max (insn_alloc_operands I) (insn_num_operands I') /\
      Z.of_nat (length ps') = insn_alloc_operands I' /\
      take (Z.to_nat (insn_num_operands I')) ps'
      = take (Z.to_nat (insn_num_operands I)) ps ++ (Ptr <$> qs).
Proof.
  induction qs as [|q qs IH]; intros h li I ps HI Hps Hlen Hnum Hmax Hor.
  { exists h, I, ps. cbn [add_operands fmap list_fmap length].
    split; [reflexivity|]. split; [assumption|]. split; [assumption|].
    split; [simpl; lia|]. split; [lia|]. split; [assumption|].
    now rewrite app_nil_r. }
  apply heap_insn_cell in HI. cbn [length] in Hmax.
  destruct (opdis_insn_add_operand_appends h li q I ps HI Hps Hlen Hnum)
    as (h1 & I1 & ps1 & Hrun1 & HI1 & Hps1 & Hlen1 & Hnum1 & Hall1
        & Htake1 & Hor1); [lia|assumption|].
  destruct (IH h1 li I1 ps1) as (h' & I' & ps' & Hrun & HI' & Hps' & Hnum'
                                 & Hall' & Hlen' & Htake');
    try assumption; try lia.
  { now apply heap_insn_cell. }
  exists h', I', ps'. split.
  { cbn [add_operands fmap list_fmap]. step Hrun1.
    change (list_fmap loc ptr Ptr qs) with (Ptr <$> qs).
    step Hrun. unfold mret, M_ret. f_equal. cbn [length]. lia. }
  split; [assumption|]. split; [assumption|].
  split; [cbn [length]; lia|]. split; [lia|]. split; [assumption|].
  rewrite Htake', Htake1. rewrite <- app_assoc. reflexivity.
Qed.

Lemma add_operands_two_slots :
  exists h' : heap,
    add_operands (Ptr 0%nat) [Ptr 2%nat; Ptr 2%nat; Ptr 2%nat] two_slots
    = Ok 3 h' /\
    operand_array h' (the_insn h' (Ptr 0%nat))
    = Some [Ptr 2%nat; Ptr 2%nat; Ptr 2%nat].
Proof.
  destruct (add_operands_in_order [2; 2; 2]%nat two_slots 0%nat
              (the_insn two_slots (Ptr 0%nat)) [NULL; NULL])
    as (h' & I' & ps' & H1 & H2 & H3 & H4 & H5 & H6 & H7);
    [reflexivity|reflexivity|reflexivity|vm_compute; split; congruence
    |vm_compute; congruence|reflexivity|].
  exists h'. split; [exact H1|].
  unfold the_insn. rewrite H2. cbn [default from_option id]. rewrite H3.
  f_equal. transitivity (take (Z.to_nat (insn_num_operands I')) ps').
  - symmetry. apply take_ge.
    change (insn_alloc_operands (the_insn two_slots (Ptr 0%nat)))
      with 2 in H5.
    change (insn_num_operands (the_insn two_slots (Ptr 0%nat)))
      with 0 in H4.
    simpl in H4. lia.
  - rewrite H7. reflexivity.
Defined.

(** ** What a duplicate owns and what it shares *)

(** X21: A successful [opdis_insn_dupe] of an instruction whose operands in use
    fit its array: the duplicate is a new struct; its ascii, prefix and
    mnemonic strings and its operands are copies in cells the heap did
    not have; it has as many operands in use as the source; and no cell of
    the source heap is changed. *)
Theorem opdis_insn_dupe_deep_copy (h h' : heap) (ls ld : loc)
    (I : opdis_insn_t) (psS : list ptr) :
  heap_insn h (Ptr ls) = Some I ->
  operand_array h I = Some psS ->
  0 <= insn_num_operands I <= insn_alloc_operands I ->
  insn_num_operands I < 2 ^ 64 ->
  opdis_insn_dupe (Ptr ls) h = Ok (Ptr ld) h' ->
  exists (D : opdis_insn_t) (psD : list ptr),
    heap_insn h' (Ptr ld) = Some D /\
    heap_block h (Ptr ld) = None /\
    (forall l, (l < length (cells h))%nat -> cells h' !! l = cells h !! l) /\
    string_copy h h' (insn_ascii I) (insn_ascii D) /\
    string_copy h h' (insn_prefixes I) (insn_prefixes D) /\
    string_copy h h' (insn_mnemonic I) (insn_mnemonic D) /\
    operand_array h' D = Some psD /\
    (psD = [] \/ exists l, insn_operands D = Ptr l /\
                           heap_block h (Ptr l) = None) /\
    insn_num_operands D = insn_num_operands I /\
    forall j : nat, Z.of_nat j < insn_num_operands I ->
                    dupe_slot h h' psS psD j.
Proof.
  intros HI Hps Hnum Hmax H. apply heap_insn_cell in HI.
  destruct (opdis_insn_dupe_outcome h h' ls ld I psS HI Hps
              ltac:(lia) H)
    as (D & psD & Hld & HD & _ & Hold & Sa & Sp & Sm & HpsD & Hfresh
        & HnumD & Hslots).
  assert (HnD : insn_num_operands D = insn_num_operands I) by lia.
  exists D, psD. split; [now apply heap_insn_cell|].
  split; [apply heap_block_beyond; lia|].
  split; [assumption|]. split; [assumption|]. split; [assumption|].
  split; [assumption|]. split; [assumption|].
  split.
  { unfold operand_array in HpsD.
    destruct (insn_operands D) as [|l] eqn:E; cbn [is_null] in HpsD.
    - left. congruence.
    - right. exists l. split; [reflexivity|].
      apply heap_block_beyond. specialize (Hfresh l eq_refl). lia. }
  split; [assumption|].
  intros j Hj. apply Hslots. lia.
Qed.

Lemma opdis_insn_dupe_decoded_mov :
  exists (h' : heap) (D : opdis_insn_t),
    opdis_insn_dupe (Ptr 0%nat) decoded_mov = Ok (Ptr 9%nat) h' /\
    heap_insn h' (Ptr 9%nat) = Some D /\
    insn_num_operands D = 2 /\
    string_copy decoded_mov h' (Ptr 6%nat) (insn_ascii D).
Proof.
  destruct (opdis_insn_dupe (Ptr 0%nat) decoded_mov) as [p h'|] eqn:E;
    [|discriminate].
  assert (Hp : p = Ptr 9%nat)
    by (apply (f_equal value_of) in E; vm_compute in E; congruence).
  subst p.
  destruct (opdis_insn_dupe_deep_copy decoded_mov h' 0%nat 9%nat
              (the_insn decoded_mov (Ptr 0%nat)) [Ptr 2%nat; Ptr 4%nat])
    as (D & psD & H1 & _ & _ & H2 & _ & _ & _ & _ & H3 & _).
  - reflexivity.
  - reflexivity.
  - vm_compute. split; congruence.
  - vm_compute. reflexivity.
  - exact E.
  - exists h', D. split; [reflexivity|]. split; [exact H1|].
    split; [exact H3|exact H2].
Defined.

(** X22: The duplicate shares the comment buffer of its source.  When the
    source is not fixed-size and gets a further comment, the shared buffer
    is released in favour of a longer one; the duplicate's [comment] still
    designates the released cell, and the next [opdis_insn_add_comment] on
    the duplicate reads it. *)
Theorem opdis_insn_dupe_shares_comment (h h1 : heap) (ls ld lc : loc)
    (I : opdis_insn_t) (psS : list ptr) (old s : list ascii) :
  heap_insn h (Ptr ls) = Some I ->
  operand_array h I = Some psS ->
  0 <= insn_num_operands I < 2 ^ 64 ->
  insn_fixed_size I = 0 ->
  insn_comment I = Ptr lc ->
  heap_string h (Ptr lc) = Some old ->
  Z.of_nat (length old) + Z.of_nat (length (c_string s)) + 2 < 2 ^ 64 ->
  opdis_insn_dupe (Ptr ls) h = Ok (Ptr ld) h1 ->
  next_request h1 = true ->
  exists h2 : heap,
    insn_comment (the_insn h1 (Ptr ld)) = Ptr lc /\
    opdis_insn_add_comment (Ptr ls) (Some s) h1 = Ok tt h2 /\
    insn_comment (the_insn h2 (Ptr ld)) = Ptr lc /\
    heap_block h2 (Ptr lc) = None /\
    forall t : list ascii,
      opdis_insn_add_comment (Ptr ld) (Some t) h2 = Fault.
Proof.
  intros HI Hps Hnum Hfs Hc Hold Hmax H Hreq.
  apply heap_insn_cell in HI.
  destruct (opdis_insn_dupe_outcome h h1 ls ld I psS HI Hps Hnum H)
    as (D & psD & Hld & HD & HDeq & Hframe & _).
  assert (Hfields : insn_comment D = insn_comment I /\
                    insn_fixed_size D = insn_fixed_size I)
    by (rewrite HDeq; destruct I; cbn; auto).
  destruct Hfields as (HcD & HfD).
  destruct (heap_string_inv _ _ _ Hold) as (lc' & buf & [= <-] & Hbuf & Ht
                                            & ->).
  pose proof (cell_lt _ _ _ HI) as Hls.
  pose proof (cell_lt _ _ _ Hbuf) as Hlc.
  pose proof (cell_lt _ _ _ HD) as Hld1.
  assert (HI1 : cells h1 !! ls = Some (Some (BInsn I)))
    by (rewrite Hframe by exact Hls; exact HI).
  assert (Hbuf1 : cells h1 !! lc = Some (Some (BChars buf)))
    by (rewrite Hframe by exact Hlc; exact Hbuf).
  assert (Hold1 : heap_string h1 (insn_comment I) = Some (c_string buf))
    by (rewrite Hc; now apply heap_string_cell).
  destruct (append_dynamic insn_comment set_insn_comment semicolon
              h1 ls I s) as (h2 & Hrun & Hframe2 & Hres);
    try reflexivity; try assumption.
  { now intros []. }
  { right. eauto. }
  { rewrite Hold1. cbn [default from_option id]. exact Hmax. }
  rewrite Hreq in Hres. destruct Hres as (_ & _ & Hgone).
  assert (HD2 : cells h2 !! ld = Some (Some (BInsn D))).
  { rewrite Hframe2; [exact HD|exact Hld1|lia|].
    rewrite Hc. intros [= ->]. lia. }
  exists h2. unfold the_insn.
  rewrite (proj2 (heap_insn_cell _ _ _) HD).
  rewrite (proj2 (heap_insn_cell _ _ _) HD2).
  cbn [default from_option id]. rewrite HcD, Hc.
  split; [reflexivity|].
  split.
  { unfold opdis_insn_add_comment. cbn [is_null].
    step (load_insn_cell _ _ _ HI1).
    rewrite decide_False by (intros Hn; now apply Hn). exact Hrun. }
  split; [reflexivity|].
  rewrite Hc in Hgone. split; [exact Hgone|].
  intros t. unfold opdis_insn_add_comment. cbn [is_null].
  step (load_insn_cell _ _ _ HD2).
  rewrite decide_False by (rewrite HfD, Hfs; intros Hn; now apply Hn).
  rewrite HcD, Hc. cbn [is_null].
  unfold heap_block in Hgone.
  unfold strlen, load_string, load_chars, get_cell, mbind, M_bind.
  destruct (cells h2 !! lc) as [[b|]|]; [discriminate|reflexivity..].
Qed.

Lemma opdis_insn_dupe_shares_comment_annotated :
  exists h1 h2 : heap,
    opdis_insn_dupe (Ptr 0%nat) annotated = Ok (Ptr 3%nat) h1 /\
    opdis_insn_add_comment (Ptr 0%nat) (Some (str "b")) h1 = Ok tt h2 /\
    opdis_insn_add_comment (Ptr 3%nat) (Some (str "c")) h2 = Fault.
Proof.
  destruct (opdis_insn_dupe (Ptr 0%nat) annotated) as [p h1|] eqn:E;
    [|discriminate].
  assert (Hp : p = Ptr 3%nat)
    by (apply (f_equal value_of) in E; vm_compute in E; congruence).
  subst p.
  assert (Hreq : next_request h1 = true).
  { apply (f_equal heap_of) in E. cbn [heap_of] in E. rewrite <- E.
    reflexivity. }
  destruct (opdis_insn_dupe_shares_comment annotated h1 0%nat 3%nat 2%nat
              (the_insn annotated (Ptr 0%nat)) [] (str "a") (str "b"))
    as (h2 & _ & H1 & _ & _ & H2); try reflexivity; try assumption.
  - vm_compute. split; congruence.
  - exists h1, h2. split; [reflexivity|]. split; [exact H1|apply H2].
Defined.

(** ** The duplicate of a fixed-size operand *)

(** X23: [opdis_op_dupe] copies [fixed_size] and [ascii_sz] with the struct and
    gives the copy a buffer that is just as long as the string.  When the
    recorded size less one exceeds that length, every
    [opdis_op_set_ascii] on the copy, which writes [ascii_sz - 1] bytes
    whatever the text, runs off the buffer. *)
Theorem opdis_op_dupe_of_fixed_overruns (h h' : heap) (lo ln : loc)
    (o : opdis_op_t) (buf t : list ascii) :
  heap_op h (Ptr lo) = Some o ->
  op_fixed_size o <> 0 ->
  heap_chars h (op_ascii o) = Some buf ->
  Z.of_nat (length (c_string buf)) + 1 < op_ascii_sz o - 1 < 2 ^ 64 ->
  opdis_op_dupe (Ptr lo) h = Ok (Ptr ln) h' ->
  exists (a : ptr) (buf' : list ascii),
    heap_op h' (Ptr ln) = Some (set_op_ascii a o) /\
    heap_chars h' a = Some buf' /\
    length buf' = S (length (c_string buf)) /\
    opdis_op_set_ascii (Ptr ln) (Some t) h' = Fault.
Proof.
  intros Ho Hfs Hbuf Hsz H.
  destruct (opdis_op_dupe_frame _ _ _ _ H)
    as (Hln & Hgrow & Hold & o0 & a & Ho0 & Hcopy & Hstr).
  apply heap_op_cell in Ho. pose proof (cell_lt _ _ _ Ho) as Hlo.
  apply heap_op_cell in Ho0. rewrite cells_push_cell_old in Ho0 by exact Hlo.
  assert (o0 = o) as -> by congruence.
  destruct (op_ascii o) as [|la] eqn:Ha; [discriminate|].
  apply heap_chars_cell in Hbuf. pose proof (cell_lt _ _ _ Hbuf) as Hla.
  destruct Hstr as [[Hn _]|(buf0 & Hbuf0 & Ht & -> & Hnew)]; [discriminate|].
  apply heap_chars_cell in Hbuf0.
  rewrite cells_push_cell_old in Hbuf0 by exact Hla.
  assert (buf0 = buf) as -> by congruence.
  exists (Ptr (S ln)), (c_string buf ++ [NUL]).
  split; [now apply heap_op_cell|].
  split; [now apply heap_chars_cell|].
  split; [rewrite length_app; simpl; lia|].
  unfold opdis_op_set_ascii. cbn [is_null].
  step (load_op_cell _ _ _ Hcopy).
  replace (op_fixed_size (set_op_ascii (Ptr (S ln)) o))
    with (op_fixed_size o) by now destruct o.
  rewrite decide_True by assumption.
  replace (op_ascii (set_op_ascii (Ptr (S ln)) o))
    with (Ptr (S ln)) by now destruct o.
  replace (op_ascii_sz (set_op_ascii (Ptr (S ln)) o))
    with (op_ascii_sz o) by now destruct o.
  unfold strncpy. step (load_chars_cell _ _ _ Hnew).
  rewrite size_t_small by lia.
  rewrite decide_False; [reflexivity|].
  rewrite length_app. simpl. lia.
Qed.

Lemma opdis_op_dupe_of_fixed_operand_260 :
  exists h' : heap,
    opdis_op_dupe (Ptr 0%nat) fixed_operand_260 = Ok (Ptr 2%nat) h' /\
    opdis_op_set_ascii (Ptr 2%nat) (Some (str "x")) h' = Fault.
Proof.
  destruct (opdis_op_dupe (Ptr 0%nat) fixed_operand_260) as [p h'|] eqn:E;
    [|discriminate].
  assert (Hp : p = Ptr 2%nat)
    by (apply (f_equal value_of) in E; vm_compute in E; congruence).
  subst p.
  destruct (opdis_op_dupe_of_fixed_overruns fixed_operand_260 h' 0%nat 2%nat
              (the_op fixed_operand_260 (Ptr 0%nat))
              (the_chars fixed_operand_260 (Ptr 1%nat)) (str "x"))
    as (a & buf' & _ & _ & _ & H1).
  - reflexivity.
  - discriminate.
  - reflexivity.
  - vm_compute. split; reflexivity.
  - exact E.
  - exists h'. split; [reflexivity|exact H1].
Defined.

(** ** The first prefix and the first comment of a fixed-size instruction *)

(** X24: After [opdis_insn_alloc_fixed a m n o] the prefix buffer has [4 * m]
    bytes and the capacity [opdis_insn_add_prefix] works with is four times
    the recorded mnemonic size [m mod 256]; the comment buffer has [a]
    bytes and the capacity [opdis_insn_add_comment] works with is the
    recorded ascii size [a mod 256].  The first prefix, and the first
    comment, is stored behind a space and cut to the capacity less two. *)
Theorem opdis_insn_alloc_fixed_then_annotate (a m n o : Z) (h h' : heap)
    (li : loc) (s : list ascii) :
  opdis_insn_alloc_fixed a m n o h = Ok (Ptr li) h' ->
  exists I : opdis_insn_t,
    heap_insn h' (Ptr li) = Some I /\
    (0 <= m -> m mod 256 <> 0 -> 4 * m < 2 ^ 64 ->
     exists h'' : heap,
       opdis_insn_add_prefix (Ptr li) (Some s) h' = Ok tt h'' /\
       heap_string h'' (insn_prefixes I)
       = Some (space ++ take (Z.to_nat (4 * (m mod 256) - 2)) (c_string s)))
    /\
    (0 <= a -> 2 <= a mod 256 -> insn_comment I <> NULL ->
     exists h'' : heap,
       opdis_insn_add_comment (Ptr li) (Some s) h' = Ok tt h'' /\
       heap_string h'' (insn_comment I)
       = Some (space ++ take (Z.to_nat (a mod 256 - 2)) (c_string s))).
Proof.
  intros H.
  destruct (opdis_insn_alloc_fixed_outcome _ _ _ _ _ _ _ H)
    as (I & ps & la & lp & lm & HI & (Hfs & _ & Hasz & Hmsz & _) & _
        & (Hpp & Hbp) & _ & Hc & _).
  exists I. split; [now apply heap_insn_cell|].
  assert (Hz : forall k, (0 < k)%nat ->
            terminated (replicate k NUL) = true /\
            c_string (replicate k NUL) = [])
    by (intros [|k] Hk; [lia|split; reflexivity]).
  split.
  - intros Hm Hmod Hmax.
    pose proof (uchar_range m) as Hr. pose proof (uchar_le m Hm) as Hle.
    unfold uchar in *.
    set (buf := replicate (Z.to_nat (size_t (PREFIX_SIZE m))) NUL) in *.
    assert (Hlen : Z.of_nat (length buf) = 4 * m).
    { subst buf. rewrite length_replicate. unfold PREFIX_SIZE.
      rewrite size_t_small by lia. lia. }
    destruct (Hz (Z.to_nat (size_t (PREFIX_SIZE m)))) as [Ht Hs].
    { unfold PREFIX_SIZE. rewrite size_t_small by lia. lia. }
    fold buf in Ht, Hs.
    destruct (append_fixed h' lp buf s (PREFIX_SIZE (insn_mnemonic_sz I))
                Hbp Ht) as [Hroom _].
    { rewrite Hs, Hmsz. unfold PREFIX_SIZE, uchar. simpl. lia. }
    { rewrite Hmsz. unfold PREFIX_SIZE, uchar. lia. }
    { rewrite Hmsz. unfold PREFIX_SIZE, uchar. lia. }
    destruct Hroom as (buf' & Hrun & _ & Ht' & Hs').
    { rewrite Hs, Hmsz. unfold PREFIX_SIZE, uchar. simpl. lia. }
    eexists. split.
    { unfold opdis_insn_add_prefix. cbn [is_null].
      step (load_insn_cell _ _ _ HI).
      rewrite decide_True by (rewrite Hfs; discriminate).
      rewrite Hpp. exact Hrun. }
    rewrite Hpp. rewrite (heap_string_cell _ lp buf').
    + rewrite Hs', Hs, Hmsz. unfold PREFIX_SIZE, uchar. simpl.
      now rewrite Z.sub_0_r.
    + apply cells_set_cell_eq. eapply cell_lt; eauto.
    + assumption.
  - intros Ha Hmod Hnn.
    destruct Hc as [?|(lc & Hpc & _ & _ & _ & Hbc)]; [contradiction|].
    pose proof (uchar_range a) as Hr. pose proof (uchar_le a Ha) as Hle.
    unfold uchar in *.
    set (buf := replicate (Z.to_nat a) NUL) in *.
    assert (Hlen : Z.of_nat (length buf) = a)
      by (subst buf; rewrite length_replicate; lia).
    destruct (Hz (Z.to_nat a)) as [Ht Hs]; [lia|].
    fold buf in Ht, Hs.
    destruct (append_fixed h' lc buf s (insn_ascii_sz I) Hbc Ht)
      as [Hroom _].
    { rewrite Hs, Hasz. unfold uchar. simpl. lia. }
    { rewrite Hasz. unfold uchar. lia. }
    { rewrite Hasz. unfold uchar. lia. }
    destruct Hroom as (buf' & Hrun & _ & Ht' & Hs').
    { rewrite Hs, Hasz. unfold uchar. simpl. lia. }
    eexists. split.
    { unfold opdis_insn_add_comment. cbn [is_null].
      step (load_insn_cell _ _ _ HI).
      rewrite decide_True by (rewrite Hfs; discriminate).
      rewrite Hpc. exact Hrun. }
    rewrite Hpc. rewrite (heap_string_cell _ lc buf').
    + rewrite Hs', Hs, Hasz. unfold uchar. simpl.
      now rewrite Z.sub_0_r.
    + apply cells_set_cell_eq. eapply cell_lt; eauto.
    + assumption.
Qed.

Lemma opdis_insn_alloc_fixed_then_annotate_wide :
  exists h1 h2 : heap,
    opdis_insn_add_prefix (Ptr 0%nat) (Some (str "repnz")) fixed_wide
    = Ok tt h1 /\
    heap_string h1 (Ptr 2%nat) = Some (str " repnz") /\
    opdis_insn_add_comment (Ptr 0%nat) (Some (str "abc")) fixed_wide
    = Ok tt h2 /\
    heap_string h2 (Ptr 4%nat) = Some (str " ab").
Proof.
  destruct (opdis_insn_alloc_fixed_then_annotate 260 258 0 8 empty_heap
              fixed_wide 0%nat (str "repnz") eq_refl)
    as (I & HI & Hp & _).
  destruct (opdis_insn_alloc_fixed_then_annotate 260 258 0 8 empty_heap
              fixed_wide 0%nat (str "abc") eq_refl)
    as (I' & HI' & _ & Hc).
  injection HI as <-. injection HI' as <-.
  destruct Hp as (h1 & P1 & P2); [lia|discriminate|lia|].
  destruct Hc as (h2 & C1 & C2); [lia|vm_compute; congruence|discriminate|].
  exists h1, h2. split; [exact P1|]. split; [exact P2|].
  split; [exact C1|exact C2].
Defined.
